(** * Double-entry derivation core of the bookkeeping application

    Shallow embedding of [lib/accounting.ts] (chart of accounts,
    [generateJournal], [generateLedger]) and of the report derivations that
    read it ([ReportsPage] in its two versions, the dashboard [stats]).

    Modelling conventions
    - A JavaScript [number] is read in two ways.  The definitions at top
      level read an amount as an integer [Z] (whole rupiah) with exact [+]
      and [-]; they carry the statements in which rounding plays no part:
      what is posted where, with which sign and in which order.  Module
      [Binary64] is the same code on IEEE-754 binary64 numbers with the
      correctly rounded operations, which is what runs; what compares two
      sums formed in different ways is stated about it.  The two readings are
      linked: on whole amounts whose absolute values sum to less than 2^53
      the program on binary64 numbers computes what the program on integers
      computes.
    - [Number(x)] applied to a number is the identity.
    - A plain JavaScript object used as a map is an association list holding
      its own properties in property order, together with the properties every
      plain object inherits from [Object.prototype].
    - A thrown exception is the [Throw] outcome of a [Completion]. *)

From Stdlib Require Import List String ZArith Lia Bool Permutation.
From Stdlib Require Import Floats.
Import ListNotations.

Local Open Scope string_scope.
Local Open Scope Z_scope.
Local Open Scope list_scope.

(* ================================================================== *)
(** ** JavaScript values used by the code *)

(** [Number(t.amount)]: the argument already is a number. *)
Definition Number (x : Z) : Z := x.

(** [x || 0] on a number: [0] is the only falsy integer. *)
Definition or_zero (x : Z) : Z := if x =? 0 then 0 else x.

Inductive JsError : Type :=
| TypeError.

(** Outcome of running a statement: normal completion with a value, or an
    exception that unwinds to the caller. *)
Inductive Completion (A : Type) : Type :=
| Ok (a : A)
| Throw (e : JsError).

Arguments Ok {A} a.
Arguments Throw {A} e.

Definition bind {A B : Type} (c : Completion A) (k : A -> Completion B)
  : Completion B :=
  match c with
  | Ok a => k a
  | Throw e => Throw e
  end.

Notation "x <- c ;; k" := (bind c (fun x => k))
  (at level 61, c at next level, right associativity).

(** [xs.forEach(f)] where [f] updates a state and may throw: the elements are
    visited left to right and the first exception stops the loop. *)
Fixpoint forEach {A S : Type} (f : S -> A -> Completion S) (xs : list A) (s : S)
  : Completion S :=
  match xs with
  | [] => Ok s
  | x :: xs' => s' <- f s x ;; forEach f xs' s'
  end.

(** [xs.reduce((sum, x) => sum + f(x), 0)] on integers;
    [Binary64.reduce_sum] is the same fold on binary64 numbers. *)
Definition reduce_sum {A : Type} (f : A -> Z) (xs : list A) : Z :=
  fold_left (fun sum x => sum + f x) xs 0.

Module JsObject.

(** Own enumerable string-keyed properties, in property order.  Every key
    this program writes is a chart code; the codes are written in ascending
    numeric order, so insertion order and the engine's ordering of
    integer-like keys coincide. *)
Definition t (V : Type) : Type := list (string * V).

Definition empty {V : Type} : t V := [].

Fixpoint getOwn {V : Type} (o : t V) (k : string) : option V :=
  match o with
  | [] => None
  | (k', v) :: o' => if String.eqb k' k then Some v else getOwn o' k
  end.

(** [o[k] = v]: overwrite in place, or add a new last property. *)
Fixpoint set {V : Type} (o : t V) (k : string) (v : V) : t V :=
  match o with
  | [] => [(k, v)]
  | (k', v') :: o' =>
      if String.eqb k' k then (k', v) :: o' else (k', v') :: set o' k v
  end.

(** [Object.values(o)] *)
Definition values {V : Type} (o : t V) : list V := map snd o.

Definition keys {V : Type} (o : t V) : list string := map fst o.

(** Property names every plain object inherits from [Object.prototype]
    (ECMAScript 20.1.3 and Annex B.2.2).  Each of them reads as a function,
    or as the prototype object itself for [__proto__]: a truthy value. *)
Definition prototype_names : list string :=
  [ "constructor"; "hasOwnProperty"; "isPrototypeOf"; "propertyIsEnumerable";
    "toLocaleString"; "toString"; "valueOf"; "__proto__";
    "__defineGetter__"; "__defineSetter__";
    "__lookupGetter__"; "__lookupSetter__" ].

Definition inherited (k : string) : bool :=
  existsb (String.eqb k) prototype_names.

(** Result of the property read [o[k]] on a plain object: an own property
    with its stored value, a truthy built-in found on [Object.prototype], or
    [undefined] when the name is nowhere on the prototype chain. *)
Inductive Property (V : Type) : Type :=
| Own (v : V)
| Inherited
| Undefined.

Arguments Own {V} v.
Arguments Inherited {V}.
Arguments Undefined {V}.

Definition get {V : Type} (o : t V) (k : string) : Property V :=
  match getOwn o k with
  | Some v => Own v
  | None => if inherited k then Inherited else Undefined
  end.

End JsObject.

(* ================================================================== *)
(** ** types/index.ts *)

(** The interface [Transaction] declares [type] and [payment_status] as unions
    of two string literals. *)
Inductive TransactionType : Type := income | expense.
Inductive PaymentStatus : Type := paid | unpaid.

Record Transaction : Type := {
  tx_id : string;
  tx_date : string;
  tx_description : string;
  tx_amount : Z;
  tx_type : TransactionType;
  tx_payment_status : PaymentStatus;
  tx_created_at : string
}.

(** The object the code receives at run time.  TypeScript types are erased:
    [type] and [payment_status] are plain strings, compared with [===]; the
    rows come from the datastore through an unchecked cast. *)
Record TransactionObject : Type := {
  o_id : string;
  o_date : string;
  o_description : string;
  o_amount : Z;
  o_type : string;
  o_payment_status : string;
  o_created_at : string
}.

Definition typeLiteral (ty : TransactionType) : string :=
  match ty with income => "income" | expense => "expense" end.

Definition statusLiteral (st : PaymentStatus) : string :=
  match st with paid => "paid" | unpaid => "unpaid" end.

Definition toObject (t : Transaction) : TransactionObject :=
  {| o_id := tx_id t;
     o_date := tx_date t;
     o_description := tx_description t;
     o_amount := tx_amount t;
     o_type := typeLiteral (tx_type t);
     o_payment_status := statusLiteral (tx_payment_status t);
     o_created_at := tx_created_at t |}.

(* ================================================================== *)
(** ** lib/accounting.ts, 1: chart of accounts *)

Inductive AccountType : Type := Asset | Liability | Equity | Revenue | Expense.
Inductive NormalBalance : Type := Debit | Credit.

Record Account : Type := {
  code : string;
  name : string;
  type : AccountType;
  normalBalance : NormalBalance
}.

Definition mkAccount (c n : string) (ty : AccountType) (nb : NormalBalance)
  : string * Account :=
  (c, {| code := c; name := n; type := ty; normalBalance := nb |}).

Definition CHART_OF_ACCOUNTS : JsObject.t Account :=
  [ mkAccount "101" "Kas & Bank" Asset Debit;
    mkAccount "102" "Piutang Usaha" Asset Debit;
    mkAccount "201" "Utang Usaha" Liability Credit;
    mkAccount "301" "Modal Pemilik" Equity Credit;
    mkAccount "302" "Laba Ditahan" Equity Credit;
    mkAccount "303" "Prive" Equity Debit;
    mkAccount "401" "Pendapatan Jasa" Revenue Credit;
    mkAccount "501" "Beban Operasional" Expense Debit ].

(** [CHART_OF_ACCOUNTS[k].name] for one of the literal keys of the source.
    The read of [.name] on a missing account would throw; the four literals
    used by [generateJournal] are all keys of the chart. *)
Definition chart_name (k : string) : string :=
  match JsObject.getOwn CHART_OF_ACCOUNTS k with
  | Some acc => name acc
  | None => ""
  end.

(* ================================================================== *)
(** ** lib/accounting.ts, 2: journal entries *)

Record JournalEntryLine : Type := {
  accountId : string;
  accountName : string;
  debit : Z;
  credit : Z
}.

Record JournalEntry : Type := {
  je_id : string;
  je_date : string;
  je_description : string;
  je_lines : list JournalEntryLine
}.

(** [lines.push(l)] *)
Definition push {A : Type} (xs : list A) (x : A) : list A := xs ++ [x].

(** Body of the callback of [transactions.map] in [generateJournal]. *)
Definition journalEntryOf (t : TransactionObject) : JournalEntry :=
  let lines : list JournalEntryLine := [] in
  let amount := Number (o_amount t) in
  let lines :=
    if String.eqb (o_type t) "income" then
      (* Revenue is always credited *)
      let lines := push lines
        {| accountId := "401"; accountName := chart_name "401";
           debit := 0; credit := amount |} in
      if String.eqb (o_payment_status t) "paid" then
        (* cash sale: debit cash *)
        push lines
          {| accountId := "101"; accountName := chart_name "101";
             debit := amount; credit := 0 |}
      else
        (* credit sale: debit accounts receivable *)
        push lines
          {| accountId := "102"; accountName := chart_name "102";
             debit := amount; credit := 0 |}
    else if String.eqb (o_type t) "expense" then
      (* Expense is always debited *)
      let lines := push lines
        {| accountId := "501"; accountName := chart_name "501";
           debit := amount; credit := 0 |} in
      if String.eqb (o_payment_status t) "paid" then
        (* cash expense: credit cash *)
        push lines
          {| accountId := "101"; accountName := chart_name "101";
             debit := 0; credit := amount |}
      else
        (* accrued expense: credit accounts payable *)
        push lines
          {| accountId := "201"; accountName := chart_name "201";
             debit := 0; credit := amount |}
    else lines in
  {| je_id := o_id t;
     je_date := o_date t;
     je_description := o_description t;
     je_lines := lines |}.

(** [generateJournal] as it runs, on whatever objects it is handed. *)
Definition generateJournalJs (transactions : list TransactionObject)
  : list JournalEntry :=
  map journalEntryOf transactions.

(** [generateJournal] at its declared type [Transaction[] => JournalEntry[]]. *)
Definition generateJournal (transactions : list Transaction)
  : list JournalEntry :=
  generateJournalJs (map toObject transactions).

(* ================================================================== *)
(** ** lib/accounting.ts, 3: general ledger *)

Record LedgerEntry : Type := {
  le_date : string;
  le_description : string;
  le_debit : Z;
  le_credit : Z
}.

Record LedgerAccount : Type := {
  la_code : string;
  la_name : string;
  la_type : AccountType;
  la_balance : Z;
  la_entries : list LedgerEntry
}.

Definition Ledger : Type := JsObject.t LedgerAccount.

(** "Initialize all accounts": one assignment [ledger[acc.code] = {...}] per
    value of the chart. *)
Definition initAccount (ledger : Ledger) (acc : Account) : Ledger :=
  JsObject.set ledger (code acc)
    {| la_code := code acc;
       la_name := name acc;
       la_type := type acc;
       la_balance := 0;
       la_entries := [] |}.

Definition initLedger : Ledger :=
  fold_left initAccount (JsObject.values CHART_OF_ACCOUNTS) JsObject.empty.

(** The test [CHART_OF_ACCOUNTS[account.code].normalBalance === 'Debit'].
    Reading [.normalBalance] of [undefined] throws; a built-in inherited from
    [Object.prototype] has no such property and the test is false. *)
Definition normalBalanceIsDebit (k : string) : Completion bool :=
  match JsObject.get CHART_OF_ACCOUNTS k with
  | JsObject.Own acc =>
      Ok (match normalBalance acc with Debit => true | Credit => false end)
  | JsObject.Inherited => Ok false
  | JsObject.Undefined => Throw TypeError
  end.

(** Body of the inner [entry.lines.forEach].  [account] aliases the object
    stored in [ledger] under [line.accountId], so the two mutations are
    written back to that property.  When the read [ledger[line.accountId]]
    finds an inherited built-in the guard [if (account)] passes and the call
    [account.entries.push(...)] throws a [TypeError]: [account.entries] is
    [undefined], or for "constructor" the function [Object.entries], which has
    no [push].  The balance is updated by integer addition here and by
    binary64 addition in [Binary64.postLine]. *)
Definition postLine (entry : JournalEntry) (ledger : Ledger)
  (line : JournalEntryLine) : Completion Ledger :=
  match JsObject.get ledger (accountId line) with
  | JsObject.Undefined => Ok ledger
  | JsObject.Inherited => Throw TypeError
  | JsObject.Own account =>
      let entries :=
        push (la_entries account)
          {| le_date := je_date entry;
             le_description := je_description entry;
             le_debit := debit line;
             le_credit := credit line |} in
      isDebit <- normalBalanceIsDebit (la_code account) ;;
      let balance :=
        if isDebit
        then la_balance account + (debit line - credit line)
        else la_balance account + (credit line - debit line) in
      Ok (JsObject.set ledger (accountId line)
            {| la_code := la_code account;
               la_name := la_name account;
               la_type := la_type account;
               la_balance := balance;
               la_entries := entries |})
  end.

Definition postEntry (ledger : Ledger) (entry : JournalEntry)
  : Completion Ledger :=
  forEach (postLine entry) (je_lines entry) ledger.

Definition generateLedger (journal : list JournalEntry)
  : Completion (list LedgerAccount) :=
  ledger <- forEach postEntry journal initLedger ;;
  Ok (JsObject.values ledger).

(* ================================================================== *)
(** ** App.tsx: dashboard [stats] *)

Definition isType (ty : string) (t : TransactionObject) : bool :=
  String.eqb (o_type t) ty.

Definition isStatus (st : string) (t : TransactionObject) : bool :=
  String.eqb (o_payment_status t) st.

Definition amountOf (t : TransactionObject) : Z := Number (o_amount t).

Record Stats : Type := {
  st_income : Z;
  st_expenses : Z;
  st_profit : Z;
  st_unpaid : Z
}.

Definition stats (transactions : list TransactionObject) : Stats :=
  let income :=
    reduce_sum amountOf
      (filter (fun t => isType "income" t && isStatus "paid" t) transactions) in
  let expenses :=
    reduce_sum amountOf
      (filter (fun t => isType "expense" t && isStatus "paid" t) transactions) in
  let unpaid :=
    reduce_sum amountOf
      (filter (fun t => isType "income" t && isStatus "unpaid" t) transactions) in
  let profit := income - expenses in
  {| st_income := income; st_expenses := expenses;
     st_profit := profit; st_unpaid := unpaid |}.

(* ================================================================== *)
(** ** pages/ReportsPage.tsx: balance sheet read off the transactions *)

Module TransactionReports.

Record Assets : Type := {
  cash : Z;
  accountsReceivable : Z;
  assets_total : Z
}.

Record Liabilities : Type := {
  accountsPayable : Z;
  liabilities_total : Z
}.

Record EquityData : Type := {
  retainedEarnings : Z;
  equity_total : Z
}.

Record BalanceSheet : Type := {
  assets : Assets;
  liabilities : Liabilities;
  equity : EquityData
}.

Definition balanceSheetData (transactions : list TransactionObject)
  : BalanceSheet :=
  let cash :=
    reduce_sum
      (fun t => if isType "income" t then Number (o_amount t)
                else - Number (o_amount t))
      (filter (fun t => isStatus "paid" t) transactions) in
  let accountsReceivable :=
    reduce_sum amountOf
      (filter (fun t => isType "income" t && isStatus "unpaid" t) transactions) in
  let totalAssets := cash + accountsReceivable in
  let accountsPayable :=
    reduce_sum amountOf
      (filter (fun t => isType "expense" t && isStatus "unpaid" t) transactions) in
  let totalLiabilities := accountsPayable in
  (* Equity = Assets - Liabilities *)
  let equity := totalAssets - totalLiabilities in
  {| assets := {| cash := cash;
                  accountsReceivable := accountsReceivable;
                  assets_total := totalAssets |};
     liabilities := {| accountsPayable := accountsPayable;
                       liabilities_total := totalLiabilities |};
     equity := {| retainedEarnings := equity; equity_total := equity |} |}.

End TransactionReports.

(* ================================================================== *)
(** ** ReportsPage, ledger-based version: balance sheet and cash flow *)

Module LedgerReports.

Record Assets : Type := {
  cash : Z;
  accountsReceivable : Z;
  assets_total : Z
}.

Record Liabilities : Type := {
  accountsPayable : Z;
  liabilities_total : Z
}.

Record EquityData : Type := {
  retainedEarnings : Z;
  capital : Z;
  equity_total : Z
}.

Record BalanceSheet : Type := {
  assets : Assets;
  liabilities : Liabilities;
  equity : EquityData
}.

Record CashFlow : Type := {
  cashIn : Z;
  cashOut : Z;
  netCash : Z
}.

Record Reports : Type := {
  ledger : Ledger;
  balanceSheetData : BalanceSheet;
  cashFlowData : CashFlow
}.

(** [ledgerList.reduce((acc, curr) => ({ ...acc, [curr.code]: curr }), {})] *)
Definition ledgerMapOf (ledgerList : list LedgerAccount) : Ledger :=
  fold_left (fun acc curr => JsObject.set acc (la_code curr) curr)
    ledgerList JsObject.empty.

(** [ledgerMap[k]?.balance || 0] *)
Definition balanceOr0 (ledgerMap : Ledger) (k : string) : Z :=
  match JsObject.get ledgerMap k with
  | JsObject.Own acc => or_zero (la_balance acc)
  | JsObject.Inherited => 0
  | JsObject.Undefined => 0
  end.

Definition balanceSheetOf (ledgerMap : Ledger) : BalanceSheet :=
  let assets :=
    {| cash := balanceOr0 ledgerMap "101";
       accountsReceivable := balanceOr0 ledgerMap "102";
       assets_total := balanceOr0 ledgerMap "101" + balanceOr0 ledgerMap "102" |} in
  let liabilities :=
    {| accountsPayable := balanceOr0 ledgerMap "201";
       liabilities_total := balanceOr0 ledgerMap "201" |} in
  let equity :=
    (* net income is computed on the fly *)
    {| retainedEarnings := balanceOr0 ledgerMap "401" - balanceOr0 ledgerMap "501";
       capital := balanceOr0 ledgerMap "301";
       equity_total :=
         balanceOr0 ledgerMap "301"
         + (balanceOr0 ledgerMap "401" - balanceOr0 ledgerMap "501") |} in
  {| assets := assets; liabilities := liabilities; equity := equity |}.

Definition cashFlowOf (transactions : list TransactionObject) : CashFlow :=
  let cashIn :=
    reduce_sum amountOf
      (filter (fun t => isType "income" t && isStatus "paid" t) transactions) in
  let cashOut :=
    reduce_sum amountOf
      (filter (fun t => isType "expense" t && isStatus "paid" t) transactions) in
  {| cashIn := cashIn; cashOut := cashOut; netCash := cashIn - cashOut |}.

(** The [useMemo] callback, without the monthly table that depends on the
    clock.  An exception of [generateLedger] leaves the callback. *)
Definition reports (transactions : list TransactionObject) : Completion Reports :=
  let journal := generateJournalJs transactions in
  ledgerList <- generateLedger journal ;;
  let ledgerMap := ledgerMapOf ledgerList in
  Ok {| ledger := ledgerMap;
        balanceSheetData := balanceSheetOf ledgerMap;
        cashFlowData := cashFlowOf transactions |}.

End LedgerReports.

(* ================================================================== *)
(** ** Specification vocabulary *)

(** The sum of [f] over a list, written as the specification writes it. *)
Fixpoint sumOver {A : Type} (f : A -> Z) (xs : list A) : Z :=
  match xs with
  | [] => 0
  | x :: xs' => f x + sumOver f xs'
  end.

(** A posting is one journal line together with the entry it belongs to. *)
Abbreviation Posting := (JournalEntry * JournalEntryLine)%type (only parsing).

(** All postings of a journal, in the order [generateLedger] visits them. *)
Definition postings (journal : list JournalEntry) : list Posting :=
  flat_map (fun entry => map (pair entry) (je_lines entry)) journal.

Definition postsTo (c : string) (p : Posting) : bool :=
  String.eqb c (accountId (snd p)).

(** Sign convention of section 4.2: debit-normal accounts grow by
    debit - credit, credit-normal accounts by credit - debit. *)
Definition signedAmount (nb : NormalBalance) (p : Posting) : Z :=
  match nb with
  | Debit => debit (snd p) - credit (snd p)
  | Credit => credit (snd p) - debit (snd p)
  end.

Definition ledgerEntryOf (p : Posting) : LedgerEntry :=
  {| le_date := je_date (fst p);
     le_description := je_description (fst p);
     le_debit := debit (snd p);
     le_credit := credit (snd p) |}.

(** The ledger account of the data model (section 3): the balance is the
    signed sum of the lines posted to the account, the history lists them in
    posting order. *)
Definition accountView (acc : Account) (ps : list Posting) : LedgerAccount :=
  {| la_code := code acc;
     la_name := name acc;
     la_type := type acc;
     la_balance :=
       sumOver (signedAmount (normalBalance acc)) (filter (postsTo (code acc)) ps);
     la_entries := map ledgerEntryOf (filter (postsTo (code acc)) ps) |}.

Definition ledgerAfter (ps : list Posting) : Ledger :=
  map (fun kv => (fst kv, accountView (snd kv) ps)) CHART_OF_ACCOUNTS.

(** The ledger views of a journal: one per entry of the chart, in chart
    order. *)
Definition ledgerViews (journal : list JournalEntry) : list LedgerAccount :=
  map (fun kv => accountView (snd kv) (postings journal)) CHART_OF_ACCOUNTS.

(** One iteration of the inner loop of [generateLedger], on a posting. *)
Definition postStep (l : Ledger) (p : Posting) : Completion Ledger :=
  postLine (fst p) l (snd p).

Definition notInherited (p : Posting) : bool :=
  negb (JsObject.inherited (accountId (snd p))).

(** A journal none of whose lines names a property of [Object.prototype]. *)
Definition plainAccountIds (journal : list JournalEntry) : bool :=
  forallb notInherited (postings journal).

(** Debit and credit totals of an entry. *)
Definition totalDebit (e : JournalEntry) : Z := sumOver debit (je_lines e).
Definition totalCredit (e : JournalEntry) : Z := sumOver credit (je_lines e).

(** Rule table of section 4.1, written from the specification. *)
Definition CASH : string := "101".
Definition ACCOUNTS_RECEIVABLE : string := "102".
Definition ACCOUNTS_PAYABLE : string := "201".
Definition REVENUE : string := "401".
Definition EXPENSE : string := "501".

Definition debitLine (account : string) (amount : Z) : JournalEntryLine :=
  {| accountId := account; accountName := chart_name account;
     debit := amount; credit := 0 |}.

Definition creditLine (account : string) (amount : Z) : JournalEntryLine :=
  {| accountId := account; accountName := chart_name account;
     debit := 0; credit := amount |}.

Definition ruleTable (ty : TransactionType) (st : PaymentStatus) (amount : Z)
  : list JournalEntryLine :=
  match ty, st with
  | income, paid => [creditLine REVENUE amount; debitLine CASH amount]
  | income, unpaid => [creditLine REVENUE amount; debitLine ACCOUNTS_RECEIVABLE amount]
  | expense, paid => [debitLine EXPENSE amount; creditLine CASH amount]
  | expense, unpaid => [debitLine EXPENSE amount; creditLine ACCOUNTS_PAYABLE amount]
  end.

Definition ruleEntry (t : Transaction) : JournalEntry :=
  {| je_id := tx_id t;
     je_date := tx_date t;
     je_description := tx_description t;
     je_lines := ruleTable (tx_type t) (tx_payment_status t) (tx_amount t) |}.

(** Validity of an input row as section 7 lists it.  Dates are opaque strings
    to the derivation core, so only amount and the two enumerations are
    checked here. *)
Definition validObject (t : TransactionObject) : bool :=
  (0 <=? o_amount t)
  && (String.eqb (o_type t) "income" || String.eqb (o_type t) "expense")
  && (String.eqb (o_payment_status t) "paid"
      || String.eqb (o_payment_status t) "unpaid").

(** What one transaction posts to account [c]: the history lines and, under
    the sign convention [nb], the amount added to the balance. *)
Definition historyOf (c : string) (t : Transaction) : list LedgerEntry :=
  map ledgerEntryOf (filter (postsTo c) (postings (generateJournal [t]))).

Definition contribution (nb : NormalBalance) (c : string) (t : Transaction) : Z :=
  sumOver (signedAmount nb) (filter (postsTo c) (postings (generateJournal [t]))).

(** The balance of account [c] in the ledger derived from [ts]; [None] when
    the derivation throws or returns no account with that code. *)
Definition balanceIn (c : string) (ts : list Transaction) : option Z :=
  match generateLedger (generateJournal ts) with
  | Ok l => option_map la_balance (find (fun a => String.eqb (la_code a) c) l)
  | Throw _ => None
  end.

(** Journal generator followed by ledger aggregator. *)
Definition deriveLedger (ts : list Transaction) : Completion (list LedgerAccount) :=
  generateLedger (generateJournal ts).

(** Two runs, one after the other, on the same input. *)
Definition deriveLedgerTwice (ts : list Transaction)
  : Completion (list LedgerAccount * list LedgerAccount) :=
  first <- deriveLedger ts ;;
  second <- deriveLedger ts ;;
  Ok (first, second).

(** A line with exactly one of debit and credit nonzero. *)
Definition exactlyOneNonzero (l : JournalEntryLine) : bool :=
  xorb (negb (debit l =? 0)) (negb (credit l =? 0)).

(** Amounts the specification sums for the cash-flow report. *)
Definition paidIncome (t : Transaction) : Z :=
  match tx_type t, tx_payment_status t with
  | income, paid => tx_amount t
  | _, _ => 0
  end.

Definition paidExpense (t : Transaction) : Z :=
  match tx_type t, tx_payment_status t with
  | expense, paid => tx_amount t
  | _, _ => 0
  end.

Definition unpaidIncome (t : Transaction) : Z :=
  match tx_type t, tx_payment_status t with
  | income, unpaid => tx_amount t
  | _, _ => 0
  end.

Definition unpaidExpense (t : Transaction) : Z :=
  match tx_type t, tx_payment_status t with
  | expense, unpaid => tx_amount t
  | _, _ => 0
  end.

(** The transactions the cash-flow report counts. *)
Definition isPaidIncome (t : Transaction) : bool :=
  match tx_type t, tx_payment_status t with
  | income, paid => true
  | _, _ => false
  end.

Definition isPaidExpense (t : Transaction) : bool :=
  match tx_type t, tx_payment_status t with
  | expense, paid => true
  | _, _ => false
  end.

(** A transaction as section 3 constrains it: the two enumerations hold by
    typing, the amount is not negative. *)
Definition validTransaction (t : Transaction) : bool := 0 <=? tx_amount t.

(** Shorthand for building transactions in examples. *)
Definition mkTx (ident : string) (day : string) (a : Z)
  (ty : TransactionType) (st : PaymentStatus) : Transaction :=
  {| tx_id := ident; tx_date := day; tx_description := "";
     tx_amount := a; tx_type := ty; tx_payment_status := st;
     tx_created_at := "" |}.

Definition mkLine (account : string) (d c : Z) : JournalEntryLine :=
  {| accountId := account; accountName := ""; debit := d; credit := c |}.

Definition mkEntry (ident : string) (ls : list JournalEntryLine) : JournalEntry :=
  {| je_id := ident; je_date := "2025-01-01"; je_description := ""; je_lines := ls |}.

(** "Mark as paid" and its inverse, as a functional update of the record. *)
Definition withStatus (st : PaymentStatus) (t : Transaction) : Transaction :=
  {| tx_id := tx_id t; tx_date := tx_date t; tx_description := tx_description t;
     tx_amount := tx_amount t; tx_type := tx_type t; tx_payment_status := st;
     tx_created_at := tx_created_at t |}.

(** Lines of the entry the code builds for an arbitrary run-time object. *)
Definition linesForObject (o : TransactionObject) : list JournalEntryLine :=
  if String.eqb (o_type o) "income" then
    [ creditLine REVENUE (o_amount o);
      debitLine (if String.eqb (o_payment_status o) "paid"
                 then CASH else ACCOUNTS_RECEIVABLE) (o_amount o) ]
  else if String.eqb (o_type o) "expense" then
    [ debitLine EXPENSE (o_amount o);
      creditLine (if String.eqb (o_payment_status o) "paid"
                  then CASH else ACCOUNTS_PAYABLE) (o_amount o) ]
  else [].

(** Sample inputs. *)
Definition zeroSale : Transaction := mkTx "t0" "2025-01-01" 0 income paid.
Definition cashSale : Transaction := mkTx "t1" "2025-01-02" 100000 income paid.
Definition creditPurchase : Transaction := mkTx "t2" "2025-01-03" 30000 expense unpaid.
Definition creditSale : Transaction := mkTx "t3" "2025-01-04" 70000 income unpaid.

Definition negativeRow : TransactionObject :=
  {| o_id := "r1"; o_date := "not-a-date"; o_description := "";
     o_amount := -5; o_type := "income"; o_payment_status := "paid";
     o_created_at := "" |}.

Definition transferRow : TransactionObject :=
  {| o_id := "r2"; o_date := "2025-01-05"; o_description := "";
     o_amount := 7; o_type := "transfer"; o_payment_status := "pending";
     o_created_at := "" |}.

(* ================================================================== *)
(** ** App.tsx: optimistic updates of the transaction list *)

(** The updater of [handleMarkAsPaid]:
    [prev.map((t) => (t.id === id ? { ...t, payment_status: 'paid' } : t))]. *)
Definition markAsPaidUpdate (id : string) (prev : list TransactionObject)
  : list TransactionObject :=
  map (fun t =>
         if String.eqb (o_id t) id
         then {| o_id := o_id t; o_date := o_date t;
                 o_description := o_description t; o_amount := o_amount t;
                 o_type := o_type t; o_payment_status := "paid";
                 o_created_at := o_created_at t |}
         else t)
    prev.

(** The updater of [handleDeleteTransaction]:
    [prev.filter((t) => t.id !== id)]. *)
Definition deleteUpdate (id : string) (prev : list TransactionObject)
  : list TransactionObject :=
  filter (fun t => negb (String.eqb (o_id t) id)) prev.

(** The same two updates on values of the declared type [Transaction]. *)
Definition markPaid (id : string) (ts : list Transaction) : list Transaction :=
  map (fun t => if String.eqb (tx_id t) id then withStatus paid t else t) ts.

Definition deleteTransaction (id : string) (ts : list Transaction)
  : list Transaction :=
  filter (fun t => negb (String.eqb (tx_id t) id)) ts.

(** Amount a transaction carries when its id is [id], else 0. *)
Definition whenId (id : string) (f : Transaction -> Z) (t : Transaction) : Z :=
  if String.eqb (tx_id t) id then f t else 0.

(* ================================================================== *)
(** ** ReportsPage, ledger-based version: capital change and sales *)

Module CapitalAndSales.

Record CapitalChange : Type := {
  beginningCapital : Z;
  netIncome : Z;
  drawings : Z;
  endingCapital : Z
}.

Record Sales : Type := {
  totalSales : Z
}.

Definition capitalChangeOf (ledgerMap : Ledger) : CapitalChange :=
  let netIncome :=
    LedgerReports.balanceOr0 ledgerMap "401"
    - LedgerReports.balanceOr0 ledgerMap "501" in
  let beginningCapital := 0 in
  let drawings := 0 in
  {| beginningCapital := beginningCapital;
     netIncome := netIncome;
     drawings := drawings;
     endingCapital := beginningCapital + netIncome - drawings |}.

Definition salesOf (ledgerMap : Ledger) : Sales :=
  {| totalSales := LedgerReports.balanceOr0 ledgerMap "401" |}.

(** The two fields as the [useMemo] callback computes them from the
    transactions. *)
Definition capitalChangeData (transactions : list TransactionObject)
  : Completion CapitalChange :=
  ledgerList <- generateLedger (generateJournalJs transactions) ;;
  Ok (capitalChangeOf (LedgerReports.ledgerMapOf ledgerList)).

Definition salesData (transactions : list TransactionObject)
  : Completion Sales :=
  ledgerList <- generateLedger (generateJournalJs transactions) ;;
  Ok (salesOf (LedgerReports.ledgerMapOf ledgerList)).

End CapitalAndSales.

(* ================================================================== *)
(** ** Infinite scroll of DashboardPage, JournalPage and LedgerPage *)

Module Paging.

(** [ITEMS_PER_PAGE]: 5 on the dashboard, 20 on the journal and ledger
    pages. *)
Definition ITEMS_PER_PAGE_DASHBOARD : nat := 5.
Definition ITEMS_PER_PAGE : nat := 20.

(** [items.slice(0, displayedCount)] *)
Definition displayed {A : Type} (displayedCount : nat) (items : list A) : list A :=
  firstn displayedCount items.

(** [displayedCount < items.length] *)
Definition hasMore (displayedCount total : nat) : bool :=
  Nat.ltb displayedCount total.

(** The state updater [prev => Math.min(prev + ITEMS_PER_PAGE, total)]. *)
Definition nextCount (perPage total prev : nat) : nat :=
  Nat.min (prev + perPage) total.

(** [loadMore] of the dashboard: nothing when there is no more, else the
    updater. *)
Definition loadMore (perPage total displayedCount : nat) : nat :=
  if negb (hasMore displayedCount total) then displayedCount
  else nextCount perPage total displayedCount.

(** [n] calls of [loadMore], each seeing the state the previous one left. *)
Fixpoint loadMoreTimes (n perPage total displayedCount : nat) : nat :=
  match n with
  | O => displayedCount
  | S n' => loadMoreTimes n' perPage total (loadMore perPage total displayedCount)
  end.

End Paging.

(* ================================================================== *)
(** ** LedgerPage: the account on display *)

(** [ledgerAccounts.find(acc => acc.code === activeAccountCode)] *)
Definition activeAccount (ledgerAccounts : list LedgerAccount)
  (activeAccountCode : string) : option LedgerAccount :=
  find (fun acc => String.eqb (la_code acc) activeAccountCode) ledgerAccounts.

(** The effect that picks the first account while none is chosen:
    [if (ledgerAccounts.length > 0 && !activeAccountCode)
       setActiveAccountCode(ledgerAccounts[0].code)].  The empty string is the
    only falsy code. *)
Definition chooseInitialAccount (ledgerAccounts : list LedgerAccount)
  (activeAccountCode : string) : string :=
  match ledgerAccounts with
  | first :: _ =>
      if String.eqb activeAccountCode "" then la_code first
      else activeAccountCode
  | [] => activeAccountCode
  end.

(** Sign-aware fold of a history, for one normal-balance side. *)
Definition signedEntry (nb : NormalBalance) (e : LedgerEntry) : Z :=
  match nb with
  | Debit => le_debit e - le_credit e
  | Credit => le_credit e - le_debit e
  end.

(** A journal whose lines all name accounts of the chart. *)
Definition inChart (p : Posting) : bool :=
  match JsObject.getOwn CHART_OF_ACCOUNTS (accountId (snd p)) with
  | Some _ => true
  | None => false
  end.

Definition postsToChartOnly (journal : list JournalEntry) : bool :=
  forallb inChart (postings journal).

Definition balancedEntry (e : JournalEntry) : bool :=
  totalDebit e =? totalCredit e.

(** Balance of the account with code [c] in a returned ledger, 0 when there is
    no such account. *)
Definition balanceOfCode (l : list LedgerAccount) (c : string) : Z :=
  match activeAccount l c with
  | Some a => la_balance a
  | None => 0
  end.

Definition historyOfCode (l : list LedgerAccount) (c : string) : list LedgerEntry :=
  match activeAccount l c with
  | Some a => la_entries a
  | None => []
  end.

(* ================================================================== *)
(** ** Reports that read the calendar *)

(** What the code asks of the runtime's [Date]: [localYearMonth s] is [None]
    when [new Date(s)] is an Invalid Date (whose getters return NaN) and
    otherwise the pair of [getFullYear()] and [getMonth()]; [nowYear] and
    [nowMonth] are those getters on [new Date()].  The clock does not move
    while one report is computed. *)
Record DateEnv : Type := {
  localYearMonth : string -> option (Z * Z);
  nowYear : Z;
  nowMonth : Z
}.

Definition months : list string :=
  ["Jan"; "Feb"; "Mar"; "Apr"; "Mei"; "Jun";
   "Jul"; "Agu"; "Sep"; "Okt"; "Nov"; "Des"].

(** [xs[i]] on an array, for an integer [i]: [undefined] outside the array. *)
Definition atIndex {A : Type} (xs : list A) (i : Z) : option A :=
  if i <? 0 then None else nth_error xs (Z.to_nat i).

(** [date.getMonth() === monthIndex && date.getFullYear() === currentYear];
    NaN equals nothing. *)
Definition inMonth (env : DateEnv) (monthIndex : Z) (t : TransactionObject) : bool :=
  match localYearMonth env (o_date t) with
  | Some (y, m) => (m =? monthIndex) && (y =? nowYear env)
  | None => false
  end.

(** [date.getFullYear() === currentYear] *)
Definition inCurrentYear (env : DateEnv) (t : TransactionObject) : bool :=
  match localYearMonth env (o_date t) with
  | Some (y, _) => y =? nowYear env
  | None => false
  end.

(** The contract of [getMonth]: a month index is one of 0 .. 11. *)
Definition monthInRange (m : Z) : bool := (0 <=? m) && (m <? 12).

Definition datesInRange (env : DateEnv) (ts : list TransactionObject) : bool :=
  forallb (fun t => match localYearMonth env (o_date t) with
                    | Some (_, m) => monthInRange m
                    | None => true
                    end) ts.

Module ProfitLoss.

Record MonthReport : Type := {
  month : option string;
  r_income : Z;
  r_expense : Z;
  r_profit : Z
}.

(** Body of the loop [for (let i = 11; i >= 0; i--)] of [profitLossData]. *)
Definition monthReport (env : DateEnv) (transactions : list TransactionObject)
  (i : Z) : MonthReport :=
  let monthIndex := Z.rem (nowMonth env - i + 12) 12 in
  let monthName := atIndex months monthIndex in
  let monthTransactions := filter (inMonth env monthIndex) transactions in
  let income :=
    reduce_sum amountOf (filter (isType "income") monthTransactions) in
  let expense :=
    reduce_sum amountOf (filter (isType "expense") monthTransactions) in
  {| month := monthName;
     r_income := income;
     r_expense := expense;
     r_profit := income - expense |}.

(** The reports are pushed for [i = 11, 10, ..., 0] and the array is then
    reversed. *)
Definition profitLossData (env : DateEnv) (transactions : list TransactionObject)
  : list MonthReport :=
  rev (map (monthReport env transactions) [11; 10; 9; 8; 7; 6; 5; 4; 3; 2; 1; 0]).

(** The three cells of the table footer. *)
Definition totalIncome (rows : list MonthReport) : Z := reduce_sum r_income rows.
Definition totalExpense (rows : list MonthReport) : Z := reduce_sum r_expense rows.
Definition totalProfit (rows : list MonthReport) : Z := reduce_sum r_profit rows.

End ProfitLoss.

(* ================================================================== *)
(** ** App.tsx: [monthlyData] and [currentMonthStats] *)

Module Dashboard.

Record MonthStat : Type := {
  ms_income : Z;
  ms_expense : Z
}.

Record ChartRow : Type := {
  name : string;
  Pemasukan : Z;
  Pengeluaran : Z;
  Profit : Z
}.

Fixpoint replaceAt {A : Type} (n : nat) (x : A) (xs : list A) : list A :=
  match xs, n with
  | [], _ => []
  | _ :: xs', O => x :: xs'
  | y :: xs', S n' => y :: replaceAt n' x xs'
  end.

(** [months.forEach((_, index) => monthlyStats[index] = {income: 0, expense: 0})]:
    one slot per month, under the keys 0 .. 11. *)
Definition initialStats : list MonthStat :=
  map (fun _ => {| ms_income := 0; ms_expense := 0 |}) months.

(** Body of [transactions.forEach].  [monthlyStats[month]] is [undefined] for
    a month that is no key, and reading a field of it throws. *)
Definition addTransaction (env : DateEnv) (monthlyStats : list MonthStat)
  (t : TransactionObject) : Completion (list MonthStat) :=
  match localYearMonth env (o_date t) with
  | Some (y, m) =>
      if (y =? nowYear env) && isStatus "paid" t then
        match atIndex monthlyStats m with
        | None => Throw TypeError
        | Some slot =>
            let slot' :=
              if isType "income" t
              then {| ms_income := ms_income slot + Number (o_amount t);
                      ms_expense := ms_expense slot |}
              else {| ms_income := ms_income slot;
                      ms_expense := ms_expense slot + Number (o_amount t) |} in
            Ok (replaceAt (Z.to_nat m) slot' monthlyStats)
        end
      else Ok monthlyStats
  | None => Ok monthlyStats
  end.

(** [months.map((month, index) => ({ name: month, ... }))] over the filled
    slots; a month without slot would throw. *)
Fixpoint chartRows (names : list string) (slots : list MonthStat)
  : Completion (list ChartRow) :=
  match names with
  | [] => Ok []
  | n :: names' =>
      match slots with
      | [] => Throw TypeError
      | slot :: slots' =>
          rest <- chartRows names' slots' ;;
          Ok ({| name := n;
                 Pemasukan := ms_income slot;
                 Pengeluaran := ms_expense slot;
                 Profit := ms_income slot - ms_expense slot |} :: rest)
      end
  end.

Definition monthlyData (env : DateEnv) (transactions : list TransactionObject)
  : Completion (list ChartRow) :=
  monthlyStats <- forEach (addTransaction env) transactions initialStats ;;
  chartRows months monthlyStats.

Record MonthTotals : Type := {
  income_total : Z;
  expenses_total : Z;
  profit_total : Z
}.

Definition currentMonthStats (env : DateEnv) (transactions : list TransactionObject)
  : MonthTotals :=
  let monthTransactions :=
    filter (fun t =>
              match localYearMonth env (o_date t) with
              | Some (y, m) =>
                  (m =? nowMonth env) && (y =? nowYear env)
                  && isStatus "paid" t
              | None => false
              end)
      transactions in
  let income :=
    reduce_sum amountOf (filter (isType "income") monthTransactions) in
  let expenses :=
    reduce_sum amountOf (filter (isType "expense") monthTransactions) in
  {| income_total := income;
     expenses_total := expenses;
     profit_total := income - expenses |}.

End Dashboard.

(** Amount of a transaction when it satisfies [p], else 0. *)
Definition amountWhen (p : TransactionObject -> bool) (t : TransactionObject) : Z :=
  if p t then amountOf t else 0.

Definition monthIndices : list Z := [0; 1; 2; 3; 4; 5; 6; 7; 8; 9; 10; 11].

(** What the dashboard's monthly chart counts for month [k]: paid transactions
    dated in that month of the current year, as income when their type is
    "income" and as expense otherwise. *)
Definition countsAsIncome (env : DateEnv) (k : Z) (t : TransactionObject) : bool :=
  isStatus "paid" t && inMonth env k t && isType "income" t.

Definition countsAsExpense (env : DateEnv) (k : Z) (t : TransactionObject) : bool :=
  isStatus "paid" t && inMonth env k t && negb (isType "income" t).

Definition statsAfter (env : DateEnv) (seen : list TransactionObject)
  : list Dashboard.MonthStat :=
  map (fun k =>
         {| Dashboard.ms_income := sumOver (amountWhen (countsAsIncome env k)) seen;
            Dashboard.ms_expense := sumOver (amountWhen (countsAsExpense env k)) seen |})
    monthIndices.

(** A clock for examples: every date is January 2025, and so is today. *)
Definition januaryEnv : DateEnv :=
  {| localYearMonth := fun _ => Some (2025, 0); nowYear := 2025; nowMonth := 0 |}.

(* ================================================================== *)
(** ** The program on binary64 numbers

    The definitions above read a JavaScript [number] as an integer and its
    [+] and [-] as exact.  The module below is the same code with a [number]
    read as what it is at run time, an IEEE-754 binary64 value, and [+], [-]
    as the correctly rounded operations.  The two readings agree as long as
    every amount is a whole number and every sum formed stays within 2^53 in
    absolute value; they part on fractional amounts and beyond that range. *)

Module Binary64.

(** [Number(t.amount)]: the argument already is a number. *)
Definition Number (x : float) : float := x.

(** [x || 0]: the falsy numbers are 0, -0 and NaN. *)
Definition or_zero (x : float) : float :=
  if PrimFloat.eqb x 0%float || PrimFloat.is_nan x then 0%float else x.

(** [xs.reduce((sum, x) => sum + f(x), 0)] *)
Definition reduce_sum {A : Type} (f : A -> float) (xs : list A) : float :=
  fold_left (fun sum x => PrimFloat.add sum (f x)) xs 0%float.

Record Transaction : Type := {
  tx_id : string;
  tx_date : string;
  tx_description : string;
  tx_amount : float;
  tx_type : TransactionType;
  tx_payment_status : PaymentStatus;
  tx_created_at : string
}.

Record TransactionObject : Type := {
  o_id : string;
  o_date : string;
  o_description : string;
  o_amount : float;
  o_type : string;
  o_payment_status : string;
  o_created_at : string
}.

Definition toObject (t : Transaction) : TransactionObject :=
  {| o_id := tx_id t;
     o_date := tx_date t;
     o_description := tx_description t;
     o_amount := tx_amount t;
     o_type := typeLiteral (tx_type t);
     o_payment_status := statusLiteral (tx_payment_status t);
     o_created_at := tx_created_at t |}.

Record JournalEntryLine : Type := {
  accountId : string;
  accountName : string;
  debit : float;
  credit : float
}.

Record JournalEntry : Type := {
  je_id : string;
  je_date : string;
  je_description : string;
  je_lines : list JournalEntryLine
}.

Definition journalEntryOf (t : TransactionObject) : JournalEntry :=
  let lines : list JournalEntryLine := [] in
  let amount := Number (o_amount t) in
  let lines :=
    if String.eqb (o_type t) "income" then
      let lines := push lines
        {| accountId := "401"; accountName := chart_name "401";
           debit := 0%float; credit := amount |} in
      if String.eqb (o_payment_status t) "paid" then
        push lines
          {| accountId := "101"; accountName := chart_name "101";
             debit := amount; credit := 0%float |}
      else
        push lines
          {| accountId := "102"; accountName := chart_name "102";
             debit := amount; credit := 0%float |}
    else if String.eqb (o_type t) "expense" then
      let lines := push lines
        {| accountId := "501"; accountName := chart_name "501";
           debit := amount; credit := 0%float |} in
      if String.eqb (o_payment_status t) "paid" then
        push lines
          {| accountId := "101"; accountName := chart_name "101";
             debit := 0%float; credit := amount |}
      else
        push lines
          {| accountId := "201"; accountName := chart_name "201";
             debit := 0%float; credit := amount |}
    else lines in
  {| je_id := o_id t;
     je_date := o_date t;
     je_description := o_description t;
     je_lines := lines |}.

Definition generateJournalJs (transactions : list TransactionObject)
  : list JournalEntry :=
  map journalEntryOf transactions.

Definition generateJournal (transactions : list Transaction)
  : list JournalEntry :=
  generateJournalJs (map toObject transactions).

Record LedgerEntry : Type := {
  le_date : string;
  le_description : string;
  le_debit : float;
  le_credit : float
}.

Record LedgerAccount : Type := {
  la_code : string;
  la_name : string;
  la_type : AccountType;
  la_balance : float;
  la_entries : list LedgerEntry
}.

Definition Ledger : Type := JsObject.t LedgerAccount.

Definition initAccount (ledger : Ledger) (acc : Account) : Ledger :=
  JsObject.set ledger (code acc)
    {| la_code := code acc;
       la_name := name acc;
       la_type := type acc;
       la_balance := 0%float;
       la_entries := [] |}.

Definition initLedger : Ledger :=
  fold_left initAccount (JsObject.values CHART_OF_ACCOUNTS) JsObject.empty.

Definition postLine (entry : JournalEntry) (ledger : Ledger)
  (line : JournalEntryLine) : Completion Ledger :=
  match JsObject.get ledger (accountId line) with
  | JsObject.Undefined => Ok ledger
  | JsObject.Inherited => Throw TypeError
  | JsObject.Own account =>
      let entries :=
        push (la_entries account)
          {| le_date := je_date entry;
             le_description := je_description entry;
             le_debit := debit line;
             le_credit := credit line |} in
      isDebit <- normalBalanceIsDebit (la_code account) ;;
      let balance :=
        if isDebit
        then PrimFloat.add (la_balance account)
               (PrimFloat.sub (debit line) (credit line))
        else PrimFloat.add (la_balance account)
               (PrimFloat.sub (credit line) (debit line)) in
      Ok (JsObject.set ledger (accountId line)
            {| la_code := la_code account;
               la_name := la_name account;
               la_type := la_type account;
               la_balance := balance;
               la_entries := entries |})
  end.

Definition postEntry (ledger : Ledger) (entry : JournalEntry)
  : Completion Ledger :=
  forEach (postLine entry) (je_lines entry) ledger.

Definition generateLedger (journal : list JournalEntry)
  : Completion (list LedgerAccount) :=
  ledger <- forEach postEntry journal initLedger ;;
  Ok (JsObject.values ledger).

Definition isType (ty : string) (t : TransactionObject) : bool :=
  String.eqb (o_type t) ty.

Definition isStatus (st : string) (t : TransactionObject) : bool :=
  String.eqb (o_payment_status t) st.

Definition amountOf (t : TransactionObject) : float := Number (o_amount t).

(** The three totals both balance sheets end in. *)
Record Totals : Type := {
  totalAssets : float;
  totalLiabilities : float;
  totalEquity : float
}.

(** [balanceSheetData] of pages/ReportsPage.tsx, reduced to its totals. *)
Definition transactionTotals (transactions : list TransactionObject) : Totals :=
  let cash :=
    reduce_sum
      (fun t => if isType "income" t then Number (o_amount t)
                else PrimFloat.opp (Number (o_amount t)))
      (filter (fun t => isStatus "paid" t) transactions) in
  let accountsReceivable :=
    reduce_sum amountOf
      (filter (fun t => isType "income" t && isStatus "unpaid" t) transactions) in
  let totalAssets := PrimFloat.add cash accountsReceivable in
  let accountsPayable :=
    reduce_sum amountOf
      (filter (fun t => isType "expense" t && isStatus "unpaid" t) transactions) in
  let totalLiabilities := accountsPayable in
  let equity := PrimFloat.sub totalAssets totalLiabilities in
  {| totalAssets := totalAssets;
     totalLiabilities := totalLiabilities;
     totalEquity := equity |}.

Definition ledgerMapOf (ledgerList : list LedgerAccount) : Ledger :=
  fold_left (fun acc curr => JsObject.set acc (la_code curr) curr)
    ledgerList JsObject.empty.

(** [ledgerMap[k]?.balance || 0] *)
Definition balanceOr0 (ledgerMap : Ledger) (k : string) : float :=
  match JsObject.get ledgerMap k with
  | JsObject.Own acc => or_zero (la_balance acc)
  | JsObject.Inherited => 0%float
  | JsObject.Undefined => 0%float
  end.

(** [balanceSheetData] of the ledger-based ReportsPage, reduced to its
    totals. *)
Definition ledgerTotals (transactions : list TransactionObject)
  : Completion Totals :=
  let journal := generateJournalJs transactions in
  ledgerList <- generateLedger journal ;;
  let ledgerMap := ledgerMapOf ledgerList in
  Ok {| totalAssets :=
          PrimFloat.add (balanceOr0 ledgerMap "101") (balanceOr0 ledgerMap "102");
        totalLiabilities := balanceOr0 ledgerMap "201";
        totalEquity :=
          PrimFloat.add (balanceOr0 ledgerMap "301")
            (PrimFloat.sub (balanceOr0 ledgerMap "401")
               (balanceOr0 ledgerMap "501")) |}.

(** Balances of the derived ledger, account by account. *)
Definition balances (ts : list Transaction) : Completion (list (string * float)) :=
  l <- generateLedger (generateJournal ts) ;;
  Ok (map (fun a => (la_code a, la_balance a)) l).

Definition mkTx (ident day : string) (a : float)
  (ty : TransactionType) (st : PaymentStatus) : Transaction :=
  {| tx_id := ident; tx_date := day; tx_description := "";
     tx_amount := a; tx_type := ty; tx_payment_status := st;
     tx_created_at := "" |}.

(** A valid transaction: the amount is a number that is not negative. *)
Definition validTransaction (t : Transaction) : bool :=
  PrimFloat.leb 0%float (tx_amount t).

Definition isUnpaid (t : Transaction) : bool :=
  match tx_payment_status t with unpaid => true | paid => false end.

(** A posting is one journal line together with the entry it belongs to;
    all postings of a journal, in the order [generateLedger] visits them. *)
Definition postings (journal : list JournalEntry)
  : list (JournalEntry * JournalEntryLine) :=
  flat_map (fun entry => map (pair entry) (je_lines entry)) journal.

Definition postsTo (c : string) (p : JournalEntry * JournalEntryLine) : bool :=
  String.eqb c (accountId (snd p)).

Definition signedAmount (nb : NormalBalance) (p : JournalEntry * JournalEntryLine)
  : float :=
  match nb with
  | Debit => PrimFloat.sub (debit (snd p)) (credit (snd p))
  | Credit => PrimFloat.sub (credit (snd p)) (debit (snd p))
  end.

Definition ledgerEntryOf (p : JournalEntry * JournalEntryLine) : LedgerEntry :=
  {| le_date := je_date (fst p);
     le_description := je_description (fst p);
     le_debit := debit (snd p);
     le_credit := credit (snd p) |}.

(** The running balance: the signed amounts added one after the other, from
    0, in posting order. *)
Definition runningBalance (nb : NormalBalance)
  (ps : list (JournalEntry * JournalEntryLine)) : float :=
  fold_left (fun balance p => PrimFloat.add balance (signedAmount nb p)) ps 0%float.

Definition accountView (acc : Account) (ps : list (JournalEntry * JournalEntryLine))
  : LedgerAccount :=
  {| la_code := code acc;
     la_name := name acc;
     la_type := type acc;
     la_balance := runningBalance (normalBalance acc) (filter (postsTo (code acc)) ps);
     la_entries := map ledgerEntryOf (filter (postsTo (code acc)) ps) |}.

Definition ledgerAfter (ps : list (JournalEntry * JournalEntryLine)) : Ledger :=
  map (fun kv => (fst kv, accountView (snd kv) ps)) CHART_OF_ACCOUNTS.

Definition ledgerViews (journal : list JournalEntry) : list LedgerAccount :=
  map (fun kv => accountView (snd kv) (postings journal)) CHART_OF_ACCOUNTS.

Definition postStep (l : Ledger) (p : JournalEntry * JournalEntryLine)
  : Completion Ledger :=
  postLine (fst p) l (snd p).

Definition notInherited (p : JournalEntry * JournalEntryLine) : bool :=
  negb (JsObject.inherited (accountId (snd p))).

Definition plainAccountIds (journal : list JournalEntry) : bool :=
  forallb notInherited (postings journal).

(** What one transaction posts to the history of account [c]. *)
Definition historyOf (c : string) (t : Transaction) : list LedgerEntry :=
  map ledgerEntryOf (filter (postsTo c) (postings (generateJournal [t]))).

(** Journal generator followed by ledger aggregator, once and twice. *)
Definition deriveLedger (ts : list Transaction) : Completion (list LedgerAccount) :=
  generateLedger (generateJournal ts).

Definition deriveLedgerTwice (ts : list Transaction)
  : Completion (list LedgerAccount * list LedgerAccount) :=
  first <- deriveLedger ts ;;
  second <- deriveLedger ts ;;
  Ok (first, second).

(** The balance of account [c] in the ledger derived from [ts]. *)
Definition balanceIn (c : string) (ts : list Transaction) : option float :=
  match generateLedger (generateJournal ts) with
  | Ok l => option_map la_balance (find (fun a => String.eqb (la_code a) c) l)
  | Throw _ => None
  end.

(** [ledgerAccounts.find(acc => acc.code === activeAccountCode)] *)
Definition activeAccount (ledgerAccounts : list LedgerAccount)
  (activeAccountCode : string) : option LedgerAccount :=
  find (fun acc => String.eqb (la_code acc) activeAccountCode) ledgerAccounts.

Definition balanceOfCode (l : list LedgerAccount) (c : string) : float :=
  match activeAccount l c with
  | Some a => la_balance a
  | None => 0%float
  end.

Definition historyOfCode (l : list LedgerAccount) (c : string) : list LedgerEntry :=
  match activeAccount l c with
  | Some a => la_entries a
  | None => []
  end.

(** The updaters of [handleMarkAsPaid] and [handleDeleteTransaction]. *)
Definition markAsPaidUpdate (id : string) (prev : list TransactionObject)
  : list TransactionObject :=
  map (fun t =>
         if String.eqb (o_id t) id
         then {| o_id := o_id t; o_date := o_date t;
                 o_description := o_description t; o_amount := o_amount t;
                 o_type := o_type t; o_payment_status := "paid";
                 o_created_at := o_created_at t |}
         else t)
    prev.

Definition deleteUpdate (id : string) (prev : list TransactionObject)
  : list TransactionObject :=
  filter (fun t => negb (String.eqb (o_id t) id)) prev.

(** Balance of account [c] in the ledger derived from run-time objects. *)
Definition balanceOfObjects (c : string) (transactions : list TransactionObject)
  : option float :=
  match generateLedger (generateJournalJs transactions) with
  | Ok l => option_map la_balance (activeAccount l c)
  | Throw _ => None
  end.

Record CashFlow : Type := {
  cashIn : float;
  cashOut : float;
  netCash : float
}.

Definition cashFlowOf (transactions : list TransactionObject) : CashFlow :=
  let cashIn :=
    reduce_sum amountOf
      (filter (fun t => isType "income" t && isStatus "paid" t) transactions) in
  let cashOut :=
    reduce_sum amountOf
      (filter (fun t => isType "expense" t && isStatus "paid" t) transactions) in
  {| cashIn := cashIn; cashOut := cashOut; netCash := PrimFloat.sub cashIn cashOut |}.

(** The [unpaid] figure of the dashboard's [stats]. *)
Definition unpaidOf (transactions : list TransactionObject) : float :=
  reduce_sum amountOf
    (filter (fun t => isType "income" t && isStatus "unpaid" t) transactions).

(** [totalSales] of the sales report. *)
Definition totalSalesOf (transactions : list TransactionObject) : Completion float :=
  ledgerList <- generateLedger (generateJournalJs transactions) ;;
  Ok (balanceOr0 (ledgerMapOf ledgerList) "401").

(** The monthly profit-and-loss table and its footer. *)
Record MonthReport : Type := {
  month : option string;
  r_income : float;
  r_expense : float;
  r_profit : float
}.

Definition inMonth (env : DateEnv) (monthIndex : Z) (t : TransactionObject) : bool :=
  match localYearMonth env (o_date t) with
  | Some (y, m) => (m =? monthIndex) && (y =? nowYear env)
  | None => false
  end.

Definition monthReport (env : DateEnv) (transactions : list TransactionObject)
  (i : Z) : MonthReport :=
  let monthIndex := Z.rem (nowMonth env - i + 12) 12 in
  let monthName := atIndex months monthIndex in
  let monthTransactions := filter (inMonth env monthIndex) transactions in
  let income :=
    reduce_sum amountOf (filter (isType "income") monthTransactions) in
  let expense :=
    reduce_sum amountOf (filter (isType "expense") monthTransactions) in
  {| month := monthName;
     r_income := income;
     r_expense := expense;
     r_profit := PrimFloat.sub income expense |}.

Definition profitLossData (env : DateEnv) (transactions : list TransactionObject)
  : list MonthReport :=
  rev (map (monthReport env transactions) [11; 10; 9; 8; 7; 6; 5; 4; 3; 2; 1; 0]).

Definition totalIncome (rows : list MonthReport) : float := reduce_sum r_income rows.
Definition totalExpense (rows : list MonthReport) : float := reduce_sum r_expense rows.
Definition totalProfit (rows : list MonthReport) : float := reduce_sum r_profit rows.

(** The literals 0.1, 0.2, 0.3 and 0.7: the doubles nearest to the decimal
    fractions, which is what correctly rounded division of the integers
    yields. *)
Definition d01 : float := PrimFloat.div 1%float 10%float.
Definition d02 : float := PrimFloat.div 2%float 10%float.
Definition d03 : float := PrimFloat.div 3%float 10%float.

End Binary64.

(* ================================================================== *)
(** ** Whole amounts as binary64 numbers

    An amount in whole rupiah is an integer.  [ofZ z] is the binary64 number
    nearest to the integer [z]; for a safe integer, one below 2^53 in absolute
    value, it is [z] itself.  The functions [embed...] carry the integer
    reading of a value to the binary64 reading, field by field. *)

(** [p * 2^k] for [k >= 0]. *)
Definition shl (p : positive) (k : Z) : positive :=
  match k with
  | Zpos n => Pos.iter xO p n
  | _ => p
  end.

(** Number of binary digits of [p]. *)
Definition digits (p : positive) : Z := Zpos (digits2_pos p).

(** Sign, mantissa and exponent of the integer [p], or its negation, as a
    binary64 number: the mantissa is [p] shifted to 53 digits. *)
Definition canonFinite (s : bool) (p : positive) : spec_float :=
  S754_finite s (shl p (53 - digits p)) (digits p - 53).

Definition canonZ (z : Z) : spec_float :=
  match z with
  | Z0 => S754_zero false
  | Zpos p => canonFinite false p
  | Zneg p => canonFinite true p
  end.

Definition signedZ (s : bool) (p : positive) : Z := if s then Zneg p else Zpos p.

(** The binary64 number nearest to [z]. *)
Definition ofZ (z : Z) : float := SF2Prim (binary_normalize prec emax z 0 false).

(** [Number.isSafeInteger]: at most [Number.MAX_SAFE_INTEGER = 2^53 - 1] in
    absolute value. *)
Definition safeInteger (z : Z) : Prop := Z.abs z < 2 ^ 53.

Definition embedTransaction (t : Transaction) : Binary64.Transaction :=
  {| Binary64.tx_id := tx_id t;
     Binary64.tx_date := tx_date t;
     Binary64.tx_description := tx_description t;
     Binary64.tx_amount := ofZ (tx_amount t);
     Binary64.tx_type := tx_type t;
     Binary64.tx_payment_status := tx_payment_status t;
     Binary64.tx_created_at := tx_created_at t |}.

Definition embedObject (o : TransactionObject) : Binary64.TransactionObject :=
  {| Binary64.o_id := o_id o;
     Binary64.o_date := o_date o;
     Binary64.o_description := o_description o;
     Binary64.o_amount := ofZ (o_amount o);
     Binary64.o_type := o_type o;
     Binary64.o_payment_status := o_payment_status o;
     Binary64.o_created_at := o_created_at o |}.

Definition embedLine (l : JournalEntryLine) : Binary64.JournalEntryLine :=
  {| Binary64.accountId := accountId l;
     Binary64.accountName := accountName l;
     Binary64.debit := ofZ (debit l);
     Binary64.credit := ofZ (credit l) |}.

Definition embedEntry (e : JournalEntry) : Binary64.JournalEntry :=
  {| Binary64.je_id := je_id e;
     Binary64.je_date := je_date e;
     Binary64.je_description := je_description e;
     Binary64.je_lines := map embedLine (je_lines e) |}.

Definition embedLedgerEntry (e : LedgerEntry) : Binary64.LedgerEntry :=
  {| Binary64.le_date := le_date e;
     Binary64.le_description := le_description e;
     Binary64.le_debit := ofZ (le_debit e);
     Binary64.le_credit := ofZ (le_credit e) |}.

Definition embedAccount (a : LedgerAccount) : Binary64.LedgerAccount :=
  {| Binary64.la_code := la_code a;
     Binary64.la_name := la_name a;
     Binary64.la_type := la_type a;
     Binary64.la_balance := ofZ (la_balance a);
     Binary64.la_entries := map embedLedgerEntry (la_entries a) |}.

Definition embedLedger (l : Ledger) : Binary64.Ledger :=
  map (fun kv => (fst kv, embedAccount (snd kv))) l.

Definition mapCompletion {A B : Type} (f : A -> B) (c : Completion A)
  : Completion B :=
  match c with
  | Ok a => Ok (f a)
  | Throw e => Throw e
  end.

(** Sizes that bound every sum the code forms. *)
Definition lineWeight (l : JournalEntryLine) : Z :=
  Z.abs (debit l) + Z.abs (credit l).

Definition linesOf (journal : list JournalEntry) : list JournalEntryLine :=
  flat_map je_lines journal.

Definition weightAt (k : string) (ls : list JournalEntryLine) : Z :=
  sumOver lineWeight (filter (fun l => String.eqb (accountId l) k) ls).

Definition journalWeight (journal : list JournalEntry) : Z :=
  sumOver lineWeight (linesOf journal).

Definition totalAmount (ts : list Transaction) : Z :=
  sumOver (fun t => Z.abs (tx_amount t)) ts.

Definition totalOfObjects (os : list TransactionObject) : Z :=
  sumOver (fun o => Z.abs (o_amount o)) os.

Definition embedMonthReport (r : ProfitLoss.MonthReport) : Binary64.MonthReport :=
  {| Binary64.month := ProfitLoss.month r;
     Binary64.r_income := ofZ (ProfitLoss.r_income r);
     Binary64.r_expense := ofZ (ProfitLoss.r_expense r);
     Binary64.r_profit := ofZ (ProfitLoss.r_profit r) |}.

(** What a run-time object can add, in absolute value, to the income or to
    the expense of a month. *)
Definition incomeWeight (t : TransactionObject) : Z :=
  if isType "income" t then Z.abs (o_amount t) else 0.

Definition expenseWeight (t : TransactionObject) : Z :=
  if isType "expense" t then Z.abs (o_amount t) else 0.

(** Every balance of the ledger is bounded by what the lines posted so far
    could have added to its account. *)
Definition balancesWithin (done : list JournalEntryLine) (l : Ledger) : Prop :=
  Forall (fun kv => Z.abs (la_balance (snd kv)) <= weightAt (fst kv) done) l.

(* ================================================================== *)
(** * Proofs *)

(** ** Sums *)

Section Sums.

Context {A : Type}.

Lemma fold_left_add_shift (f : A -> Z) (xs : list A) (a : Z) :
  fold_left (fun sum x => sum + f x) xs a = a + sumOver f xs.
Proof.
  revert a. induction xs as [| x xs IH]; intros a; simpl.
  - lia.
  - rewrite IH. lia.
Qed.

(** [reduce] from [0] computes the sum. *)
Lemma reduce_sum_sumOver (f : A -> Z) (xs : list A) :
  reduce_sum f xs = sumOver f xs.
Proof.
  unfold reduce_sum. rewrite fold_left_add_shift. lia.
Qed.

Lemma sumOver_app (f : A -> Z) (xs ys : list A) :
  sumOver f (xs ++ ys) = sumOver f xs + sumOver f ys.
Proof.
  induction xs as [| x xs IH]; simpl; lia.
Qed.

Lemma sumOver_ext (f g : A -> Z) (xs : list A) :
  (forall x, In x xs -> f x = g x) -> sumOver f xs = sumOver g xs.
Proof.
  induction xs as [| x xs IH]; intros H; simpl.
  - reflexivity.
  - rewrite (H x (or_introl eq_refl)), IH; [reflexivity |].
    intros y Hy. apply H. now right.
Qed.

Lemma sumOver_filter (f : A -> Z) (p : A -> bool) (xs : list A) :
  sumOver f (filter p xs) = sumOver (fun x => if p x then f x else 0) xs.
Proof.
  induction xs as [| x xs IH]; simpl.
  - reflexivity.
  - destruct (p x); simpl; lia.
Qed.

Lemma sumOver_perm (f : A -> Z) (xs ys : list A) :
  Permutation xs ys -> sumOver f xs = sumOver f ys.
Proof.
  induction 1; simpl; lia.
Qed.

Lemma sumOver_zero (xs : list A) : sumOver (fun _ => 0) xs = 0.
Proof.
  induction xs; simpl; lia.
Qed.

Lemma sumOver_plus (f g : A -> Z) (xs : list A) :
  sumOver (fun x => f x + g x) xs = sumOver f xs + sumOver g xs.
Proof.
  induction xs; simpl; lia.
Qed.

Lemma sumOver_minus (f g : A -> Z) (xs : list A) :
  sumOver (fun x => f x - g x) xs = sumOver f xs - sumOver g xs.
Proof.
  induction xs; simpl; lia.
Qed.

End Sums.

Lemma sumOver_flat_map {A B : Type} (f : B -> Z) (g : A -> list B) (xs : list A) :
  sumOver f (flat_map g xs) = sumOver (fun x => sumOver f (g x)) xs.
Proof.
  induction xs as [| x xs IH]; simpl.
  - reflexivity.
  - rewrite sumOver_app, IH. reflexivity.
Qed.

Lemma filter_flat_map {A B : Type} (p : B -> bool) (g : A -> list B) (xs : list A) :
  filter p (flat_map g xs) = flat_map (fun x => filter p (g x)) xs.
Proof.
  induction xs as [| x xs IH]; simpl.
  - reflexivity.
  - rewrite filter_app, IH. reflexivity.
Qed.

Lemma map_flat_map {A B C : Type} (h : B -> C) (g : A -> list B) (xs : list A) :
  map h (flat_map g xs) = flat_map (fun x => map h (g x)) xs.
Proof.
  induction xs as [| x xs IH]; simpl.
  - reflexivity.
  - rewrite map_app, IH. reflexivity.
Qed.

Lemma or_zero_id (x : Z) : or_zero x = x.
Proof.
  unfold or_zero. destruct (Z.eqb_spec x 0); lia.
Qed.

(** ** The loop combinator *)

Lemma forEach_app {A S : Type} (f : S -> A -> Completion S) (xs ys : list A) (s : S) :
  forEach f (xs ++ ys) s = (s' <- forEach f xs s ;; forEach f ys s').
Proof.
  revert s. induction xs as [| x xs IH]; intros s; simpl.
  - reflexivity.
  - destruct (f s x) as [s1 | e]; simpl; [apply IH | reflexivity].
Qed.

(** The nested loops of [generateLedger] visit the postings one by one. *)
Lemma forEach_postEntry (journal : list JournalEntry) (l : Ledger) :
  forEach postEntry journal l
  = forEach (fun l p => postLine (fst p) l (snd p)) (postings journal) l.
Proof.
  revert l. induction journal as [| e journal IH]; intros l; simpl.
  - reflexivity.
  - unfold postings in *. simpl. rewrite forEach_app.
    assert (Hlines : forall ls l0,
      forEach (postLine e) ls l0
      = forEach (fun l p => postLine (fst p) l (snd p)) (map (pair e) ls) l0).
    { induction ls as [| x ls IHl]; intros l0; simpl; [reflexivity |].
      destruct (postLine e l0 x); simpl; [apply IHl | reflexivity]. }
    unfold postEntry at 1. rewrite Hlines.
    destruct (forEach _ (map (pair e) (je_lines e)) l); simpl;
      [apply IH | reflexivity].
Qed.

(** ** Objects used as maps *)

Section ObjectLemmas.

Context {V W : Type}.

Lemma getOwn_In (o : JsObject.t V) (k : string) (v : V) :
  JsObject.getOwn o k = Some v -> In (k, v) o.
Proof.
  induction o as [| [k' v'] o IH]; simpl; [discriminate |].
  destruct (String.eqb_spec k' k) as [-> | Hne].
  - intros [= ->]. now left.
  - intros H. right. now apply IH.
Qed.

Lemma getOwn_None (o : JsObject.t V) (k : string) :
  JsObject.getOwn o k = None -> forall kv, In kv o -> fst kv <> k.
Proof.
  induction o as [| [k' v'] o IH]; simpl; [intros _ kv [] |].
  destruct (String.eqb_spec k' k) as [-> | Hne]; [discriminate |].
  intros H kv [<- | Hin]; [exact Hne | now apply IH].
Qed.

Lemma getOwn_map (f : V -> W) (o : JsObject.t V) (k : string) :
  JsObject.getOwn (map (fun kv => (fst kv, f (snd kv))) o) k
  = option_map f (JsObject.getOwn o k).
Proof.
  induction o as [| [k' v'] o IH]; simpl; [reflexivity |].
  destruct (String.eqb k' k); [reflexivity | exact IH].
Qed.

(** With distinct keys, a key is bound to one value only. *)
Lemma getOwn_unique (o : JsObject.t V) (k : string) (v v' : V) :
  NoDup (JsObject.keys o) ->
  JsObject.getOwn o k = Some v -> In (k, v') o -> v' = v.
Proof.
  induction o as [| [k0 v0] o IH]; simpl; [intros _ _ [] |].
  intros Hnd. inversion Hnd as [| ? ? Hnotin Hnd']; subst.
  destruct (String.eqb_spec k0 k) as [-> | Hne].
  - intros [= ->] [[= ->] | Hin]; [reflexivity |].
    exfalso. apply Hnotin. unfold JsObject.keys.
    change k with (fst (k, v')). now apply in_map.
  - intros Hget [[= Hk _] | Hin]; [contradiction | now apply IH].
Qed.

(** Assigning to a property that exists rewrites that property in place. *)
Lemma set_map_present (f : V -> W) (o : JsObject.t V) (k : string) (w : W) :
  NoDup (JsObject.keys o) ->
  JsObject.getOwn o k <> None ->
  JsObject.set (map (fun kv => (fst kv, f (snd kv))) o) k w
  = map (fun kv => (fst kv, if String.eqb (fst kv) k then w else f (snd kv))) o.
Proof.
  induction o as [| [k0 v0] o IH]; simpl; [congruence |].
  intros Hnd. inversion Hnd as [| ? ? Hnotin Hnd']; subst.
  destruct (String.eqb_spec k0 k) as [-> | Hne]; intros Hget.
  - f_equal. apply map_ext_in. intros [k1 v1] Hin. simpl.
    destruct (String.eqb_spec k1 k) as [-> | _]; [| reflexivity].
    exfalso. apply Hnotin. unfold JsObject.keys.
    change k with (fst (k, v1)). now apply in_map.
  - f_equal. now apply IH.
Qed.

End ObjectLemmas.

(** ** Facts about the chart, checked by evaluation *)

Lemma chart_keys_NoDup : NoDup (JsObject.keys CHART_OF_ACCOUNTS).
Proof.
  unfold JsObject.keys. simpl.
  repeat constructor; simpl; intuition discriminate.
Qed.

Lemma chart_key_is_code (kv : string * Account) :
  In kv CHART_OF_ACCOUNTS -> code (snd kv) = fst kv.
Proof.
  simpl. intros H. repeat destruct H as [<- | H]; try reflexivity. destruct H.
Qed.

Lemma chart_keys_not_inherited (kv : string * Account) :
  In kv CHART_OF_ACCOUNTS -> JsObject.inherited (fst kv) = false.
Proof.
  simpl. intros H. repeat destruct H as [<- | H]; try reflexivity. destruct H.
Qed.

Lemma chart_getOwn_code (k : string) (acc : Account) :
  JsObject.getOwn CHART_OF_ACCOUNTS k = Some acc -> code acc = k.
Proof.
  intros H. apply getOwn_In in H. exact (chart_key_is_code (k, acc) H).
Qed.

Lemma initLedger_ledgerAfter : initLedger = ledgerAfter [].
Proof. reflexivity. Qed.

(** ** One posting *)

Lemma accountView_snoc_hit (acc : Account) (ps : list Posting) (p : Posting) :
  postsTo (code acc) p = true ->
  accountView acc (ps ++ [p])
  = {| la_code := code acc;
       la_name := name acc;
       la_type := type acc;
       la_balance :=
         la_balance (accountView acc ps) + signedAmount (normalBalance acc) p;
       la_entries := push (la_entries (accountView acc ps)) (ledgerEntryOf p) |}.
Proof.
  intros Hp. unfold accountView, push. simpl.
  rewrite filter_app. simpl. rewrite Hp.
  rewrite sumOver_app, map_app. simpl. f_equal. lia.
Qed.

Lemma accountView_snoc_miss (acc : Account) (ps : list Posting) (p : Posting) :
  postsTo (code acc) p = false ->
  accountView acc (ps ++ [p]) = accountView acc ps.
Proof.
  intros Hp. unfold accountView.
  rewrite filter_app. simpl. rewrite Hp, app_nil_r. reflexivity.
Qed.

Lemma getOwn_ledgerAfter (ps : list Posting) (k : string) :
  JsObject.getOwn (ledgerAfter ps) k
  = option_map (fun a => accountView a ps) (JsObject.getOwn CHART_OF_ACCOUNTS k).
Proof.
  unfold ledgerAfter. apply (getOwn_map (fun a => accountView a ps)).
Qed.

Lemma set_ledgerAfter (ps : list Posting) (k : string) (v : LedgerAccount) :
  JsObject.getOwn CHART_OF_ACCOUNTS k <> None ->
  JsObject.set (ledgerAfter ps) k v
  = map (fun kv => (fst kv, if String.eqb (fst kv) k then v
                            else accountView (snd kv) ps))
      CHART_OF_ACCOUNTS.
Proof.
  intros Hk. unfold ledgerAfter.
  apply (set_map_present (fun a => accountView a ps)); [apply chart_keys_NoDup | exact Hk].
Qed.

(** A line whose account is a key of the chart is posted to that account. *)
Lemma postLine_known (ps : list Posting) (p : Posting) (acc : Account) :
  JsObject.getOwn CHART_OF_ACCOUNTS (accountId (snd p)) = Some acc ->
  postLine (fst p) (ledgerAfter ps) (snd p) = Ok (ledgerAfter (ps ++ [p])).
Proof.
  intros Hget. pose proof (chart_getOwn_code _ _ Hget) as Hcode.
  unfold postLine, JsObject.get.
  rewrite getOwn_ledgerAfter, Hget. cbn [option_map].
  unfold normalBalanceIsDebit, JsObject.get.
  change (la_code (accountView acc ps)) with (code acc).
  rewrite Hcode, Hget. cbn [bind]. f_equal.
  rewrite set_ledgerAfter by congruence.
  unfold ledgerAfter. apply map_ext_in. intros [k' acc'] Hin.
  cbn [fst snd]. f_equal.
  pose proof (chart_key_is_code _ Hin) as Hk'. cbn [fst snd] in Hk'.
  destruct (String.eqb_spec k' (accountId (snd p))) as [-> | Hne].
  - assert (acc' = acc) as ->
      by (eapply getOwn_unique; eauto using chart_keys_NoDup).
    rewrite accountView_snoc_hit
      by (unfold postsTo; rewrite Hcode; apply String.eqb_refl).
    unfold accountView. cbn [la_code la_name la_type la_balance la_entries].
    unfold ledgerEntryOf, signedAmount.
    destruct (normalBalance acc); rewrite ?Hcode; reflexivity.
  - rewrite accountView_snoc_miss; [reflexivity |].
    unfold postsTo. rewrite Hk'. now apply String.eqb_neq.
Qed.

(** A line whose account is neither a key of the chart nor a name inherited
    from [Object.prototype] is skipped: the ledger is returned untouched. *)
Lemma postLine_unknown (ps : list Posting) (p : Posting) :
  JsObject.getOwn CHART_OF_ACCOUNTS (accountId (snd p)) = None ->
  JsObject.inherited (accountId (snd p)) = false ->
  postLine (fst p) (ledgerAfter ps) (snd p) = Ok (ledgerAfter ps)
  /\ ledgerAfter (ps ++ [p]) = ledgerAfter ps.
Proof.
  intros Hget Hinh. split.
  - unfold postLine, JsObject.get.
    rewrite getOwn_ledgerAfter, Hget. cbn [option_map].
    rewrite Hinh. reflexivity.
  - unfold ledgerAfter. apply map_ext_in. intros [k' acc'] Hin.
    cbn [fst snd]. f_equal.
    apply accountView_snoc_miss. unfold postsTo.
    pose proof (chart_key_is_code _ Hin) as Hk'. cbn [fst snd] in Hk'. rewrite Hk'.
    apply String.eqb_neq. exact (getOwn_None _ _ Hget _ Hin).
Qed.

(** A line naming an inherited property makes the loop throw. *)
Lemma postLine_inherited (ps : list Posting) (e : JournalEntry) (line : JournalEntryLine) :
  JsObject.inherited (accountId line) = true ->
  postLine e (ledgerAfter ps) line = Throw TypeError.
Proof.
  intros Hinh. unfold postLine, JsObject.get.
  rewrite getOwn_ledgerAfter.
  destruct (JsObject.getOwn CHART_OF_ACCOUNTS (accountId line)) as [acc |] eqn:Hget.
  - apply getOwn_In in Hget.
    pose proof (chart_keys_not_inherited _ Hget) as Hno. cbn [fst] in Hno. congruence.
  - cbn [option_map]. rewrite Hinh. reflexivity.
Qed.

(** ** The whole ledger *)

Lemma postStep_plain (ps : list Posting) (p : Posting) :
  notInherited p = true ->
  postStep (ledgerAfter ps) p = Ok (ledgerAfter (ps ++ [p])).
Proof.
  unfold notInherited, postStep. intros Hp. apply negb_true_iff in Hp.
  destruct (JsObject.getOwn CHART_OF_ACCOUNTS (accountId (snd p))) as [acc |] eqn:Hget.
  - eapply postLine_known; eassumption.
  - destruct (postLine_unknown ps p Hget Hp) as [-> ->]. reflexivity.
Qed.

Lemma forEach_postStep_plain (qs ps : list Posting) :
  forallb notInherited qs = true ->
  forEach postStep qs (ledgerAfter ps) = Ok (ledgerAfter (ps ++ qs)).
Proof.
  revert ps. induction qs as [| q qs IH]; intros ps Hqs; simpl.
  - now rewrite app_nil_r.
  - simpl in Hqs. apply andb_true_iff in Hqs as [Hq Hqs].
    rewrite (postStep_plain ps q Hq). simpl.
    rewrite (IH (ps ++ [q]) Hqs), <- app_assoc. reflexivity.
Qed.

Lemma forEach_postStep_throws (qs ps : list Posting) :
  forallb notInherited qs = false ->
  forEach postStep qs (ledgerAfter ps) = Throw TypeError.
Proof.
  revert ps. induction qs as [| q qs IH]; intros ps Hqs; simpl in *.
  - discriminate.
  - destruct (notInherited q) eqn:Hq.
    + rewrite (postStep_plain ps q Hq). simpl. now apply IH.
    + unfold postStep. rewrite postLine_inherited; [reflexivity |].
      unfold notInherited in Hq. now apply negb_false_iff in Hq.
Qed.

Lemma values_ledgerAfter (ps : list Posting) :
  JsObject.values (ledgerAfter ps)
  = map (fun kv => accountView (snd kv) ps) CHART_OF_ACCOUNTS.
Proof.
  unfold JsObject.values, ledgerAfter. rewrite map_map. reflexivity.
Qed.

Lemma generateLedger_plain (journal : list JournalEntry) :
  plainAccountIds journal = true ->
  generateLedger journal = Ok (ledgerViews journal).
Proof.
  intros Hplain. unfold generateLedger.
  rewrite forEach_postEntry, initLedger_ledgerAfter.
  change (forEach (fun l p => postLine (fst p) l (snd p)))
    with (forEach postStep).
  rewrite (forEach_postStep_plain (postings journal) [] Hplain).
  cbn [bind app]. rewrite values_ledgerAfter. reflexivity.
Qed.

Lemma generateLedger_throws (journal : list JournalEntry) :
  plainAccountIds journal = false ->
  generateLedger journal = Throw TypeError.
Proof.
  intros Hplain. unfold generateLedger.
  rewrite forEach_postEntry, initLedger_ledgerAfter.
  change (forEach (fun l p => postLine (fst p) l (snd p)))
    with (forEach postStep).
  rewrite (forEach_postStep_throws (postings journal) [] Hplain).
  reflexivity.
Qed.

(** ** Journals produced by [generateJournal] *)

Lemma postings_cons (e : JournalEntry) (journal : list JournalEntry) :
  postings (e :: journal) = map (pair e) (je_lines e) ++ postings journal.
Proof. reflexivity. Qed.

Lemma journalEntryOf_toObject (t : Transaction) :
  journalEntryOf (toObject t) = ruleEntry t.
Proof.
  destruct t as [i d ds a [] [] c]; reflexivity.
Qed.

Lemma generateJournal_ruleEntry (ts : list Transaction) :
  generateJournal ts = map ruleEntry ts.
Proof.
  unfold generateJournal, generateJournalJs. rewrite map_map.
  apply map_ext. exact journalEntryOf_toObject.
Qed.

Lemma journalEntryOf_plain (t : TransactionObject) :
  forallb notInherited (map (pair (journalEntryOf t)) (je_lines (journalEntryOf t)))
  = true.
Proof.
  unfold journalEntryOf.
  destruct (String.eqb (o_type t) "income"), (String.eqb (o_type t) "expense"),
    (String.eqb (o_payment_status t) "paid"); reflexivity.
Qed.

Lemma generateJournalJs_plain (os : list TransactionObject) :
  plainAccountIds (generateJournalJs os) = true.
Proof.
  unfold plainAccountIds, generateJournalJs.
  induction os as [| t os IH]; [reflexivity |].
  change (map journalEntryOf (t :: os))
    with (journalEntryOf t :: map journalEntryOf os).
  rewrite postings_cons, forallb_app. apply andb_true_iff. split.
  - apply journalEntryOf_plain.
  - exact IH.
Qed.

(** The pipeline never throws. *)
Lemma generateLedger_generateJournalJs (os : list TransactionObject) :
  generateLedger (generateJournalJs os) = Ok (ledgerViews (generateJournalJs os)).
Proof.
  apply generateLedger_plain, generateJournalJs_plain.
Qed.

Lemma generateLedger_generateJournal (ts : list Transaction) :
  generateLedger (generateJournal ts) = Ok (ledgerViews (generateJournal ts)).
Proof.
  apply generateLedger_generateJournalJs.
Qed.

(** ** Closed forms over the transaction list *)

Lemma postings_generateJournal (ts : list Transaction) :
  postings (generateJournal ts)
  = flat_map (fun t => postings (generateJournal [t])) ts.
Proof.
  induction ts as [| t ts IH]; [reflexivity |].
  change (generateJournal (t :: ts))
    with (journalEntryOf (toObject t) :: generateJournal ts).
  rewrite postings_cons, IH. cbn [flat_map].
  change (postings (generateJournal [t]))
    with (map (pair (journalEntryOf (toObject t)))
            (je_lines (journalEntryOf (toObject t))) ++ []).
  now rewrite app_nil_r.
Qed.

Lemma view_balance (nb : NormalBalance) (c : string) (ts : list Transaction) :
  sumOver (signedAmount nb) (filter (postsTo c) (postings (generateJournal ts)))
  = sumOver (contribution nb c) ts.
Proof.
  rewrite postings_generateJournal, filter_flat_map, sumOver_flat_map.
  reflexivity.
Qed.

Lemma view_entries (c : string) (ts : list Transaction) :
  map ledgerEntryOf (filter (postsTo c) (postings (generateJournal ts)))
  = flat_map (historyOf c) ts.
Proof.
  rewrite postings_generateJournal, filter_flat_map, map_flat_map.
  reflexivity.
Qed.

(** The view of a chart account in terms of the transactions. *)
Lemma accountView_generateJournal (acc : Account) (ts : list Transaction) :
  accountView acc (postings (generateJournal ts))
  = {| la_code := code acc;
       la_name := name acc;
       la_type := type acc;
       la_balance := sumOver (contribution (normalBalance acc) (code acc)) ts;
       la_entries := flat_map (historyOf (code acc)) ts |}.
Proof.
  unfold accountView. rewrite view_balance, view_entries. reflexivity.
Qed.

Lemma find_view (ps : list Posting) (c : string) (o : JsObject.t Account) :
  (forall kv, In kv o -> code (snd kv) = fst kv) ->
  find (fun a => String.eqb (la_code a) c)
    (map (fun kv => accountView (snd kv) ps) o)
  = option_map (fun a => accountView a ps) (JsObject.getOwn o c).
Proof.
  induction o as [| [k a] o IH]; intros Hcode; [reflexivity |].
  cbn [map find JsObject.getOwn snd].
  change (la_code (accountView a ps)) with (code a).
  pose proof (Hcode (k, a) (or_introl eq_refl)) as Hk.
  cbn [fst snd] in Hk. rewrite Hk.
  destruct (String.eqb k c); [reflexivity |].
  apply IH. intros kv Hin. apply Hcode. now right.
Qed.

Lemma balanceIn_closed (c : string) (ts : list Transaction) :
  balanceIn c ts
  = option_map (fun a => sumOver (contribution (normalBalance a) c) ts)
      (JsObject.getOwn CHART_OF_ACCOUNTS c).
Proof.
  unfold balanceIn. rewrite generateLedger_generateJournal.
  unfold ledgerViews. rewrite (find_view _ _ _ chart_key_is_code).
  destruct (JsObject.getOwn CHART_OF_ACCOUNTS c) as [a |] eqn:Hget;
    [| reflexivity].
  cbn [option_map]. rewrite accountView_generateJournal.
  cbn [la_balance]. now rewrite (chart_getOwn_code _ _ Hget).
Qed.

(** What each kind of transaction adds to the accounts the rule table uses. *)
Lemma contribution_table (t : Transaction) :
  contribution Debit CASH t = paidIncome t - paidExpense t
  /\ contribution Debit ACCOUNTS_RECEIVABLE t = unpaidIncome t
  /\ contribution Credit ACCOUNTS_PAYABLE t = unpaidExpense t
  /\ contribution Credit "301" t = 0
  /\ contribution Credit REVENUE t = paidIncome t + unpaidIncome t
  /\ contribution Debit EXPENSE t = paidExpense t + unpaidExpense t.
Proof.
  destruct t as [i d ds a [] [] c];
    unfold contribution, paidIncome, paidExpense, unpaidIncome, unpaidExpense;
    cbn; repeat split; lia.
Qed.

(** ** Reports *)

Lemma reduce_filter_objects (f : TransactionObject -> Z)
  (p : TransactionObject -> bool) (ts : list Transaction) :
  reduce_sum f (filter p (map toObject ts))
  = sumOver (fun t => if p (toObject t) then f (toObject t) else 0) ts.
Proof.
  rewrite reduce_sum_sumOver, sumOver_filter.
  induction ts as [| t ts IH]; simpl; [reflexivity | now rewrite IH].
Qed.

Ltac by_kind t :=
  destruct t as [? ? ? ? [] [] ?]; cbn; lia.

Lemma sum_paid_income (ts : list Transaction) :
  reduce_sum amountOf
    (filter (fun t => isType "income" t && isStatus "paid" t) (map toObject ts))
  = sumOver paidIncome ts.
Proof.
  rewrite reduce_filter_objects. apply sumOver_ext. intros t _. by_kind t.
Qed.

Lemma sum_paid_expense (ts : list Transaction) :
  reduce_sum amountOf
    (filter (fun t => isType "expense" t && isStatus "paid" t) (map toObject ts))
  = sumOver paidExpense ts.
Proof.
  rewrite reduce_filter_objects. apply sumOver_ext. intros t _. by_kind t.
Qed.

Lemma sum_unpaid_income (ts : list Transaction) :
  reduce_sum amountOf
    (filter (fun t => isType "income" t && isStatus "unpaid" t) (map toObject ts))
  = sumOver unpaidIncome ts.
Proof.
  rewrite reduce_filter_objects. apply sumOver_ext. intros t _. by_kind t.
Qed.

Lemma sum_unpaid_expense (ts : list Transaction) :
  reduce_sum amountOf
    (filter (fun t => isType "expense" t && isStatus "unpaid" t) (map toObject ts))
  = sumOver unpaidExpense ts.
Proof.
  rewrite reduce_filter_objects. apply sumOver_ext. intros t _. by_kind t.
Qed.

Lemma sum_paid_signed (ts : list Transaction) :
  reduce_sum
    (fun t => if isType "income" t then Number (o_amount t)
              else - Number (o_amount t))
    (filter (fun t => isStatus "paid" t) (map toObject ts))
  = sumOver paidIncome ts - sumOver paidExpense ts.
Proof.
  rewrite reduce_filter_objects, <- sumOver_minus.
  apply sumOver_ext. intros t _. by_kind t.
Qed.

(** Balances of the ledger derived from typed transactions. *)
Lemma ledger_balances (ts : list Transaction) :
  balanceIn CASH ts = Some (sumOver paidIncome ts - sumOver paidExpense ts)
  /\ balanceIn ACCOUNTS_RECEIVABLE ts = Some (sumOver unpaidIncome ts)
  /\ balanceIn ACCOUNTS_PAYABLE ts = Some (sumOver unpaidExpense ts)
  /\ balanceIn "301" ts = Some 0
  /\ balanceIn REVENUE ts = Some (sumOver paidIncome ts + sumOver unpaidIncome ts)
  /\ balanceIn EXPENSE ts = Some (sumOver paidExpense ts + sumOver unpaidExpense ts).
Proof.
  rewrite !balanceIn_closed. cbn [JsObject.getOwn CHART_OF_ACCOUNTS mkAccount
    CASH ACCOUNTS_RECEIVABLE ACCOUNTS_PAYABLE REVENUE EXPENSE].
  cbn. rewrite <- sumOver_minus, <- !sumOver_plus, <- (sumOver_zero ts).
  repeat split; f_equal; apply sumOver_ext; intros t _;
    destruct (contribution_table t) as (H1 & H2 & H3 & H4 & H5 & H6);
    assumption.
Qed.

Lemma ledgerMapOf_ledgerViews (journal : list JournalEntry) :
  LedgerReports.ledgerMapOf (ledgerViews journal) = ledgerAfter (postings journal).
Proof. reflexivity. Qed.

Lemma balanceOr0_ledgerAfter (ps : list Posting) (c : string) (acc : Account) :
  JsObject.getOwn CHART_OF_ACCOUNTS c = Some acc ->
  LedgerReports.balanceOr0 (ledgerAfter ps) c = la_balance (accountView acc ps).
Proof.
  intros Hget. unfold LedgerReports.balanceOr0, JsObject.get.
  rewrite getOwn_ledgerAfter, Hget. cbn [option_map]. apply or_zero_id.
Qed.

(** What [ledgerMap[c]?.balance || 0] reads in the report, for a chart code. *)
Lemma balanceOr0_balanceIn (ts : list Transaction) (c : string) (b : Z) :
  balanceIn c ts = Some b ->
  LedgerReports.balanceOr0 (ledgerAfter (postings (generateJournal ts))) c = b.
Proof.
  rewrite balanceIn_closed.
  destruct (JsObject.getOwn CHART_OF_ACCOUNTS c) as [acc |] eqn:Hget;
    [| discriminate].
  cbn [option_map]. intros [= <-].
  rewrite (balanceOr0_ledgerAfter _ _ _ Hget), accountView_generateJournal.
  cbn [la_balance]. now rewrite (chart_getOwn_code _ _ Hget).
Qed.

Lemma reports_ok (ts : list Transaction) :
  LedgerReports.reports (map toObject ts)
  = Ok {| LedgerReports.ledger := ledgerAfter (postings (generateJournal ts));
          LedgerReports.balanceSheetData :=
            LedgerReports.balanceSheetOf
              (ledgerAfter (postings (generateJournal ts)));
          LedgerReports.cashFlowData :=
            LedgerReports.cashFlowOf (map toObject ts) |}.
Proof.
  unfold LedgerReports.reports.
  change (generateJournalJs (map toObject ts)) with (generateJournal ts).
  rewrite generateLedger_generateJournal. cbn [bind].
  rewrite ledgerMapOf_ledgerViews. reflexivity.
Qed.

(* ================================================================== *)
(** * The journal generator *)

Lemma Forall2_map_r {A B : Type} (R : A -> B -> Prop) (f : A -> B) (xs : list A) :
  (forall x, In x xs -> R x (f x)) -> Forall2 R xs (map f xs).
Proof.
  induction xs as [| x xs IH]; intros H; simpl; constructor.
  - apply H. now left.
  - apply IH. intros y Hy. apply H. now right.
Qed.

Lemma journalEntryOf_lines (o : TransactionObject) :
  journalEntryOf o
  = {| je_id := o_id o; je_date := o_date o; je_description := o_description o;
       je_lines := linesForObject o |}.
Proof.
  unfold journalEntryOf, linesForObject.
  destruct (String.eqb (o_type o) "income"), (String.eqb (o_type o) "expense"),
    (String.eqb (o_payment_status o) "paid"); reflexivity.
Qed.

(** C1. Every entry [generateJournal] produces is balanced: for each
    transaction [t] of the input and the entry [e] produced for it, the sum of
    the debit fields of the lines of [e] equals the sum of their credit
    fields, and both equal [t.amount]. *)
Theorem journal_entry_balanced (ts : list Transaction) :
  Forall2 (fun t e =>
             totalDebit e = totalCredit e
             /\ totalDebit e = tx_amount t
             /\ totalCredit e = tx_amount t)
    ts (generateJournal ts).
Proof.
  rewrite generateJournal_ruleEntry. apply Forall2_map_r. intros t _.
  unfold totalDebit, totalCredit.
  destruct t as [i d ds a [] [] c]; cbn; lia.
Qed.

(** C3. [generateJournal] yields exactly one entry per transaction, in input
    order, and the entry at position [i] is the row of the rule table selected
    by the type and payment status of the transaction at position [i],
    whenever those two fields hold values of their two-value domains:
    income/paid credits Revenue (401) and debits Cash (101); income/unpaid
    credits Revenue and debits Accounts Receivable (102); expense/paid debits
    Expense (501) and credits Cash; expense/unpaid debits Expense and credits
    Accounts Payable (201). *)
Theorem generateJournal_rule_table (os : list TransactionObject) (i : nat)
  (o : TransactionObject) (ty : TransactionType) (st : PaymentStatus) :
  nth_error os i = Some o ->
  o_type o = typeLiteral ty ->
  o_payment_status o = statusLiteral st ->
  List.length (generateJournalJs os) = List.length os
  /\ nth_error (generateJournalJs os) i
     = Some {| je_id := o_id o;
               je_date := o_date o;
               je_description := o_description o;
               je_lines := ruleTable ty st (o_amount o) |}.
Proof.
  intros Hnth Hty Hst. unfold generateJournalJs. split.
  - apply length_map.
  - rewrite nth_error_map, Hnth. cbn [option_map]. f_equal.
    rewrite journalEntryOf_lines. f_equal.
    unfold linesForObject. rewrite Hty, Hst.
    destruct ty, st; reflexivity.
Qed.

Lemma generateJournal_rule_table_witness :
  List.length (generateJournalJs (map toObject [cashSale; creditPurchase])) = 2%nat
  /\ nth_error (generateJournalJs (map toObject [cashSale; creditPurchase])) 1
     = Some {| je_id := "t2"; je_date := "2025-01-03"; je_description := "";
               je_lines := [debitLine EXPENSE 30000;
                            creditLine ACCOUNTS_PAYABLE 30000] |}.
Proof.
  exact (generateJournal_rule_table
           (map toObject [cashSale; creditPurchase]) 1
           (toObject creditPurchase) expense unpaid
           eq_refl eq_refl eq_refl).
Defined.

(** C4, counterexample. A sale of amount 0 is a valid transaction, and both
    lines of its entry have debit 0 and credit 0: neither line has exactly one
    nonzero side. *)
Lemma zero_amount_lines_have_no_nonzero_side :
  validTransaction zeroSale = true
  /\ map (fun l => (debit l, credit l))
       (flat_map je_lines (generateJournal [zeroSale])) = [(0, 0); (0, 0)]
  /\ forallb exactlyOneNonzero (flat_map je_lines (generateJournal [zeroSale]))
     = false.
Proof.
  repeat split.
Qed.

(** C4, amended. Every entry carries the id, date and description of its
    transaction and has exactly two lines; each line has one of debit and
    credit equal to 0 and the other equal to [t.amount], so exactly one of the
    two is nonzero precisely when [t.amount] is not 0. *)
Theorem journal_entry_shape (ts : list Transaction) :
  Forall2 (fun t e =>
             je_id e = tx_id t
             /\ je_date e = tx_date t
             /\ je_description e = tx_description t
             /\ List.length (je_lines e) = 2%nat
             /\ Forall (fun l =>
                          ((debit l = tx_amount t /\ credit l = 0)
                           \/ (debit l = 0 /\ credit l = tx_amount t))
                          /\ exactlyOneNonzero l = negb (tx_amount t =? 0))
                  (je_lines e))
    ts (generateJournal ts).
Proof.
  rewrite generateJournal_ruleEntry. apply Forall2_map_r. intros t _.
  destruct t as [i d ds a [] [] c]; cbn;
    repeat split; repeat constructor; auto;
    unfold exactlyOneNonzero; cbn; destruct (a =? 0); reflexivity.
Qed.

Lemma generateJournalJs_lines (os : list TransactionObject) :
  generateJournalJs os
  = map (fun o => {| je_id := o_id o; je_date := o_date o;
                     je_description := o_description o;
                     je_lines := linesForObject o |}) os.
Proof.
  unfold generateJournalJs. apply map_ext. exact journalEntryOf_lines.
Qed.

(** C8, counterexample. A row with a negative amount and a malformed date is
    not rejected: [generateJournal] returns an entry for it, with the negative
    amount on both lines and the date copied as it came. *)
Lemma negative_amount_is_journalised :
  validObject negativeRow = false
  /\ generateJournalJs [negativeRow]
     = [ {| je_id := "r1"; je_date := "not-a-date"; je_description := "";
            je_lines := [creditLine REVENUE (-5); debitLine CASH (-5)] |} ].
Proof.
  split; reflexivity.
Qed.

(** C8, amended. [generateJournal] performs no validation and has no failure
    result: every input object, valid or not, yields exactly one entry that
    carries its id, date and description unchanged.  The amount is copied as
    it is, negative or not, into the lines of the rule table; a payment status
    other than "paid" is treated as unpaid; a type other than "income" and
    "expense" yields an entry without lines. *)
Theorem generateJournal_never_rejects (os : list TransactionObject) :
  List.length (generateJournalJs os) = List.length os
  /\ Forall2 (fun o e =>
                je_id e = o_id o
                /\ je_date e = o_date o
                /\ je_description e = o_description o
                /\ je_lines e = linesForObject o)
       os (generateJournalJs os).
Proof.
  rewrite generateJournalJs_lines. split.
  - apply length_map.
  - apply Forall2_map_r. intros o _. repeat split.
Qed.

(** What the unvalidated cases look like on a row outside both domains. *)
Example transfer_row_has_no_lines :
  validObject transferRow = false
  /\ generateJournalJs [transferRow]
     = [ {| je_id := "r2"; je_date := "2025-01-05"; je_description := "";
            je_lines := [] |} ].
Proof.
  split; reflexivity.
Qed.

(* ================================================================== *)
(** * The ledger aggregator *)

(** An account nothing was posted to has balance 0 and an empty history. *)
Lemma accountView_untouched (acc : Account) (ps : list Posting) :
  filter (postsTo (code acc)) ps = [] ->
  la_balance (accountView acc ps) = 0 /\ la_entries (accountView acc ps) = [].
Proof.
  intros H. unfold accountView. cbn [la_balance la_entries].
  rewrite H. split; reflexivity.
Qed.

Lemma ledgerViews_codes (journal : list JournalEntry) :
  map la_code (ledgerViews journal)
  = ["101"; "102"; "201"; "301"; "302"; "303"; "401"; "501"].
Proof. reflexivity. Qed.

(** Ledger completeness for journals whose account ids are not names
    inherited from [Object.prototype]: the result has exactly one view per
    chart account, in chart order, each the fold of the lines posted to it, and
    an account without postings has balance 0 and no history. *)
Lemma generateLedger_complete (journal : list JournalEntry) :
  plainAccountIds journal = true ->
  exists l,
    generateLedger journal = Ok l
    /\ map la_code l = JsObject.keys CHART_OF_ACCOUNTS
    /\ NoDup (map la_code l)
    /\ Forall2 (fun kv a => a = accountView (snd kv) (postings journal))
         CHART_OF_ACCOUNTS l
    /\ (forall a, In a l ->
          filter (postsTo (la_code a)) (postings journal) = [] ->
          la_balance a = 0 /\ la_entries a = []).
Proof.
  intros Hplain. exists (ledgerViews journal).
  split; [now apply generateLedger_plain |].
  split; [reflexivity |].
  split; [rewrite ledgerViews_codes; exact chart_keys_NoDup |].
  split.
  - unfold ledgerViews. apply Forall2_map_r. reflexivity.
  - intros a Hin Hnone. unfold ledgerViews in Hin.
    apply in_map_iff in Hin as ([k acc] & <- & _).
    now apply accountView_untouched.
Qed.

(** Ledger completeness for every transaction list, the empty one included. *)
Lemma deriveLedger_complete (ts : list Transaction) :
  exists l,
    deriveLedger ts = Ok l
    /\ map la_code l = JsObject.keys CHART_OF_ACCOUNTS
    /\ NoDup (map la_code l)
    /\ (forall a, In a l ->
          filter (postsTo (la_code a)) (postings (generateJournal ts)) = [] ->
          la_balance a = 0 /\ la_entries a = []).
Proof.
  destruct (generateLedger_complete (generateJournal ts)
              (generateJournalJs_plain _)) as (l & H1 & H2 & H3 & _ & H5).
  exists l. auto.
Qed.

Example empty_ledger :
  deriveLedger []
  = Ok (map (fun kv => {| la_code := code (snd kv); la_name := name (snd kv);
                          la_type := type (snd kv); la_balance := 0;
                          la_entries := [] |}) CHART_OF_ACCOUNTS).
Proof. reflexivity. Qed.

(** C5, at the failing input. A journal with a line whose account id is
    "valueOf" is a well-typed [JournalEntry[]]; on it [generateLedger] throws
    a [TypeError] and returns no ledger at all, so not the eight views the
    claim promises for every journal. *)
Theorem generateLedger_valueOf_line_throws :
  generateLedger [mkEntry "e1" [mkLine "101" 5 0; mkLine "valueOf" 0 5]]
  = Throw TypeError.
Proof. reflexivity. Qed.

Lemma notInherited_pair (e : JournalEntry) (ls : list JournalEntryLine) :
  forallb notInherited (map (pair e) ls)
  = forallb (fun l => negb (JsObject.inherited (accountId l))) ls.
Proof.
  induction ls as [| l ls IH]; [reflexivity |].
  cbn [map forallb]. now rewrite IH.
Qed.

(** A line for an account the chart does not have is skipped when its id is
    not an inherited name: the ledger is the one of the journal without that
    line, so the other lines of the entry are posted. *)
Lemma unknown_account_line_skipped (before after : list JournalEntry)
  (e : JournalEntry) (ls1 ls2 : list JournalEntryLine) (line : JournalEntryLine) :
  JsObject.getOwn CHART_OF_ACCOUNTS (accountId line) = None ->
  JsObject.inherited (accountId line) = false ->
  plainAccountIds (before ++ e :: after) = true ->
  je_lines e = ls1 ++ ls2 ->
  generateLedger
    (before ++ {| je_id := je_id e; je_date := je_date e;
                  je_description := je_description e;
                  je_lines := ls1 ++ line :: ls2 |} :: after)
  = generateLedger (before ++ e :: after).
Proof.
  intros Hget Hinh Hplain Hlines.
  set (e' := {| je_id := je_id e; je_date := je_date e;
                je_description := je_description e;
                je_lines := ls1 ++ line :: ls2 |}).
  assert (Hp : forall j, postings (before ++ j :: after)
                         = postings before ++ map (pair j) (je_lines j)
                           ++ postings after).
  { intros j. unfold postings. rewrite flat_map_app. reflexivity. }
  assert (Hplain' : plainAccountIds (before ++ e' :: after) = true).
  { unfold plainAccountIds in *. rewrite Hp in *.
    rewrite !forallb_app in *. cbn [je_lines e'].
    rewrite Hlines in Hplain. rewrite map_app, forallb_app in *.
    cbn [map forallb]. rewrite !(notInherited_pair e') in *.
    rewrite !(notInherited_pair e) in Hplain.
    unfold notInherited at 2. cbn [snd]. rewrite Hinh. cbn [negb andb].
    exact Hplain. }
  rewrite !generateLedger_plain by assumption. f_equal.
  unfold ledgerViews. apply map_ext_in. intros [k acc] Hin. cbn [snd].
  unfold accountView. rewrite !Hp. cbn [je_lines e']. rewrite Hlines.
  rewrite !map_app, !filter_app. cbn [map filter].
  assert (Hmiss : postsTo (code acc) (e', line) = false).
  { unfold postsTo. cbn [snd]. apply String.eqb_neq.
    pose proof (chart_key_is_code _ Hin) as Hk. cbn [fst snd] in Hk.
    rewrite Hk. exact (getOwn_None _ _ Hget _ Hin). }
  rewrite Hmiss.
  assert (Hsame : forall ls,
    map ledgerEntryOf (filter (postsTo (code acc)) (map (pair e') ls))
    = map ledgerEntryOf (filter (postsTo (code acc)) (map (pair e) ls))
    /\ sumOver (signedAmount (normalBalance acc))
         (filter (postsTo (code acc)) (map (pair e') ls))
       = sumOver (signedAmount (normalBalance acc))
           (filter (postsTo (code acc)) (map (pair e) ls))).
  { induction ls as [| x ls [IH1 IH2]]; [split; reflexivity |].
    cbn [map filter].
    change (postsTo (code acc) (e', x)) with (postsTo (code acc) (e, x)).
    destruct (postsTo (code acc) (e, x)); cbn [map sumOver];
      rewrite ?IH1, ?IH2; split; reflexivity. }
  destruct (Hsame ls1) as [E1 S1]. destruct (Hsame ls2) as [E2 S2].
  rewrite !sumOver_app, !map_app, E1, E2, S1, S2. reflexivity.
Qed.

(** C10, at the failing input. The account id "toString" is not a key of the
    chart, yet the line is not skipped: [ledger["toString"]] reads the
    function inherited from [Object.prototype], the guard passes, and pushing
    onto its missing [entries] throws. *)
Theorem generateLedger_toString_line_throws :
  JsObject.getOwn CHART_OF_ACCOUNTS "toString" = None
  /\ generateLedger [mkEntry "e1" [mkLine "toString" 1 0; mkLine "101" 1 0]]
     = Throw TypeError.
Proof. split; reflexivity. Qed.

(* ================================================================== *)
(** * Report derivations *)

(** The ledger-based balance sheet in terms of the transactions. *)
Lemma ledger_balance_sheet (ts : list Transaction) :
  LedgerReports.balanceSheetOf (ledgerAfter (postings (generateJournal ts)))
  = {| LedgerReports.assets :=
         {| LedgerReports.cash := sumOver paidIncome ts - sumOver paidExpense ts;
            LedgerReports.accountsReceivable := sumOver unpaidIncome ts;
            LedgerReports.assets_total :=
              (sumOver paidIncome ts - sumOver paidExpense ts)
              + sumOver unpaidIncome ts |};
       LedgerReports.liabilities :=
         {| LedgerReports.accountsPayable := sumOver unpaidExpense ts;
            LedgerReports.liabilities_total := sumOver unpaidExpense ts |};
       LedgerReports.equity :=
         {| LedgerReports.retainedEarnings :=
              (sumOver paidIncome ts + sumOver unpaidIncome ts)
              - (sumOver paidExpense ts + sumOver unpaidExpense ts);
            LedgerReports.capital := 0;
            LedgerReports.equity_total :=
              0 + ((sumOver paidIncome ts + sumOver unpaidIncome ts)
                   - (sumOver paidExpense ts + sumOver unpaidExpense ts)) |} |}.
Proof.
  destruct (ledger_balances ts) as (H1 & H2 & H3 & H4 & H5 & H6).
  unfold CASH, ACCOUNTS_RECEIVABLE, ACCOUNTS_PAYABLE, REVENUE, EXPENSE in *.
  unfold LedgerReports.balanceSheetOf.
  rewrite (balanceOr0_balanceIn ts _ _ H1), (balanceOr0_balanceIn ts _ _ H2),
    (balanceOr0_balanceIn ts _ _ H3), (balanceOr0_balanceIn ts _ _ H4),
    (balanceOr0_balanceIn ts _ _ H5), (balanceOr0_balanceIn ts _ _ H6).
  reflexivity.
Qed.

(** The transaction-based balance sheet in the same terms. *)
Lemma transaction_balance_sheet (ts : list Transaction) :
  TransactionReports.balanceSheetData (map toObject ts)
  = {| TransactionReports.assets :=
         {| TransactionReports.cash :=
              sumOver paidIncome ts - sumOver paidExpense ts;
            TransactionReports.accountsReceivable := sumOver unpaidIncome ts;
            TransactionReports.assets_total :=
              (sumOver paidIncome ts - sumOver paidExpense ts)
              + sumOver unpaidIncome ts |};
       TransactionReports.liabilities :=
         {| TransactionReports.accountsPayable := sumOver unpaidExpense ts;
            TransactionReports.liabilities_total := sumOver unpaidExpense ts |};
       TransactionReports.equity :=
         {| TransactionReports.retainedEarnings :=
              (sumOver paidIncome ts - sumOver paidExpense ts)
              + sumOver unpaidIncome ts - sumOver unpaidExpense ts;
            TransactionReports.equity_total :=
              (sumOver paidIncome ts - sumOver paidExpense ts)
              + sumOver unpaidIncome ts - sumOver unpaidExpense ts |} |}.
Proof.
  unfold TransactionReports.balanceSheetData.
  rewrite sum_paid_signed, sum_unpaid_income, sum_unpaid_expense.
  reflexivity.
Qed.

(** On integers the two balance sheets agree field by field. *)
Lemma balance_sheets_agree (ts : list Transaction) :
  let lb := LedgerReports.balanceSheetOf
              (ledgerAfter (postings (generateJournal ts))) in
  let tb := TransactionReports.balanceSheetData (map toObject ts) in
  LedgerReports.cash (LedgerReports.assets lb)
  = TransactionReports.cash (TransactionReports.assets tb)
  /\ LedgerReports.accountsReceivable (LedgerReports.assets lb)
     = TransactionReports.accountsReceivable (TransactionReports.assets tb)
  /\ LedgerReports.assets_total (LedgerReports.assets lb)
     = TransactionReports.assets_total (TransactionReports.assets tb)
  /\ LedgerReports.accountsPayable (LedgerReports.liabilities lb)
     = TransactionReports.accountsPayable (TransactionReports.liabilities tb)
  /\ LedgerReports.liabilities_total (LedgerReports.liabilities lb)
     = TransactionReports.liabilities_total (TransactionReports.liabilities tb)
  /\ LedgerReports.equity_total (LedgerReports.equity lb)
     = TransactionReports.equity_total (TransactionReports.equity tb).
Proof.
  cbv zeta. rewrite ledger_balance_sheet, transaction_balance_sheet.
  cbn. repeat split; lia.
Qed.

(* ================================================================== *)
(** * Cash flow *)

Lemma sumOver_paidIncome (ts : list Transaction) :
  sumOver paidIncome ts = sumOver tx_amount (filter isPaidIncome ts).
Proof.
  rewrite sumOver_filter. apply sumOver_ext. intros t _.
  unfold paidIncome, isPaidIncome.
  destruct (tx_type t), (tx_payment_status t); reflexivity.
Qed.

Lemma sumOver_paidExpense (ts : list Transaction) :
  sumOver paidExpense ts = sumOver tx_amount (filter isPaidExpense ts).
Proof.
  rewrite sumOver_filter. apply sumOver_ext. intros t _.
  unfold paidExpense, isPaidExpense.
  destruct (tx_type t), (tx_payment_status t); reflexivity.
Qed.

Lemma filter_drop_unpaid (p : Transaction -> bool) (before after : list Transaction)
  (u : Transaction) :
  p (withStatus unpaid u) = false ->
  filter p (before ++ withStatus unpaid u :: after) = filter p (before ++ after).
Proof.
  intros Hp. rewrite !filter_app. cbn [filter]. now rewrite Hp.
Qed.

Lemma unpaid_not_counted (u : Transaction) :
  isPaidIncome (withStatus unpaid u) = false
  /\ isPaidExpense (withStatus unpaid u) = false.
Proof.
  unfold isPaidIncome, isPaidExpense. cbn. destruct (tx_type u); split; reflexivity.
Qed.

(** C7. For every transaction list the cash-flow figures, on the dashboard
    ([stats]) and in the cash-flow report, are: cash-in, the sum of the amounts
    of the income transactions that are paid; cash-out, the sum of the amounts
    of the expense transactions that are paid; net, cash-in minus cash-out.  A
    transaction whose payment status is unpaid changes none of the three,
    wherever it stands in the list. *)
Theorem cash_flow_counts_paid_only (ts before after : list Transaction)
  (u : Transaction) :
  let s := stats (map toObject ts) in
  let cf := LedgerReports.cashFlowOf (map toObject ts) in
  let with_u := map toObject (before ++ withStatus unpaid u :: after) in
  let without_u := map toObject (before ++ after) in
  (st_income s = sumOver tx_amount (filter isPaidIncome ts)
   /\ st_expenses s = sumOver tx_amount (filter isPaidExpense ts)
   /\ st_profit s = st_income s - st_expenses s)
  /\ (LedgerReports.cashIn cf = sumOver tx_amount (filter isPaidIncome ts)
      /\ LedgerReports.cashOut cf = sumOver tx_amount (filter isPaidExpense ts)
      /\ LedgerReports.netCash cf
         = LedgerReports.cashIn cf - LedgerReports.cashOut cf)
  /\ (st_income (stats with_u) = st_income (stats without_u)
      /\ st_expenses (stats with_u) = st_expenses (stats without_u)
      /\ st_profit (stats with_u) = st_profit (stats without_u))
  /\ LedgerReports.cashFlowOf with_u = LedgerReports.cashFlowOf without_u.
Proof.
  cbv zeta. unfold stats, LedgerReports.cashFlowOf.
  cbn [st_income st_expenses st_profit
       LedgerReports.cashIn LedgerReports.cashOut LedgerReports.netCash].
  rewrite !sum_paid_income, !sum_paid_expense.
  rewrite !sumOver_paidIncome, !sumOver_paidExpense.
  destruct (unpaid_not_counted u) as [Hi He].
  rewrite (filter_drop_unpaid _ before after u Hi),
    (filter_drop_unpaid _ before after u He).
  repeat split.
Qed.

(** Once the status is flipped to paid, the amount enters cash-in for an
    income transaction and cash-out for an expense transaction. *)
Lemma mark_as_paid_counts_once (before after : list Transaction) (u : Transaction) :
  let was := LedgerReports.cashFlowOf
               (map toObject (before ++ withStatus unpaid u :: after)) in
  let now := LedgerReports.cashFlowOf
               (map toObject (before ++ withStatus paid u :: after)) in
  match tx_type u with
  | income =>
      LedgerReports.cashIn now = LedgerReports.cashIn was + tx_amount u
      /\ LedgerReports.cashOut now = LedgerReports.cashOut was
  | expense =>
      LedgerReports.cashIn now = LedgerReports.cashIn was
      /\ LedgerReports.cashOut now = LedgerReports.cashOut was + tx_amount u
  end.
Proof.
  cbv zeta. unfold LedgerReports.cashFlowOf.
  cbn [LedgerReports.cashIn LedgerReports.cashOut].
  rewrite !sum_paid_income, !sum_paid_expense, !sumOver_app.
  destruct u as [i d ds a [] st c]; cbn; lia.
Qed.

(* ================================================================== *)
(** * Determinism and order *)

Lemma Forall2_map_map {A B C : Type} (R : B -> C -> Prop) (f : A -> B) (g : A -> C)
  (xs : list A) :
  (forall x, In x xs -> R (f x) (g x)) -> Forall2 R (map f xs) (map g xs).
Proof.
  induction xs as [| x xs IH]; intros H; simpl; constructor.
  - apply H. now left.
  - apply IH. intros y Hy. apply H. now right.
Qed.

(** The derived ledger in terms of the transactions: the pipeline returns, and
    each account's history is the concatenation, in input order, of what the
    transactions post to it. *)
Lemma deriveLedger_closed (ts : list Transaction) :
  deriveLedger ts
  = Ok (map (fun kv =>
               {| la_code := code (snd kv);
                  la_name := name (snd kv);
                  la_type := type (snd kv);
                  la_balance :=
                    sumOver (contribution (normalBalance (snd kv)) (code (snd kv))) ts;
                  la_entries := flat_map (historyOf (code (snd kv))) ts |})
          CHART_OF_ACCOUNTS).
Proof.
  unfold deriveLedger. rewrite generateLedger_generateJournal. f_equal.
  unfold ledgerViews. apply map_ext. intros kv.
  apply accountView_generateJournal.
Qed.

(* ================================================================== *)
(** * End-to-end scenarios of the specification *)

Example scenario_A :
  generateJournal [cashSale]
  = [ {| je_id := "t1"; je_date := "2025-01-02"; je_description := "";
         je_lines := [creditLine REVENUE 100000; debitLine CASH 100000] |} ]
  /\ option_map (map (fun a => (la_code a, la_balance a)))
       (match deriveLedger [cashSale] with Ok l => Some l | Throw _ => None end)
     = Some [("101", 100000); ("102", 0); ("201", 0); ("301", 0);
             ("302", 0); ("303", 0); ("401", 100000); ("501", 0)].
Proof. split; reflexivity. Qed.

Example scenario_C :
  option_map (map (fun a => (la_code a, la_balance a)))
    (match deriveLedger [cashSale; creditPurchase] with
     | Ok l => Some l | Throw _ => None end)
  = Some [("101", 100000); ("102", 0); ("201", 30000); ("301", 0);
          ("302", 0); ("303", 0); ("401", 100000); ("501", 30000)]
  /\ LedgerReports.cashFlowOf (map toObject [cashSale; creditPurchase])
     = {| LedgerReports.cashIn := 100000; LedgerReports.cashOut := 0;
          LedgerReports.netCash := 100000 |}.
Proof. split; reflexivity. Qed.

(* ================================================================== *)
(** * More about the ledger aggregator *)

Lemma chart_code_cases (k : string) :
  JsObject.getOwn CHART_OF_ACCOUNTS k <> None ->
  In k ["101"; "102"; "201"; "301"; "302"; "303"; "401"; "501"].
Proof.
  intros H.
  destruct (JsObject.getOwn CHART_OF_ACCOUNTS k) as [acc |] eqn:Hget;
    [| congruence].
  apply getOwn_In in Hget.
  change (In (fst (k, acc)) (JsObject.keys CHART_OF_ACCOUNTS)).
  unfold JsObject.keys. now apply in_map.
Qed.

Lemma postsToChartOnly_plain (journal : list JournalEntry) :
  postsToChartOnly journal = true -> plainAccountIds journal = true.
Proof.
  unfold postsToChartOnly, plainAccountIds.
  induction (postings journal) as [| p ps IH]; [reflexivity |].
  cbn [forallb]. intros H. apply andb_true_iff in H as [Hp Hps].
  apply andb_true_iff. split; [| now apply IH].
  unfold notInherited. unfold inChart in Hp.
  destruct (JsObject.getOwn CHART_OF_ACCOUNTS (accountId (snd p))) as [acc |] eqn:Hget;
    [| discriminate].
  apply getOwn_In in Hget.
  pose proof (chart_keys_not_inherited _ Hget) as Hno. cbn [fst] in Hno.
  now rewrite Hno.
Qed.

Lemma activeAccount_ledgerViews (journal : list JournalEntry) (c : string) :
  activeAccount (ledgerViews journal) c
  = option_map (fun a => accountView a (postings journal))
      (JsObject.getOwn CHART_OF_ACCOUNTS c).
Proof.
  unfold activeAccount, ledgerViews. apply find_view. exact chart_key_is_code.
Qed.

Lemma generateLedger_cases (journal : list JournalEntry) :
  generateLedger journal
  = if plainAccountIds journal then Ok (ledgerViews journal)
    else Throw TypeError.
Proof.
  destruct (plainAccountIds journal) eqn:Hplain.
  - now apply generateLedger_plain.
  - now apply generateLedger_throws.
Qed.

(** X1. [generateLedger] returns exactly when no line of the journal names a
    property inherited from [Object.prototype]: then the result lists the
    eight chart accounts in chart order, each with the signed sum and the
    history of the lines posted to it, lines for unknown accounts being
    skipped; otherwise the call throws a [TypeError]. *)
Theorem generateLedger_returns_or_throws (journal : list JournalEntry) :
  generateLedger journal
  = if forallb (fun line => negb (JsObject.inherited (accountId line)))
         (flat_map je_lines journal)
    then Ok (map (fun kv => accountView (snd kv) (postings journal))
               CHART_OF_ACCOUNTS)
    else Throw TypeError.
Proof.
  rewrite generateLedger_cases. unfold plainAccountIds, ledgerViews.
  replace (forallb notInherited (postings journal))
    with (forallb (fun line => negb (JsObject.inherited (accountId line)))
            (flat_map je_lines journal)); [reflexivity |].
  unfold postings. induction journal as [| e journal IH]; [reflexivity |].
  cbn [flat_map]. rewrite !forallb_app, IH, notInherited_pair. reflexivity.
Qed.

Lemma sumOver_map {A B : Type} (f : B -> Z) (g : A -> B) (xs : list A) :
  sumOver f (map g xs) = sumOver (fun x => f (g x)) xs.
Proof.
  induction xs as [| x xs IH]; simpl; [reflexivity | now rewrite IH].
Qed.

(** X2. In every ledger [generateLedger] returns, the balance of each account
    is the fold of that account's own history: debit minus credit per entry
    for a debit-normal account, credit minus debit for a credit-normal one. *)
Theorem ledger_balance_is_fold_of_history (journal : list JournalEntry)
  (l : list LedgerAccount) :
  generateLedger journal = Ok l ->
  Forall2 (fun kv a =>
             la_code a = fst kv
             /\ la_balance a
                = sumOver (signedEntry (normalBalance (snd kv))) (la_entries a))
    CHART_OF_ACCOUNTS l.
Proof.
  rewrite generateLedger_cases.
  destruct (plainAccountIds journal); [| discriminate].
  intros [= <-]. unfold ledgerViews. apply Forall2_map_r.
  intros kv Hin. split.
  - exact (chart_key_is_code kv Hin).
  - unfold accountView. cbn [la_balance la_entries].
    rewrite sumOver_map. apply sumOver_ext. intros p _.
    destruct (normalBalance (snd kv)); reflexivity.
Qed.

Lemma ledger_balance_is_fold_of_history_witness :
  exists l,
    generateLedger [mkEntry "e1" [mkLine "101" 5 0; mkLine "999" 0 5]] = Ok l
    /\ Forall2 (fun kv a =>
                  la_code a = fst kv
                  /\ la_balance a
                     = sumOver (signedEntry (normalBalance (snd kv))) (la_entries a))
         CHART_OF_ACCOUNTS l.
Proof.
  eexists. split; [reflexivity |].
  exact (ledger_balance_is_fold_of_history
           [mkEntry "e1" [mkLine "101" 5 0; mkLine "999" 0 5]] _ eq_refl).
Defined.

Lemma balanceOfCode_ledgerViews (journal : list JournalEntry) (c : string)
  (acc : Account) :
  JsObject.getOwn CHART_OF_ACCOUNTS c = Some acc ->
  balanceOfCode (ledgerViews journal) c
  = sumOver (signedAmount (normalBalance acc))
      (filter (postsTo c) (postings journal)).
Proof.
  intros Hget. unfold balanceOfCode.
  rewrite activeAccount_ledgerViews, Hget. cbn [option_map].
  unfold accountView. cbn [la_balance].
  now rewrite (chart_getOwn_code _ _ Hget).
Qed.

Lemma historyOfCode_ledgerViews (journal : list JournalEntry) (c : string)
  (acc : Account) :
  JsObject.getOwn CHART_OF_ACCOUNTS c = Some acc ->
  historyOfCode (ledgerViews journal) c
  = map ledgerEntryOf (filter (postsTo c) (postings journal)).
Proof.
  intros Hget. unfold historyOfCode.
  rewrite activeAccount_ledgerViews, Hget. cbn [option_map].
  unfold accountView. cbn [la_entries].
  now rewrite (chart_getOwn_code _ _ Hget).
Qed.

Lemma noAccount_ledgerViews (journal : list JournalEntry) (c : string) :
  JsObject.getOwn CHART_OF_ACCOUNTS c = None ->
  balanceOfCode (ledgerViews journal) c = 0
  /\ historyOfCode (ledgerViews journal) c = [].
Proof.
  intros Hget. unfold balanceOfCode, historyOfCode.
  rewrite activeAccount_ledgerViews, Hget. split; reflexivity.
Qed.

Ltac eval_postsTo :=
  repeat match goal with
         | |- context [postsTo ?c (?e, ?l)] =>
             let b := eval vm_compute in (String.eqb c (accountId l)) in
             change (postsTo c (e, l)) with b
         end.

Lemma trial_balance_postings (ps : list Posting) :
  forallb inChart ps = true ->
  sumOver (signedAmount Debit) (filter (postsTo "101") ps)
  + sumOver (signedAmount Debit) (filter (postsTo "102") ps)
  + sumOver (signedAmount Debit) (filter (postsTo "303") ps)
  + sumOver (signedAmount Debit) (filter (postsTo "501") ps)
  - (sumOver (signedAmount Credit) (filter (postsTo "201") ps)
     + sumOver (signedAmount Credit) (filter (postsTo "301") ps)
     + sumOver (signedAmount Credit) (filter (postsTo "302") ps)
     + sumOver (signedAmount Credit) (filter (postsTo "401") ps))
  = sumOver (fun p => debit (snd p) - credit (snd p)) ps.
Proof.
  rewrite !sumOver_filter.
  induction ps as [| p ps IH]; [reflexivity |].
  cbn [forallb]. intros H. apply andb_true_iff in H as [Hp Hps].
  specialize (IH Hps).
  assert (Hk : In (accountId (snd p))
                 ["101"; "102"; "201"; "301"; "302"; "303"; "401"; "501"]).
  { apply chart_code_cases. unfold inChart in Hp.
    destruct (JsObject.getOwn CHART_OF_ACCOUNTS (accountId (snd p)));
      [discriminate | discriminate]. }
  destruct p as [e [k nm d c]]. cbn [snd accountId In] in Hk.
  cbn [sumOver].
  repeat (destruct Hk as [<- | Hk];
          [eval_postsTo; cbv iota;
           cbn [signedAmount snd debit credit] in IH |- *; lia |]).
  destruct Hk.
Qed.

Lemma sumOver_postings (journal : list JournalEntry) :
  sumOver (fun p => debit (snd p) - credit (snd p)) (postings journal)
  = sumOver (fun e => totalDebit e - totalCredit e) journal.
Proof.
  unfold postings. rewrite sumOver_flat_map. apply sumOver_ext. intros e _.
  rewrite sumOver_map. cbn [snd]. unfold totalDebit, totalCredit.
  apply sumOver_minus.
Qed.

Lemma balanced_sum_zero (journal : list JournalEntry) :
  forallb balancedEntry journal = true ->
  sumOver (fun e => totalDebit e - totalCredit e) journal = 0.
Proof.
  induction journal as [| e journal IH]; [reflexivity |].
  cbn [forallb sumOver]. intros H. apply andb_true_iff in H as [He Hj].
  unfold balancedEntry in He. apply Z.eqb_eq in He. rewrite (IH Hj). lia.
Qed.

(** Trial balance on integers: the debit-normal balances sum to the
    credit-normal ones when every entry is balanced and names chart accounts
    only. *)
Lemma trial_balance_exact (journal : list JournalEntry)
  (l : list LedgerAccount) :
  generateLedger journal = Ok l ->
  postsToChartOnly journal = true ->
  forallb balancedEntry journal = true ->
  balanceOfCode l "101" + balanceOfCode l "102"
  + balanceOfCode l "303" + balanceOfCode l "501"
  = balanceOfCode l "201" + balanceOfCode l "301"
    + balanceOfCode l "302" + balanceOfCode l "401".
Proof.
  intros Hl Hchart Hbal.
  rewrite generateLedger_cases,
    (postsToChartOnly_plain _ Hchart) in Hl.
  injection Hl as <-.
  pose proof (trial_balance_postings (postings journal) Hchart) as Htb.
  rewrite sumOver_postings, (balanced_sum_zero _ Hbal) in Htb.
  rewrite (balanceOfCode_ledgerViews journal "101" _ eq_refl),
    (balanceOfCode_ledgerViews journal "102" _ eq_refl),
    (balanceOfCode_ledgerViews journal "303" _ eq_refl),
    (balanceOfCode_ledgerViews journal "501" _ eq_refl),
    (balanceOfCode_ledgerViews journal "201" _ eq_refl),
    (balanceOfCode_ledgerViews journal "301" _ eq_refl),
    (balanceOfCode_ledgerViews journal "302" _ eq_refl),
    (balanceOfCode_ledgerViews journal "401" _ eq_refl).
  cbn [normalBalance]. lia.
Qed.

Lemma postings_app (j1 j2 : list JournalEntry) :
  postings (j1 ++ j2) = postings j1 ++ postings j2.
Proof. unfold postings. apply flat_map_app. Qed.

Lemma plainAccountIds_app (j1 j2 : list JournalEntry) :
  plainAccountIds (j1 ++ j2) = plainAccountIds j1 && plainAccountIds j2.
Proof.
  unfold plainAccountIds. rewrite postings_app. apply forallb_app.
Qed.

(** On integers the ledger of a concatenated journal is the sum of the
    ledgers of its parts. *)
Lemma concatenated_journals_exact (j1 j2 : list JournalEntry)
  (l : list LedgerAccount) :
  generateLedger (j1 ++ j2) = Ok l ->
  exists l1 l2,
    generateLedger j1 = Ok l1
    /\ generateLedger j2 = Ok l2
    /\ forall c,
         balanceOfCode l c = balanceOfCode l1 c + balanceOfCode l2 c
         /\ historyOfCode l c = historyOfCode l1 c ++ historyOfCode l2 c.
Proof.
  rewrite !generateLedger_cases, plainAccountIds_app.
  destruct (plainAccountIds j1), (plainAccountIds j2); try discriminate.
  intros [= <-]. eexists _, _. split; [reflexivity |]. split; [reflexivity |].
  intros c.
  destruct (JsObject.getOwn CHART_OF_ACCOUNTS c) as [acc |] eqn:Hget.
  - rewrite !(balanceOfCode_ledgerViews _ _ _ Hget),
      !(historyOfCode_ledgerViews _ _ _ Hget), postings_app, filter_app,
      sumOver_app, map_app.
    split; reflexivity.
  - destruct (noAccount_ledgerViews (j1 ++ j2) c Hget) as [-> ->].
    destruct (noAccount_ledgerViews j1 c Hget) as [-> ->].
    destruct (noAccount_ledgerViews j2 c Hget) as [-> ->].
    split; reflexivity.
Qed.

(* ================================================================== *)
(** * More about the journal generator *)

Lemma journal_postings_accounts (os : list TransactionObject) :
  Forall (fun p => In (accountId (snd p)) ["401"; "101"; "102"; "501"; "201"])
    (postings (generateJournalJs os)).
Proof.
  unfold generateJournalJs.
  induction os as [| o os IH]; [constructor |].
  change (map journalEntryOf (o :: os))
    with (journalEntryOf o :: map journalEntryOf os).
  rewrite postings_cons. apply Forall_app. split; [| exact IH].
  rewrite journalEntryOf_lines. cbn [je_lines]. unfold linesForObject.
  destruct (String.eqb (o_type o) "income"), (String.eqb (o_type o) "expense"),
    (String.eqb (o_payment_status o) "paid");
    cbn [map]; repeat (apply Forall_cons || apply Forall_nil);
    cbn; auto 10.
Qed.

Lemma filter_postsTo_none (c : string) (ps : list Posting) (codes : list string) :
  Forall (fun p => In (accountId (snd p)) codes) ps ->
  ~ In c codes ->
  filter (postsTo c) ps = [].
Proof.
  intros Hps Hc. induction Hps as [| p ps Hp _ IH]; [reflexivity |].
  cbn [filter]. unfold postsTo at 1.
  destruct (String.eqb_spec c (accountId (snd p))) as [-> | _];
    [contradiction | exact IH].
Qed.

Lemma untouched_account (journal : list JournalEntry) (c : string)
  (codes : list string) :
  Forall (fun p => In (accountId (snd p)) codes) (postings journal) ->
  ~ In c codes ->
  balanceOfCode (ledgerViews journal) c = 0
  /\ historyOfCode (ledgerViews journal) c = [].
Proof.
  intros Hps Hc.
  destruct (JsObject.getOwn CHART_OF_ACCOUNTS c) as [acc |] eqn:Hget.
  - rewrite (balanceOfCode_ledgerViews _ _ _ Hget),
      (historyOfCode_ledgerViews _ _ _ Hget),
      (filter_postsTo_none _ _ _ Hps Hc).
    split; reflexivity.
  - now apply noAccount_ledgerViews.
Qed.

(** X5. Whatever objects it is given, [generateJournal] only ever posts to
    the accounts 401, 101, 102, 501 and 201, and labels each line with the
    chart name of its account.  The derived ledger therefore always returns,
    and its equity accounts 301, 302 and 303 have balance 0 and an empty
    history. *)
Theorem journal_never_posts_to_equity (os : list TransactionObject) :
  Forall (fun line =>
            In (accountId line) ["401"; "101"; "102"; "501"; "201"]
            /\ accountName line = chart_name (accountId line))
    (flat_map je_lines (generateJournalJs os))
  /\ exists l,
       generateLedger (generateJournalJs os) = Ok l
       /\ Forall (fun c => balanceOfCode l c = 0 /\ historyOfCode l c = [])
            ["301"; "302"; "303"].
Proof.
  split.
  - rewrite generateJournalJs_lines.
    induction os as [| o os IH]; [constructor |].
    cbn [map flat_map je_lines]. apply Forall_app. split; [| exact IH].
    unfold linesForObject.
    destruct (String.eqb (o_type o) "income"), (String.eqb (o_type o) "expense"),
      (String.eqb (o_payment_status o) "paid");
      repeat (apply Forall_cons || apply Forall_nil);
      cbn; auto 10.
  - exists (ledgerViews (generateJournalJs os)).
    split; [apply generateLedger_generateJournalJs |].
    pose proof (journal_postings_accounts os) as Hps.
    repeat (apply Forall_cons || apply Forall_nil);
      apply (untouched_account _ _ _ Hps); cbn; intuition discriminate.
Qed.

Lemma sumOver_nonneg {A : Type} (f : A -> Z) (xs : list A) :
  Forall (fun x => 0 <= f x) xs -> 0 <= sumOver f xs.
Proof.
  induction 1; simpl; lia.
Qed.

(** X6. When no amount is negative, the ledger balances of Accounts
    Receivable (102), Accounts Payable (201), Revenue (401) and Expense (501)
    are not negative either. *)
Theorem receivable_payable_revenue_expense_nonnegative (ts : list Transaction) :
  Forall (fun t => 0 <= tx_amount t) ts ->
  exists ar ap rev exp,
    balanceIn ACCOUNTS_RECEIVABLE ts = Some ar
    /\ balanceIn ACCOUNTS_PAYABLE ts = Some ap
    /\ balanceIn REVENUE ts = Some rev
    /\ balanceIn EXPENSE ts = Some exp
    /\ 0 <= ar /\ 0 <= ap /\ 0 <= rev /\ 0 <= exp.
Proof.
  intros Hpos.
  destruct (ledger_balances ts) as (_ & H2 & H3 & _ & H5 & H6).
  eexists _, _, _, _. repeat split; try eassumption.
  all: assert (Hnn : forall f : Transaction -> Z,
         (forall t, 0 <= tx_amount t -> 0 <= f t) -> 0 <= sumOver f ts)
    by (intros f Hf; apply sumOver_nonneg;
        eapply Forall_impl; [| exact Hpos]; exact Hf).
  all: assert (0 <= sumOver paidIncome ts /\ 0 <= sumOver unpaidIncome ts
               /\ 0 <= sumOver paidExpense ts /\ 0 <= sumOver unpaidExpense ts)
    as (? & ? & ? & ?)
    by (repeat split; apply Hnn; intros t Ht;
        unfold paidIncome, unpaidIncome, paidExpense, unpaidExpense;
        destruct (tx_type t), (tx_payment_status t); lia).
  all: lia.
Qed.

Lemma receivable_payable_revenue_expense_nonnegative_witness :
  exists ar ap rev exp,
    balanceIn ACCOUNTS_RECEIVABLE [cashSale; creditPurchase; creditSale] = Some ar
    /\ balanceIn ACCOUNTS_PAYABLE [cashSale; creditPurchase; creditSale] = Some ap
    /\ balanceIn REVENUE [cashSale; creditPurchase; creditSale] = Some rev
    /\ balanceIn EXPENSE [cashSale; creditPurchase; creditSale] = Some exp
    /\ 0 <= ar /\ 0 <= ap /\ 0 <= rev /\ 0 <= exp.
Proof.
  apply (receivable_payable_revenue_expense_nonnegative
           [cashSale; creditPurchase; creditSale]).
  repeat constructor; cbn; lia.
Defined.

(** X7. The journal entry keeps everything of a transaction but its creation
    timestamp: two transactions with the same entry have the same id, date,
    description, amount, type and payment status. *)
Theorem journal_entry_determines_transaction (t1 t2 : Transaction) :
  journalEntryOf (toObject t1) = journalEntryOf (toObject t2) ->
  tx_id t1 = tx_id t2
  /\ tx_date t1 = tx_date t2
  /\ tx_description t1 = tx_description t2
  /\ tx_amount t1 = tx_amount t2
  /\ tx_type t1 = tx_type t2
  /\ tx_payment_status t1 = tx_payment_status t2.
Proof.
  rewrite !journalEntryOf_toObject.
  destruct t1 as [i1 d1 s1 a1 [] [] c1], t2 as [i2 d2 s2 a2 [] [] c2];
    unfold ruleEntry; cbn; intros H; inversion H; subst; repeat split.
Qed.

Lemma journal_entry_determines_transaction_witness :
  tx_amount cashSale
  = tx_amount {| tx_id := "t1"; tx_date := "2025-01-02"; tx_description := "";
                 tx_amount := 100000; tx_type := income;
                 tx_payment_status := paid; tx_created_at := "later" |}.
Proof.
  exact (proj1 (proj2 (proj2 (proj2
           (journal_entry_determines_transaction cashSale
              {| tx_id := "t1"; tx_date := "2025-01-02"; tx_description := "";
                 tx_amount := 100000; tx_type := income;
                 tx_payment_status := paid; tx_created_at := "later" |}
              eq_refl))))).
Defined.

(** X8. The dashboard's unpaid figure ([stats.unpaid]) is the ledger balance
    of Accounts Receivable (102), and equals the receivables of the
    transaction-based balance sheet. *)
Theorem dashboard_unpaid_is_accounts_receivable (ts : list Transaction) :
  balanceIn ACCOUNTS_RECEIVABLE ts = Some (st_unpaid (stats (map toObject ts)))
  /\ TransactionReports.accountsReceivable
       (TransactionReports.assets
          (TransactionReports.balanceSheetData (map toObject ts)))
     = st_unpaid (stats (map toObject ts)).
Proof.
  destruct (ledger_balances ts) as (_ & H2 & _).
  rewrite transaction_balance_sheet. unfold stats. cbn [st_unpaid].
  rewrite sum_unpaid_income. split; [exact H2 | reflexivity].
Qed.

(* ================================================================== *)
(** * Optimistic updates *)

Lemma markAsPaidUpdate_toObject (id : string) (ts : list Transaction) :
  markAsPaidUpdate id (map toObject ts) = map toObject (markPaid id ts).
Proof.
  unfold markAsPaidUpdate, markPaid. rewrite !map_map. apply map_ext.
  intros t. cbn [toObject o_id].
  destruct (String.eqb (tx_id t) id); reflexivity.
Qed.

Lemma deleteUpdate_toObject (id : string) (ts : list Transaction) :
  deleteUpdate id (map toObject ts) = map toObject (deleteTransaction id ts).
Proof.
  unfold deleteUpdate, deleteTransaction.
  induction ts as [| t ts IH]; [reflexivity |].
  cbn [map filter toObject o_id].
  destruct (String.eqb (tx_id t) id); cbn [negb map]; now rewrite IH.
Qed.

(** X9. The update of [handleMarkAsPaid] keeps the list's length and order
    and every field but the payment status; it leaves objects with another id
    untouched, sets the status of every object with the given id to "paid",
    and applying it twice is the same as applying it once. *)
Theorem markAsPaidUpdate_shape (id : string) (os : list TransactionObject) :
  Forall2 (fun o o' =>
             o_id o' = o_id o
             /\ o_date o' = o_date o
             /\ o_description o' = o_description o
             /\ o_amount o' = o_amount o
             /\ o_type o' = o_type o
             /\ o_created_at o' = o_created_at o
             /\ (if String.eqb (o_id o) id
                 then o_payment_status o' = "paid"
                 else o' = o))
    os (markAsPaidUpdate id os)
  /\ markAsPaidUpdate id (markAsPaidUpdate id os) = markAsPaidUpdate id os.
Proof.
  split.
  - unfold markAsPaidUpdate. apply Forall2_map_r. intros o _.
    destruct (String.eqb (o_id o) id); repeat split.
  - unfold markAsPaidUpdate. rewrite map_map. apply map_ext. intros o.
    destruct (String.eqb (o_id o) id) eqn:Hid; cbn [o_id]; rewrite Hid;
      reflexivity.
Qed.

Lemma sums_after_markPaid (id : string) (ts : list Transaction) :
  sumOver paidIncome (markPaid id ts)
  = sumOver paidIncome ts + sumOver (whenId id unpaidIncome) ts
  /\ sumOver unpaidIncome (markPaid id ts)
     = sumOver unpaidIncome ts - sumOver (whenId id unpaidIncome) ts
  /\ sumOver paidExpense (markPaid id ts)
     = sumOver paidExpense ts + sumOver (whenId id unpaidExpense) ts
  /\ sumOver unpaidExpense (markPaid id ts)
     = sumOver unpaidExpense ts - sumOver (whenId id unpaidExpense) ts.
Proof.
  unfold markPaid. rewrite !sumOver_map, <- !sumOver_plus, <- !sumOver_minus.
  repeat split; apply sumOver_ext; intros t _; unfold whenId;
    destruct (String.eqb (tx_id t) id);
    destruct t as [i d ds a [] [] c]; cbn; lia.
Qed.

(** On integers: what marking as paid does to the ledger balances. *)
Lemma markAsPaid_ledger_exact (id : string) (ts : list Transaction) :
  exists ts' cashBal ar ap rev exp,
    markAsPaidUpdate id (map toObject ts) = map toObject ts'
    /\ balanceIn CASH ts = Some cashBal
    /\ balanceIn ACCOUNTS_RECEIVABLE ts = Some ar
    /\ balanceIn ACCOUNTS_PAYABLE ts = Some ap
    /\ balanceIn REVENUE ts = Some rev
    /\ balanceIn EXPENSE ts = Some exp
    /\ balanceIn REVENUE ts' = Some rev
    /\ balanceIn EXPENSE ts' = Some exp
    /\ balanceIn ACCOUNTS_RECEIVABLE ts'
       = Some (ar - sumOver (whenId id unpaidIncome) ts)
    /\ balanceIn ACCOUNTS_PAYABLE ts'
       = Some (ap - sumOver (whenId id unpaidExpense) ts)
    /\ balanceIn CASH ts'
       = Some (cashBal + sumOver (whenId id unpaidIncome) ts
               - sumOver (whenId id unpaidExpense) ts).
Proof.
  exists (markPaid id ts).
  destruct (ledger_balances ts) as (H1 & H2 & H3 & _ & H5 & H6).
  destruct (ledger_balances (markPaid id ts)) as (K1 & K2 & K3 & _ & K5 & K6).
  destruct (sums_after_markPaid id ts) as (S1 & S2 & S3 & S4).
  rewrite S1, S2, S3, S4 in *.
  eexists _, _, _, _, _.
  split; [apply markAsPaidUpdate_toObject |].
  repeat split; try eassumption.
  - rewrite K5. f_equal. lia.
  - rewrite K6. f_equal. lia.
  - rewrite K1. f_equal. lia.
Qed.

(** On integers: what marking as paid does to the cash-flow figures. *)
Lemma markAsPaid_cash_flow_exact (id : string) (ts : list Transaction) :
  let before := map toObject ts in
  let after := markAsPaidUpdate id (map toObject ts) in
  LedgerReports.cashIn (LedgerReports.cashFlowOf after)
  = LedgerReports.cashIn (LedgerReports.cashFlowOf before)
    + sumOver (whenId id unpaidIncome) ts
  /\ LedgerReports.cashOut (LedgerReports.cashFlowOf after)
     = LedgerReports.cashOut (LedgerReports.cashFlowOf before)
       + sumOver (whenId id unpaidExpense) ts
  /\ st_unpaid (stats after)
     = st_unpaid (stats before) - sumOver (whenId id unpaidIncome) ts.
Proof.
  cbv zeta. rewrite markAsPaidUpdate_toObject.
  unfold LedgerReports.cashFlowOf, stats.
  cbn [LedgerReports.cashIn LedgerReports.cashOut st_unpaid].
  rewrite !sum_paid_income, !sum_paid_expense, !sum_unpaid_income.
  destruct (sums_after_markPaid id ts) as (S1 & S2 & S3 & S4).
  rewrite S1, S2, S3. repeat split.
Qed.

Lemma journal_of_deleteUpdate (id : string) (os : list TransactionObject) :
  generateJournalJs (deleteUpdate id os)
  = filter (fun e => negb (String.eqb (je_id e) id)) (generateJournalJs os).
Proof.
  unfold generateJournalJs, deleteUpdate.
  induction os as [| o os IH]; [reflexivity |].
  cbn [filter map].
  change (je_id (journalEntryOf o)) with (o_id o).
  destruct (String.eqb (o_id o) id); cbn [negb map]; now rewrite IH.
Qed.

(** X12. Deleting by id commutes with journal generation: the journal of the
    list [handleDeleteTransaction] leaves is the old journal without the
    entries carrying that id, so no entry with that id remains; when no
    object has the id the list is unchanged, and otherwise it gets shorter. *)
Theorem deleteUpdate_journal (id : string) (os : list TransactionObject) :
  generateJournalJs (deleteUpdate id os)
  = filter (fun e => negb (String.eqb (je_id e) id)) (generateJournalJs os)
  /\ Forall (fun e => je_id e <> id) (generateJournalJs (deleteUpdate id os))
  /\ (if existsb (fun o => String.eqb (o_id o) id) os
      then (List.length (deleteUpdate id os) < List.length os)%nat
      else deleteUpdate id os = os).
Proof.
  split; [apply journal_of_deleteUpdate |]. split.
  - rewrite journal_of_deleteUpdate. apply Forall_forall. intros e He.
    apply filter_In in He as [_ He]. apply negb_true_iff in He.
    now apply String.eqb_neq.
  - unfold deleteUpdate. induction os as [| o os IH]; [reflexivity |].
    cbn [existsb filter].
    destruct (String.eqb (o_id o) id); cbn [negb orb].
    + pose proof (filter_length_le
                    (fun t => negb (String.eqb (o_id t) id)) os) as Hle.
      cbn [List.length]. lia.
    + destruct (existsb (fun o0 => String.eqb (o_id o0) id) os).
      * cbn [List.length]. lia.
      * now rewrite IH.
Qed.

Lemma sumOver_deleteTransaction (id : string) (f : Transaction -> Z)
  (ts : list Transaction) :
  sumOver f (deleteTransaction id ts)
  = sumOver f ts - sumOver (whenId id f) ts.
Proof.
  unfold deleteTransaction. rewrite sumOver_filter, <- sumOver_minus.
  apply sumOver_ext. intros t _. unfold whenId.
  destruct (String.eqb (tx_id t) id); cbn [negb]; lia.
Qed.

(** On integers: what deleting by id does to the ledger balances. *)
Lemma deleteUpdate_ledger_exact (id : string) (ts : list Transaction)
  (c : string) :
  exists ts',
    deleteUpdate id (map toObject ts) = map toObject ts'
    /\ balanceIn c ts'
       = match JsObject.getOwn CHART_OF_ACCOUNTS c with
         | Some acc =>
             option_map
               (fun b => b - sumOver (whenId id (contribution (normalBalance acc) c)) ts)
               (balanceIn c ts)
         | None => None
         end.
Proof.
  exists (deleteTransaction id ts). split; [apply deleteUpdate_toObject |].
  rewrite !balanceIn_closed.
  destruct (JsObject.getOwn CHART_OF_ACCOUNTS c) as [acc |]; [| reflexivity].
  cbn [option_map]. now rewrite sumOver_deleteTransaction.
Qed.

(* ================================================================== *)
(** * Capital change and sales *)

Lemma capital_and_sales_ok (ts : list Transaction) :
  CapitalAndSales.capitalChangeData (map toObject ts)
  = Ok (CapitalAndSales.capitalChangeOf
          (ledgerAfter (postings (generateJournal ts))))
  /\ CapitalAndSales.salesData (map toObject ts)
     = Ok (CapitalAndSales.salesOf
             (ledgerAfter (postings (generateJournal ts)))).
Proof.
  unfold CapitalAndSales.capitalChangeData, CapitalAndSales.salesData.
  change (generateJournalJs (map toObject ts)) with (generateJournal ts).
  rewrite generateLedger_generateJournal. cbn [bind].
  rewrite ledgerMapOf_ledgerViews. split; reflexivity.
Qed.

Lemma revenue_expense_read (ts : list Transaction) :
  LedgerReports.balanceOr0 (ledgerAfter (postings (generateJournal ts))) "401"
  = sumOver paidIncome ts + sumOver unpaidIncome ts
  /\ LedgerReports.balanceOr0 (ledgerAfter (postings (generateJournal ts))) "501"
     = sumOver paidExpense ts + sumOver unpaidExpense ts.
Proof.
  destruct (ledger_balances ts) as (_ & _ & _ & _ & H5 & H6).
  unfold REVENUE, EXPENSE in *.
  rewrite (balanceOr0_balanceIn ts _ _ H5), (balanceOr0_balanceIn ts _ _ H6).
  split; reflexivity.
Qed.

(** X14. The capital-change report is produced for every transaction list;
    its beginning capital and drawings are 0, its net income is the income of
    all transactions minus the expense of all transactions whatever their
    payment status, and its ending capital equals that net income and the
    total equity of the ledger-based balance sheet. *)
Theorem capital_change_matches_equity (ts : list Transaction) :
  exists cc r,
    CapitalAndSales.capitalChangeData (map toObject ts) = Ok cc
    /\ LedgerReports.reports (map toObject ts) = Ok r
    /\ CapitalAndSales.beginningCapital cc = 0
    /\ CapitalAndSales.drawings cc = 0
    /\ CapitalAndSales.netIncome cc
       = sumOver tx_amount
           (filter (fun t => match tx_type t with income => true | expense => false end) ts)
         - sumOver tx_amount
             (filter (fun t => match tx_type t with expense => true | income => false end) ts)
    /\ CapitalAndSales.endingCapital cc = CapitalAndSales.netIncome cc
    /\ CapitalAndSales.endingCapital cc
       = LedgerReports.equity_total
           (LedgerReports.equity (LedgerReports.balanceSheetData r)).
Proof.
  destruct (capital_and_sales_ok ts) as [Hcc _].
  eexists _, _. split; [exact Hcc |]. split; [apply reports_ok |].
  cbn [LedgerReports.balanceSheetData]. rewrite ledger_balance_sheet.
  unfold CapitalAndSales.capitalChangeOf.
  destruct (revenue_expense_read ts) as [-> ->].
  cbn [CapitalAndSales.beginningCapital CapitalAndSales.drawings
       CapitalAndSales.netIncome CapitalAndSales.endingCapital
       LedgerReports.equity LedgerReports.equity_total].
  repeat split; try lia.
  rewrite !sumOver_filter, <- !sumOver_plus.
  f_equal; apply sumOver_ext; intros t _;
    unfold paidIncome, unpaidIncome, paidExpense, unpaidExpense;
    destruct (tx_type t), (tx_payment_status t); lia.
Qed.

(** On integers: total sales is the income of all transactions, the
    cash-in plus the unpaid figure. *)
Lemma total_sales_exact (ts : list Transaction) :
  exists s,
    CapitalAndSales.salesData (map toObject ts) = Ok s
    /\ CapitalAndSales.totalSales s
       = sumOver tx_amount
           (filter (fun t => match tx_type t with income => true | expense => false end) ts)
    /\ CapitalAndSales.totalSales s
       = LedgerReports.cashIn (LedgerReports.cashFlowOf (map toObject ts))
         + st_unpaid (stats (map toObject ts)).
Proof.
  destruct (capital_and_sales_ok ts) as [_ Hs].
  eexists. split; [exact Hs |].
  unfold CapitalAndSales.salesOf. cbn [CapitalAndSales.totalSales].
  destruct (revenue_expense_read ts) as [-> _].
  unfold LedgerReports.cashFlowOf, stats. cbn [LedgerReports.cashIn st_unpaid].
  rewrite sum_paid_income, sum_unpaid_income. split; [| reflexivity].
  rewrite sumOver_filter, <- sumOver_plus.
  apply sumOver_ext; intros t _; unfold paidIncome, unpaidIncome;
    destruct (tx_type t), (tx_payment_status t); lia.
Qed.

(* ================================================================== *)
(** * Infinite scroll *)

Lemma firstn_more {A : Type} (p k : nat) (items : list A) :
  firstn (p + k) items = firstn p items ++ firstn k (skipn p items).
Proof.
  revert items. induction p as [| p IH]; intros items; [reflexivity |].
  destruct items as [| x items]; [now rewrite !firstn_nil |].
  cbn [Nat.add firstn skipn app]. now rewrite IH.
Qed.

Lemma firstn_min_length {A : Type} (n : nat) (items : list A) :
  firstn (Nat.min n (List.length items)) items = firstn n items.
Proof.
  destruct (Nat.le_ge_cases n (List.length items)) as [H | H].
  - now rewrite Nat.min_l.
  - rewrite Nat.min_r by exact H.
    now rewrite firstn_all, firstn_all2.
Qed.

(** X16. One step of the infinite scroll shows what was shown before,
    followed by the next [perPage] items of the list in their order, and never
    more than the list holds; nothing already on display disappears. *)
Theorem scroll_step_appends_next_page {A : Type} (perPage prev : nat)
  (items : list A) :
  Paging.displayed (Paging.nextCount perPage (List.length items) prev) items
  = Paging.displayed prev items ++ firstn perPage (skipn prev items)
  /\ (Paging.nextCount perPage (List.length items) prev <= List.length items)%nat.
Proof.
  unfold Paging.displayed, Paging.nextCount. split.
  - rewrite firstn_min_length. apply firstn_more.
  - apply Nat.le_min_r.
Qed.

Lemma loadMoreTimes_closed (n perPage total c : nat) :
  Paging.loadMoreTimes n perPage total c
  = if Nat.ltb c total then Nat.min (c + n * perPage) total else c.
Proof.
  revert c. induction n as [| n IH]; intros c.
  - cbn [Paging.loadMoreTimes]. destruct (Nat.ltb_spec c total); lia.
  - cbn [Paging.loadMoreTimes]. rewrite IH.
    unfold Paging.loadMore, Paging.hasMore, Paging.nextCount.
    destruct (Nat.ltb_spec c total) as [Hlt | Hge]; cbn [negb].
    + destruct (Nat.ltb_spec (Nat.min (c + perPage) total) total); lia.
    + destruct (Nat.ltb_spec c total); lia.
Qed.

(** X17. Repeated [loadMore] reaches the end and stops there: with a page
    size above 0, after as many calls as the list has items nothing more is
    pending and the whole list is on display, from any starting count; from
    then on [loadMore] changes nothing. *)
Theorem scroll_reaches_the_end {A : Type} (perPage start : nat) (items : list A) :
  (0 < perPage)%nat ->
  let total := List.length items in
  let final := Paging.loadMoreTimes total perPage total start in
  Paging.hasMore final total = false
  /\ Paging.displayed final items = items
  /\ Paging.loadMore perPage total final = final.
Proof.
  intros Hpos. cbv zeta. rewrite loadMoreTimes_closed.
  unfold Paging.hasMore, Paging.displayed, Paging.loadMore, Paging.hasMore.
  assert (Hbig : (List.length items <= List.length items * perPage)%nat) by nia.
  destruct (Nat.ltb_spec start (List.length items)) as [Hlt | Hge].
  - rewrite Nat.min_r by lia. rewrite Nat.ltb_irrefl.
    repeat split. apply firstn_all.
  - destruct (Nat.ltb_spec start (List.length items)); [lia |].
    repeat split. now apply firstn_all2.
Qed.

Lemma scroll_reaches_the_end_witness :
  let items := [zeroSale; cashSale; creditPurchase; creditSale;
                cashSale; creditPurchase; creditSale] in
  let start := Paging.ITEMS_PER_PAGE_DASHBOARD in
  let final := Paging.loadMoreTimes 7 Paging.ITEMS_PER_PAGE_DASHBOARD 7 start in
  (0 < Paging.ITEMS_PER_PAGE_DASHBOARD)%nat
  /\ Paging.hasMore start 7 = true
  /\ Paging.displayed start items <> items
  /\ Paging.loadMore Paging.ITEMS_PER_PAGE_DASHBOARD 7 start = 7%nat
  /\ Paging.hasMore final 7 = false
  /\ Paging.displayed final items = items
  /\ Paging.loadMore Paging.ITEMS_PER_PAGE_DASHBOARD 7 final = final.
Proof.
  cbv zeta.
  assert (Hpos : (0 < Paging.ITEMS_PER_PAGE_DASHBOARD)%nat)
    by (unfold Paging.ITEMS_PER_PAGE_DASHBOARD; lia).
  split; [exact Hpos |]. split; [reflexivity |].
  split; [discriminate |]. split; [reflexivity |].
  exact (scroll_reaches_the_end Paging.ITEMS_PER_PAGE_DASHBOARD
           Paging.ITEMS_PER_PAGE_DASHBOARD
           [zeroSale; cashSale; creditPurchase; creditSale;
            cashSale; creditPurchase; creditSale] Hpos).
Defined.

(* ================================================================== *)
(** * LedgerPage *)

(** X18. For every transaction list the ledger page has an account to show:
    the derived ledger is returned, the first account, chosen while no code is
    set, is Kas & Bank (101), and looking up any code finds the account with
    exactly that code when the chart has it and nothing otherwise. *)
Theorem ledger_page_active_account (ts : list Transaction) (c : string) :
  exists l,
    deriveLedger ts = Ok l
    /\ chooseInitialAccount l "" = "101"
    /\ match JsObject.getOwn CHART_OF_ACCOUNTS c with
       | Some acc =>
           exists a,
             activeAccount l c = Some a
             /\ la_code a = c
             /\ la_name a = name acc
             /\ la_balance a = sumOver (contribution (normalBalance acc) c) ts
             /\ la_entries a = flat_map (historyOf c) ts
       | None => activeAccount l c = None
       end.
Proof.
  exists (ledgerViews (generateJournal ts)).
  split; [apply generateLedger_generateJournal |].
  split; [reflexivity |].
  rewrite activeAccount_ledgerViews.
  destruct (JsObject.getOwn CHART_OF_ACCOUNTS c) as [acc |] eqn:Hget;
    [| reflexivity].
  cbn [option_map]. eexists. split; [reflexivity |].
  rewrite accountView_generateJournal.
  cbn [la_code la_name la_balance la_entries].
  rewrite (chart_getOwn_code _ _ Hget). repeat split.
Qed.

(* ================================================================== *)
(** * Monthly profit and loss *)

Lemma monthInRange_cases (m : Z) :
  monthInRange m = true -> In m monthIndices.
Proof.
  unfold monthInRange, monthIndices. intros H.
  apply andb_true_iff in H as [H0 H12].
  apply Z.leb_le in H0. apply Z.ltb_lt in H12. cbn [In]. lia.
Qed.

Ltac month_cases H :=
  apply monthInRange_cases in H; unfold monthIndices in H; cbn [In] in H;
  repeat (destruct H as [<- | H]; [| ]); [.. | destruct H].

Lemma sumOver_rev {A : Type} (f : A -> Z) (xs : list A) :
  sumOver f (rev xs) = sumOver f xs.
Proof.
  apply sumOver_perm. apply Permutation_sym, Permutation_rev.
Qed.

Lemma sumOver_swap {A B : Type} (h : A -> B -> Z) (xs : list A) (ys : list B) :
  sumOver (fun x => sumOver (fun y => h x y) ys) xs
  = sumOver (fun y => sumOver (fun x => h x y) xs) ys.
Proof.
  induction ys as [| y ys IH]; cbn [sumOver].
  - apply sumOver_zero.
  - rewrite sumOver_plus, IH. reflexivity.
Qed.

(** The twelve loop indices visit each month of the year once. *)
Lemma rotate_sum (g : Z -> Z) (m : Z) :
  monthInRange m = true ->
  sumOver (fun i => g (Z.rem (m - i + 12) 12)) [11; 10; 9; 8; 7; 6; 5; 4; 3; 2; 1; 0]
  = sumOver g monthIndices.
Proof.
  intros H. month_cases H; cbn; lia.
Qed.

(** A transaction with a month index in range falls in exactly one month of
    the current year, or in none when it is dated in another year or has no
    valid date. *)
Lemma inMonth_partition (env : DateEnv) (t : TransactionObject) (x : Z) :
  match localYearMonth env (o_date t) with
  | Some (_, m) => monthInRange m
  | None => true
  end = true ->
  sumOver (fun k => if inMonth env k t then x else 0) monthIndices
  = if inCurrentYear env t then x else 0.
Proof.
  unfold inMonth, inCurrentYear.
  destruct (localYearMonth env (o_date t)) as [[y m] |]; [| cbn; lia].
  intros H. month_cases H; cbn; destruct (y =? nowYear env); cbn; lia.
Qed.

Lemma monthly_sum (env : DateEnv) (ty : string) (os : list TransactionObject)
  (k : Z) :
  reduce_sum amountOf (filter (isType ty) (filter (inMonth env k) os))
  = sumOver (fun t => if inMonth env k t
                      then (if isType ty t then amountOf t else 0) else 0) os.
Proof.
  rewrite reduce_sum_sumOver, !sumOver_filter. reflexivity.
Qed.

Lemma year_sum (env : DateEnv) (ty : string) (os : list TransactionObject) :
  datesInRange env os = true ->
  sumOver (fun k =>
             reduce_sum amountOf (filter (isType ty) (filter (inMonth env k) os)))
    monthIndices
  = sumOver (amountWhen (fun t => isType ty t && inCurrentYear env t)) os.
Proof.
  intros Hdates.
  rewrite (sumOver_ext _ _ _ (fun k _ => monthly_sum env ty os k)).
  rewrite (sumOver_swap
             (fun k t => if inMonth env k t
                         then (if isType ty t then amountOf t else 0) else 0)).
  apply sumOver_ext. intros t Ht.
  rewrite inMonth_partition.
  - unfold amountWhen. destruct (isType ty t), (inCurrentYear env t); reflexivity.
  - unfold datesInRange in Hdates.
    exact (proj1 (forallb_forall _ _) Hdates t Ht).
Qed.

Lemma profitLossData_rows (env : DateEnv) (os : list TransactionObject) :
  ProfitLoss.profitLossData env os
  = map (ProfitLoss.monthReport env os) monthIndices.
Proof.
  unfold ProfitLoss.profitLossData. rewrite <- map_rev. reflexivity.
Qed.

(** On integers: the rows of the monthly profit-and-loss table and the
    three cells of its footer. *)
Lemma profit_loss_totals_exact (env : DateEnv) (os : list TransactionObject) :
  monthInRange (nowMonth env) = true ->
  datesInRange env os = true ->
  let rows := ProfitLoss.profitLossData env os in
  map ProfitLoss.month rows
  = map (fun k => nth_error months (Z.to_nat ((nowMonth env - k) mod 12)))
      monthIndices
  /\ ProfitLoss.totalIncome rows
     = sumOver (amountWhen (fun t => isType "income" t && inCurrentYear env t)) os
  /\ ProfitLoss.totalExpense rows
     = sumOver (amountWhen (fun t => isType "expense" t && inCurrentYear env t)) os
  /\ ProfitLoss.totalProfit rows
     = ProfitLoss.totalIncome rows - ProfitLoss.totalExpense rows.
Proof.
  intros Hnow Hdates. cbv zeta.
  assert (Hinc : ProfitLoss.totalIncome (ProfitLoss.profitLossData env os)
                 = sumOver (amountWhen
                              (fun t => isType "income" t && inCurrentYear env t)) os).
  { unfold ProfitLoss.totalIncome, ProfitLoss.profitLossData.
    rewrite reduce_sum_sumOver, sumOver_rev, sumOver_map.
    cbn [ProfitLoss.monthReport ProfitLoss.r_income].
    rewrite (rotate_sum
               (fun k => reduce_sum amountOf
                           (filter (isType "income") (filter (inMonth env k) os)))
               _ Hnow).
    now apply year_sum. }
  assert (Hexp : ProfitLoss.totalExpense (ProfitLoss.profitLossData env os)
                 = sumOver (amountWhen
                              (fun t => isType "expense" t && inCurrentYear env t)) os).
  { unfold ProfitLoss.totalExpense, ProfitLoss.profitLossData.
    rewrite reduce_sum_sumOver, sumOver_rev, sumOver_map.
    cbn [ProfitLoss.monthReport ProfitLoss.r_expense].
    rewrite (rotate_sum
               (fun k => reduce_sum amountOf
                           (filter (isType "expense") (filter (inMonth env k) os)))
               _ Hnow).
    now apply year_sum. }
  split; [| split; [exact Hinc | split; [exact Hexp |]]].
  - rewrite profitLossData_rows, map_map.
    cbn [ProfitLoss.monthReport ProfitLoss.month].
    unfold monthIndices. cbn [map].
    month_cases Hnow; reflexivity.
  - unfold ProfitLoss.totalProfit, ProfitLoss.totalIncome,
      ProfitLoss.totalExpense.
    rewrite !reduce_sum_sumOver, <- sumOver_minus.
    apply sumOver_ext. intros r Hr.
    unfold ProfitLoss.profitLossData in Hr.
    apply in_rev, in_map_iff in Hr as (i & <- & _). reflexivity.
Qed.

(* ================================================================== *)
(** * Dashboard: monthly chart and current month *)

Lemma atIndex_months_map {B : Type} (f : Z -> B) (m : Z) :
  monthInRange m = true ->
  atIndex (map f monthIndices) m = Some (f m).
Proof.
  intros H. month_cases H; reflexivity.
Qed.

Lemma replaceAt_months_map {B : Type} (f : Z -> B) (x : B) (m : Z) :
  monthInRange m = true ->
  Dashboard.replaceAt (Z.to_nat m) x (map f monthIndices)
  = map (fun k => if k =? m then x else f k) monthIndices.
Proof.
  intros H. month_cases H; reflexivity.
Qed.

Lemma statsAfter_skip (env : DateEnv) (seen : list TransactionObject)
  (t : TransactionObject) :
  (forall k, isStatus "paid" t && inMonth env k t = false) ->
  statsAfter env (seen ++ [t]) = statsAfter env seen.
Proof.
  intros Hskip. unfold statsAfter. apply map_ext. intros k.
  rewrite !sumOver_app. cbn [sumOver].
  unfold amountWhen, countsAsIncome, countsAsExpense. rewrite (Hskip k).
  cbn [andb]. f_equal; lia.
Qed.

Lemma addTransaction_statsAfter (env : DateEnv) (seen : list TransactionObject)
  (t : TransactionObject) :
  match localYearMonth env (o_date t) with
  | Some (_, m) => monthInRange m
  | None => true
  end = true ->
  Dashboard.addTransaction env (statsAfter env seen) t
  = Ok (statsAfter env (seen ++ [t])).
Proof.
  unfold Dashboard.addTransaction.
  destruct (localYearMonth env (o_date t)) as [[y m] |] eqn:Hdate.
  - intros Hm.
    destruct ((y =? nowYear env) && isStatus "paid" t) eqn:Hcount.
    + apply andb_true_iff in Hcount as [Hy Hpaid].
      unfold statsAfter at 1 2.
      rewrite atIndex_months_map, replaceAt_months_map by exact Hm.
      f_equal. unfold statsAfter. apply map_ext. intros k.
      rewrite !sumOver_app. cbn [sumOver].
      unfold amountWhen, countsAsIncome, countsAsExpense, inMonth.
      rewrite Hdate, Hpaid, Hy. cbn [andb].
      rewrite (Z.eqb_sym m k).
      cbn [Dashboard.ms_income Dashboard.ms_expense].
      destruct (k =? m) eqn:Hk.
      * apply Z.eqb_eq in Hk. subst k.
        unfold amountOf. destruct (isType "income" t); cbn [negb andb];
          f_equal; lia.
      * cbn [andb]. f_equal; lia.
    + rewrite statsAfter_skip; [reflexivity |].
      intros k. unfold inMonth. rewrite Hdate.
      apply andb_false_iff in Hcount as [Hy | Hpaid].
      * rewrite Hy. now rewrite andb_false_r, andb_false_r.
      * now rewrite Hpaid.
  - intros _. rewrite statsAfter_skip; [reflexivity |].
    intros k. unfold inMonth. rewrite Hdate. apply andb_false_r.
Qed.

Lemma forEach_addTransaction (env : DateEnv) (os seen : list TransactionObject) :
  datesInRange env os = true ->
  forEach (Dashboard.addTransaction env) os (statsAfter env seen)
  = Ok (statsAfter env (seen ++ os)).
Proof.
  revert seen. induction os as [| t os IH]; intros seen Hdates.
  - cbn [forEach]. now rewrite app_nil_r.
  - unfold datesInRange in Hdates. cbn [forallb] in Hdates.
    apply andb_true_iff in Hdates as [Ht Hos].
    cbn [forEach]. rewrite (addTransaction_statsAfter env seen t Ht).
    cbn [bind]. rewrite (IH (seen ++ [t]) Hos), <- app_assoc. reflexivity.
Qed.

Lemma monthlyData_ok (env : DateEnv) (os : list TransactionObject) :
  datesInRange env os = true ->
  Dashboard.monthlyData env os
  = Ok (map (fun nk =>
               {| Dashboard.name := fst nk;
                  Dashboard.Pemasukan :=
                    sumOver (amountWhen (countsAsIncome env (snd nk))) os;
                  Dashboard.Pengeluaran :=
                    sumOver (amountWhen (countsAsExpense env (snd nk))) os;
                  Dashboard.Profit :=
                    sumOver (amountWhen (countsAsIncome env (snd nk))) os
                    - sumOver (amountWhen (countsAsExpense env (snd nk))) os |})
          (combine months monthIndices)).
Proof.
  intros Hdates. unfold Dashboard.monthlyData.
  change Dashboard.initialStats with (statsAfter env []).
  rewrite (forEach_addTransaction env os [] Hdates). cbn [bind app].
  reflexivity.
Qed.

(** X20. When every date's month index is in 0 .. 11 the dashboard's monthly
    chart is produced without error and has one row per month from Jan to
    Des: the row of a month counts the paid transactions dated in that month
    of the current year, those of type "income" as income and all others as
    expense, and its profit is the difference.  Unpaid transactions,
    transactions of other years and transactions without a valid date appear
    in no row. *)
Theorem monthly_chart_rows (env : DateEnv) (os : list TransactionObject) :
  datesInRange env os = true ->
  exists rows,
    Dashboard.monthlyData env os = Ok rows
    /\ map Dashboard.name rows = months
    /\ Forall2 (fun k row =>
                  Dashboard.Pemasukan row
                  = sumOver (amountWhen (countsAsIncome env k)) os
                  /\ Dashboard.Pengeluaran row
                     = sumOver (amountWhen (countsAsExpense env k)) os
                  /\ Dashboard.Profit row
                     = Dashboard.Pemasukan row - Dashboard.Pengeluaran row)
         monthIndices rows.
Proof.
  intros Hdates. eexists. split; [now apply monthlyData_ok |].
  split; [reflexivity |].
  unfold months, monthIndices. cbn [combine map fst snd].
  repeat (apply Forall2_cons || apply Forall2_nil); repeat split.
Qed.

Lemma monthly_chart_rows_witness :
  exists rows,
    Dashboard.monthlyData januaryEnv
      (map toObject [cashSale; creditPurchase; creditSale]) = Ok rows
    /\ map Dashboard.name rows = months
    /\ Forall2 (fun k row =>
                  Dashboard.Pemasukan row
                  = sumOver (amountWhen (countsAsIncome januaryEnv k))
                      (map toObject [cashSale; creditPurchase; creditSale])
                  /\ Dashboard.Pengeluaran row
                     = sumOver (amountWhen (countsAsExpense januaryEnv k))
                         (map toObject [cashSale; creditPurchase; creditSale])
                  /\ Dashboard.Profit row
                     = Dashboard.Pemasukan row - Dashboard.Pengeluaran row)
         monthIndices rows.
Proof.
  exact (monthly_chart_rows januaryEnv
           (map toObject [cashSale; creditPurchase; creditSale]) eq_refl).
Defined.

Lemma atIndex_chart {B : Type} (F : string * Z -> B) (m : Z) :
  monthInRange m = true ->
  exists n, atIndex (map F (combine months monthIndices)) m = Some (F (n, m)).
Proof.
  intros H. month_cases H; eexists; reflexivity.
Qed.

Lemma currentMonth_sums (env : DateEnv) (ts : list Transaction) :
  Dashboard.income_total (Dashboard.currentMonthStats env (map toObject ts))
  = sumOver (amountWhen (countsAsIncome env (nowMonth env))) (map toObject ts)
  /\ Dashboard.expenses_total (Dashboard.currentMonthStats env (map toObject ts))
     = sumOver (amountWhen (countsAsExpense env (nowMonth env))) (map toObject ts).
Proof.
  unfold Dashboard.currentMonthStats.
  cbn [Dashboard.income_total Dashboard.expenses_total].
  rewrite !reduce_sum_sumOver, !sumOver_filter, !sumOver_map.
  split; apply sumOver_ext; intros t _;
    unfold amountWhen, countsAsIncome, countsAsExpense, inMonth;
    cbn [toObject o_date];
    destruct (localYearMonth env (tx_date t)) as [[y m] |];
    destruct t as [i d ds a [] [] c]; cbn;
    try destruct (m =? nowMonth env); try destruct (y =? nowYear env);
    reflexivity.
Qed.

(** X21. The dashboard's current-month card agrees with the monthly chart:
    for transactions of the declared type, with month indices in 0 .. 11, the
    chart's row at the index of the current month carries the card's income,
    expenses and profit. *)
Theorem current_month_card_matches_chart (env : DateEnv) (ts : list Transaction) :
  monthInRange (nowMonth env) = true ->
  datesInRange env (map toObject ts) = true ->
  exists rows row,
    Dashboard.monthlyData env (map toObject ts) = Ok rows
    /\ atIndex rows (nowMonth env) = Some row
    /\ Dashboard.Pemasukan row
       = Dashboard.income_total (Dashboard.currentMonthStats env (map toObject ts))
    /\ Dashboard.Pengeluaran row
       = Dashboard.expenses_total (Dashboard.currentMonthStats env (map toObject ts))
    /\ Dashboard.Profit row
       = Dashboard.profit_total (Dashboard.currentMonthStats env (map toObject ts)).
Proof.
  intros Hnow Hdates.
  destruct (currentMonth_sums env ts) as [Hinc Hexp].
  destruct (atIndex_chart
              (fun nk =>
                 {| Dashboard.name := fst nk;
                    Dashboard.Pemasukan :=
                      sumOver (amountWhen (countsAsIncome env (snd nk)))
                        (map toObject ts);
                    Dashboard.Pengeluaran :=
                      sumOver (amountWhen (countsAsExpense env (snd nk)))
                        (map toObject ts);
                    Dashboard.Profit :=
                      sumOver (amountWhen (countsAsIncome env (snd nk)))
                        (map toObject ts)
                      - sumOver (amountWhen (countsAsExpense env (snd nk)))
                          (map toObject ts) |})
              (nowMonth env) Hnow) as [n Hrow].
  eexists _, _. split; [now apply monthlyData_ok |].
  split; [exact Hrow |].
  cbn [Dashboard.Pemasukan Dashboard.Pengeluaran Dashboard.Profit snd].
  assert (Hprofit :
    Dashboard.profit_total (Dashboard.currentMonthStats env (map toObject ts))
    = Dashboard.income_total (Dashboard.currentMonthStats env (map toObject ts))
      - Dashboard.expenses_total (Dashboard.currentMonthStats env (map toObject ts)))
    by reflexivity.
  rewrite Hprofit, Hinc, Hexp. repeat split.
Qed.

Lemma current_month_card_matches_chart_witness :
  exists rows row,
    Dashboard.monthlyData januaryEnv
      (map toObject [cashSale; creditPurchase; creditSale]) = Ok rows
    /\ atIndex rows (nowMonth januaryEnv) = Some row
    /\ Dashboard.Pemasukan row
       = Dashboard.income_total
           (Dashboard.currentMonthStats januaryEnv
              (map toObject [cashSale; creditPurchase; creditSale]))
    /\ Dashboard.Pengeluaran row
       = Dashboard.expenses_total
           (Dashboard.currentMonthStats januaryEnv
              (map toObject [cashSale; creditPurchase; creditSale]))
    /\ Dashboard.Profit row
       = Dashboard.profit_total
           (Dashboard.currentMonthStats januaryEnv
              (map toObject [cashSale; creditPurchase; creditSale])).
Proof.
  exact (current_month_card_matches_chart januaryEnv
           [cashSale; creditPurchase; creditSale] eq_refl eq_refl).
Defined.

(** The chart throws on a month index that is no key of [monthlyStats]. *)
Example monthly_chart_needs_month_in_range :
  Dashboard.monthlyData
    {| localYearMonth := fun _ => Some (2025, 12); nowYear := 2025; nowMonth := 0 |}
    (map toObject [cashSale])
  = Throw TypeError.
Proof. reflexivity. Qed.

(* ================================================================== *)
(** * Whole amounts on binary64 numbers

    The rest of the development is about the program as it runs, on
    IEEE-754 binary64 numbers.  It first shows that [+] and [-] are exact on
    safe integers, then that on whole amounts within that range the program
    on binary64 numbers computes what the program on integers computes. *)

(** ** Addition and subtraction are exact on safe integers *)

Lemma iter_xO_Z (p n : positive) : Zpos (Pos.iter xO p n) = Zpos p * 2 ^ Zpos n.
Proof.
  rewrite <- Z.shiftl_mul_pow2 by lia. unfold Z.shiftl.
  apply (Pos.iter_swap_gen _ _ Zpos xO (Z.mul 2)). reflexivity.
Qed.

Lemma shl_Z (p : positive) (k : Z) : 0 <= k -> Zpos (shl p k) = Zpos p * 2 ^ k.
Proof.
  intros Hk. destruct k as [| n | n]; cbn [shl]; [lia | apply iter_xO_Z | lia].
Qed.

Lemma iter_succ_add (a n : positive) : Pos.iter Pos.succ a n = (a + n)%positive.
Proof.
  induction n as [| n IH] using Pos.peano_ind.
  - cbn. lia.
  - rewrite Pos.iter_succ, IH. lia.
Qed.

Lemma digits_iter_xO (p n : positive) :
  digits2_pos (Pos.iter xO p n) = (digits2_pos p + n)%positive.
Proof.
  rewrite (Pos.iter_swap_gen _ _ digits2_pos xO Pos.succ) by reflexivity.
  apply iter_succ_add.
Qed.

Lemma digits_shl (p : positive) (k : Z) : 0 <= k -> digits (shl p k) = digits p + k.
Proof.
  intros Hk. unfold digits.
  destruct k as [| n | n]; cbn [shl]; [lia | rewrite digits_iter_xO; lia | lia].
Qed.

Lemma digits_size (p : positive) : digits2_pos p = Pos.size p.
Proof. induction p; cbn; congruence. Qed.

Lemma digits_bound (p : positive) : Zpos p < 2 ^ 53 -> digits p <= 53.
Proof.
  intros Hp. unfold digits. rewrite digits_size.
  pose proof (Pos.size_le p) as Hle.
  destruct (Z.le_gt_cases (Zpos (Pos.size p)) 53) as [H | H]; [exact H | exfalso].
  assert (Hpow : 2 ^ 54 <= 2 ^ Zpos (Pos.size p)) by (apply Z.pow_le_mono_r; lia).
  assert (Hz : 2 ^ Zpos (Pos.size p) <= Zpos p~0).
  { change (2 ^ Zpos (Pos.size p)) with (Zpos 2 ^ Zpos (Pos.size p)).
    rewrite <- Pos2Z.inj_pow. apply Pos2Z.pos_le_pos. exact Hle. }
  change (2 ^ 54) with (2 * 2 ^ 53) in Hpow. lia.
Qed.

Lemma digits_pos (p : positive) : 1 <= digits p.
Proof. unfold digits. lia. Qed.

Lemma shl_shl (p : positive) (a b : Z) : 0 <= a -> 0 <= b -> shl (shl p a) b = shl p (a + b).
Proof.
  intros Ha Hb. apply Pos2Z.inj. rewrite !shl_Z by lia.
  rewrite Z.pow_add_r by lia. lia.
Qed.

Lemma iter_pos_iter {A : Type} (f : A -> A) (n : positive) (x : A) :
  iter_pos f n x = Pos.iter f x n.
Proof.
  revert x. induction n as [n IH | n IH |]; intros x; cbn.
  - rewrite !IH. now rewrite !Pos.iter_swap.
  - now rewrite !IH.
  - reflexivity.
Qed.

Lemma shr_exact (q n : positive) :
  iter_pos shr_1 n (Build_shr_record (Zpos (Pos.iter xO q n)) false false)
  = Build_shr_record (Zpos q) false false.
Proof.
  rewrite iter_pos_iter. revert q.
  induction n as [| n IH] using Pos.peano_ind; intros q.
  - reflexivity.
  - rewrite !Pos.iter_succ. rewrite <- Pos.iter_swap.
    cbn [shr_1 orb]. apply IH.
Qed.

Lemma fexp_digits (d : Z) : 1 <= d -> fexp prec emax d = d - 53.
Proof.
  intros Hd. unfold fexp, SpecFloat.emin, prec, emax. lia.
Qed.

Lemma shr_fexp_canonical (m : positive) (e : Z) :
  digits m = 53 -> -52 <= e ->
  shr_fexp prec emax (Zpos m) e loc_Exact
  = (Build_shr_record (Zpos m) false false, e).
Proof.
  intros Hd He. unfold shr_fexp. cbn [Zdigits2 shr_record_of_loc].
  fold (digits m). rewrite Hd, fexp_digits by lia.
  replace (53 + e - 53 - e) with 0 by lia. reflexivity.
Qed.

Lemma binary_round_aux_canonical (s : bool) (m : positive) (e : Z) :
  digits m = 53 -> -52 <= e <= 0 ->
  binary_round_aux prec emax s (Zpos m) e loc_Exact = S754_finite s m e.
Proof.
  intros Hd He. unfold binary_round_aux.
  rewrite shr_fexp_canonical by lia.
  cbn [shr_m loc_of_shr_record round_nearest_even].
  rewrite shr_fexp_canonical by lia. cbn [shr_m].
  destruct (Z.leb_spec e (emax - prec)) as [_ | H]; [reflexivity |].
  unfold emax, prec in H. lia.
Qed.

Lemma binary_round_shl (s : bool) (p : positive) (k : Z) :
  Zpos p < 2 ^ 53 -> 0 <= k ->
  binary_round prec emax s (shl p k) (- k) = canonFinite s p.
Proof.
  intros Hp Hk.
  pose proof (digits_bound p Hp) as Hd. pose proof (digits_pos p) as Hd1.
  unfold binary_round, canonFinite.
  fold (digits (shl p k)). rewrite digits_shl by lia.
  replace (digits p + k + - k) with (digits p) by lia.
  rewrite fexp_digits by lia.
  set (j := 53 - digits p).
  replace (digits p - 53) with (- j) by (unfold j; lia).
  assert (Hj : 0 <= j <= 52) by (unfold j; lia).
  unfold shl_align.
  destruct (Z.compare_spec k j) as [Heq | Hlt | Hgt].
  - subst k. replace (- j - - j) with 0 by lia.
    apply binary_round_aux_canonical; [| lia].
    rewrite digits_shl by lia. unfold j. lia.
  - destruct (- j - - k) as [| n | n] eqn:Hn; try lia.
    assert (Hn' : Zpos n = j - k) by lia.
    change (Pos.iter xO (shl p k) n) with (shl (shl p k) (Zpos n)).
    rewrite shl_shl by lia. replace (k + Zpos n) with j by lia.
    apply binary_round_aux_canonical; [| lia].
    rewrite digits_shl by lia. unfold j. lia.
  - destruct (- j - - k) as [| n | n] eqn:Hn; try lia.
    assert (Hn' : Zpos n = k - j) by lia.
    unfold binary_round_aux.
    assert (Hshr : shr_fexp prec emax (Zpos (shl p k)) (- k) loc_Exact
                   = (Build_shr_record (Zpos (shl p j)) false false, - j)).
    { unfold shr_fexp. cbn [Zdigits2 shr_record_of_loc].
      fold (digits (shl p k)). rewrite digits_shl by lia.
      replace (digits p + k + - k) with (digits p) by lia.
      rewrite fexp_digits by lia.
      replace (digits p - 53 - - k) with (Zpos n) by (unfold j in *; lia).
      unfold shr. f_equal; [| lia].
      replace (shl p k) with (Pos.iter xO (shl p j) n).
      - apply shr_exact.
      - change (Pos.iter xO (shl p j) n) with (shl (shl p j) (Zpos n)).
        rewrite shl_shl by lia. f_equal. lia. }
    rewrite Hshr. cbn [shr_m loc_of_shr_record round_nearest_even].
    rewrite shr_fexp_canonical; [| rewrite digits_shl by lia; unfold j; lia | lia].
    cbn [shr_m].
    destruct (Z.leb_spec (- j) (emax - prec)) as [_ | H]; [reflexivity |].
    unfold emax, prec in H. lia.
Qed.

Lemma binary_normalize_shl (z k : Z) :
  safeInteger z -> 0 <= k ->
  binary_normalize prec emax (z * 2 ^ k) (- k) false = canonZ z.
Proof.
  unfold safeInteger. intros Hz Hk. destruct z as [| p | p].
  - reflexivity.
  - rewrite <- shl_Z by lia. cbn [binary_normalize canonZ].
    apply binary_round_shl; lia.
  - change (Zneg p) with (- Zpos p). rewrite Z.mul_opp_l, <- shl_Z by lia.
    cbn [Z.opp binary_normalize canonZ].
    apply binary_round_shl; lia.
Qed.

Lemma binary_normalize_safe (z : Z) :
  safeInteger z -> binary_normalize prec emax z 0 false = canonZ z.
Proof.
  intros Hz. rewrite <- (binary_normalize_shl z 0 Hz) by lia.
  cbn [Z.pow Z.opp]. now rewrite Z.mul_1_r.
Qed.

Lemma canonFinite_valid (s : bool) (p : positive) :
  Zpos p < 2 ^ 53 -> valid_binary (canonFinite s p) = true.
Proof.
  intros Hp. pose proof (digits_bound p Hp). pose proof (digits_pos p).
  unfold canonFinite. cbn [SpecFloat.valid_binary]. unfold bounded, canonical_mantissa.
  fold (digits (shl p (53 - digits p))). rewrite digits_shl by lia.
  rewrite fexp_digits by lia.
  apply andb_true_iff. split.
  - apply Z.eqb_eq. lia.
  - apply Z.leb_le. unfold emax, prec. lia.
Qed.

Lemma canonZ_valid (z : Z) : safeInteger z -> valid_binary (canonZ z) = true.
Proof.
  unfold safeInteger. intros Hz. destruct z as [| p | p]; [reflexivity | |];
    apply canonFinite_valid; lia.
Qed.

Lemma Prim2SF_ofZ (z : Z) : safeInteger z -> Prim2SF (ofZ z) = canonZ z.
Proof.
  intros Hz. unfold ofZ. rewrite binary_normalize_safe by exact Hz.
  apply Prim2SF_SF2Prim. now apply canonZ_valid.
Qed.

Lemma ofZ_from_spec (f : float) (z : Z) :
  safeInteger z -> Prim2SF f = canonZ z -> f = ofZ z.
Proof.
  intros Hz Hf. apply Prim2SF_inj. now rewrite Prim2SF_ofZ.
Qed.

Lemma shl_align_canonical (p : positive) (K : Z) :
  53 - digits p <= K ->
  digits p <= 53 ->
  fst (shl_align (shl p (53 - digits p)) (digits p - 53) (- K)) = shl p K.
Proof.
  intros HK Hd. unfold shl_align.
  destruct (- K - (digits p - 53)) as [| n | n] eqn:Hn; cbn [fst].
  - f_equal. lia.
  - lia.
  - change (Pos.iter xO (shl p (53 - digits p)) n)
      with (shl (shl p (53 - digits p)) (Zpos n)).
    rewrite shl_shl by lia. f_equal. lia.
Qed.

Lemma cond_Zopp_shl (s : bool) (p : positive) (K : Z) :
  0 <= K -> cond_Zopp s (Zpos (shl p K)) = signedZ s p * 2 ^ K.
Proof.
  intros HK. rewrite shl_Z by lia. destruct s; cbn [cond_Zopp signedZ]; lia.
Qed.

Lemma SFadd_finite (sa sb : bool) (pa pb : positive) :
  Zpos pa < 2 ^ 53 -> Zpos pb < 2 ^ 53 ->
  safeInteger (signedZ sa pa + signedZ sb pb) ->
  SF64add (canonFinite sa pa) (canonFinite sb pb)
  = canonZ (signedZ sa pa + signedZ sb pb).
Proof.
  intros Ha Hb Hab.
  pose proof (digits_bound pa Ha). pose proof (digits_bound pb Hb).
  pose proof (digits_pos pa). pose proof (digits_pos pb).
  unfold SF64add, SFadd, canonFinite.
  set (K := Z.max (53 - digits pa) (53 - digits pb)).
  replace (Z.min (digits pa - 53) (digits pb - 53)) with (- K) by (unfold K; lia).
  rewrite !shl_align_canonical by (unfold K; lia).
  rewrite !cond_Zopp_shl by (unfold K; lia).
  rewrite <- Z.mul_add_distr_r.
  apply binary_normalize_shl; [exact Hab | unfold K; lia].
Qed.

Lemma SFsub_finite (sa sb : bool) (pa pb : positive) :
  Zpos pa < 2 ^ 53 -> Zpos pb < 2 ^ 53 ->
  safeInteger (signedZ sa pa - signedZ sb pb) ->
  SF64sub (canonFinite sa pa) (canonFinite sb pb)
  = canonZ (signedZ sa pa - signedZ sb pb).
Proof.
  intros Ha Hb Hab.
  pose proof (digits_bound pa Ha). pose proof (digits_bound pb Hb).
  pose proof (digits_pos pa). pose proof (digits_pos pb).
  unfold SF64sub, SFsub, canonFinite.
  set (K := Z.max (53 - digits pa) (53 - digits pb)).
  replace (Z.min (digits pa - 53) (digits pb - 53)) with (- K) by (unfold K; lia).
  rewrite !shl_align_canonical by (unfold K; lia).
  rewrite !cond_Zopp_shl by (unfold K; lia).
  rewrite <- Z.mul_sub_distr_r.
  apply binary_normalize_shl; [exact Hab | unfold K; lia].
Qed.

Lemma canonZ_signed (s : bool) (p : positive) : canonZ (signedZ s p) = canonFinite s p.
Proof. destruct s; reflexivity. Qed.

Lemma Z_signed (z : Z) : z <> 0 -> exists s p, z = signedZ s p /\ Zpos p = Z.abs z.
Proof.
  destruct z as [| p | p]; intros H; [congruence | exists false, p | exists true, p];
    split; reflexivity.
Qed.

Lemma SFadd_canon (a b : Z) :
  safeInteger a -> safeInteger b -> safeInteger (a + b) ->
  SF64add (canonZ a) (canonZ b) = canonZ (a + b).
Proof.
  intros Ha Hb Hab.
  destruct (Z.eq_dec a 0) as [-> | Ha0].
  - cbn [Z.add]. destruct b as [| p | p]; reflexivity.
  - destruct (Z.eq_dec b 0) as [-> | Hb0].
    + rewrite Z.add_0_r. destruct a as [| p | p]; reflexivity.
    + destruct (Z_signed a Ha0) as (sa & pa & -> & Hpa).
      destruct (Z_signed b Hb0) as (sb & pb & -> & Hpb).
      rewrite !canonZ_signed. unfold safeInteger in Ha, Hb.
      apply SFadd_finite; [lia | lia | exact Hab].
Qed.

Lemma SFsub_canon (a b : Z) :
  safeInteger a -> safeInteger b -> safeInteger (a - b) ->
  SF64sub (canonZ a) (canonZ b) = canonZ (a - b).
Proof.
  intros Ha Hb Hab.
  destruct (Z.eq_dec b 0) as [-> | Hb0].
  - rewrite Z.sub_0_r. destruct a as [| p | p]; reflexivity.
  - destruct (Z.eq_dec a 0) as [-> | Ha0].
    + destruct b as [| p | p]; [congruence | reflexivity | reflexivity].
    + destruct (Z_signed a Ha0) as (sa & pa & -> & Hpa).
      destruct (Z_signed b Hb0) as (sb & pb & -> & Hpb).
      rewrite !canonZ_signed. unfold safeInteger in Ha, Hb.
      apply SFsub_finite; [lia | lia | exact Hab].
Qed.

Theorem add_exact (a b : Z) :
  safeInteger a -> safeInteger b -> safeInteger (a + b) ->
  PrimFloat.add (ofZ a) (ofZ b) = ofZ (a + b).
Proof.
  intros Ha Hb Hab. apply ofZ_from_spec; [exact Hab |].
  rewrite add_spec, !Prim2SF_ofZ by assumption. now apply SFadd_canon.
Qed.

Theorem sub_exact (a b : Z) :
  safeInteger a -> safeInteger b -> safeInteger (a - b) ->
  PrimFloat.sub (ofZ a) (ofZ b) = ofZ (a - b).
Proof.
  intros Ha Hb Hab. apply ofZ_from_spec; [exact Hab |].
  rewrite sub_spec, !Prim2SF_ofZ by assumption. now apply SFsub_canon.
Qed.

Lemma eqb_ofZ_refl (z : Z) : safeInteger z -> PrimFloat.eqb (ofZ z) (ofZ z) = true.
Proof.
  intros Hz. rewrite eqb_spec, Prim2SF_ofZ by exact Hz.
  destruct z as [| p | p]; [reflexivity | |];
    unfold canonZ, canonFinite, SFeqb, SFcompare;
    now rewrite Z.compare_refl, Pos.compare_cont_refl.
Qed.

Lemma eqb_ofZ_zero (z : Z) : safeInteger z -> PrimFloat.eqb (ofZ z) 0%float = (z =? 0).
Proof.
  intros Hz. change 0%float with (ofZ 0).
  rewrite eqb_spec, !Prim2SF_ofZ by (exact Hz || (unfold safeInteger; simpl; lia)).
  destruct z as [| p | p]; reflexivity.
Qed.

Lemma is_nan_ofZ (z : Z) : safeInteger z -> PrimFloat.is_nan (ofZ z) = false.
Proof.
  intros Hz. unfold PrimFloat.is_nan. now rewrite eqb_ofZ_refl.
Qed.

(** Adding the negation is subtracting, also when the subtrahend is 0 and
    its negation the negative zero. *)
Theorem add_opp_exact (a b : Z) :
  safeInteger a -> safeInteger b -> safeInteger (a - b) ->
  PrimFloat.add (ofZ a) (PrimFloat.opp (ofZ b)) = ofZ (a - b).
Proof.
  intros Ha Hb Hab. apply ofZ_from_spec; [exact Hab |].
  rewrite add_spec, opp_spec, !Prim2SF_ofZ by assumption.
  destruct b as [| p | p].
  - rewrite Z.sub_0_r. destruct a as [| q | q]; reflexivity.
  - change (SFopp (canonZ (Zpos p))) with (canonZ (Zneg p)).
    change (a - Zpos p) with (a + Zneg p).
    apply SFadd_canon; try assumption.
  - change (SFopp (canonZ (Zneg p))) with (canonZ (Zpos p)).
    change (a - Zneg p) with (a + Zpos p).
    apply SFadd_canon; try assumption.
Qed.

Lemma leb_zero_ofZ (z : Z) : safeInteger z -> PrimFloat.leb 0%float (ofZ z) = (0 <=? z).
Proof.
  intros Hz. change 0%float with (ofZ 0).
  rewrite leb_spec, !Prim2SF_ofZ by (exact Hz || (unfold safeInteger; simpl; lia)).
  destruct z as [| p | p]; reflexivity.
Qed.

(** [ofZ] is the conversion of an integer to a binary64 number. *)
Lemma ofZ_of_uint63 (n : PrimInt63.int) : ofZ (Uint63.to_Z n) = PrimFloat.of_uint63 n.
Proof.
  unfold ofZ. rewrite <- of_uint63_spec. apply SF2Prim_Prim2SF.
Qed.

Example ofZ_samples :
  ofZ 0 = 0%float /\ ofZ 1 = 1%float /\ ofZ 100000 = 100000%float
  /\ ofZ (-30000) = (-30000)%float
  /\ ofZ (2 ^ 53 - 1) = 9007199254740991%float.
Proof. repeat split; reflexivity. Qed.

(** ** The aggregator on whole amounts *)

Lemma lineWeight_nonneg (l : JournalEntryLine) : 0 <= lineWeight l.
Proof. unfold lineWeight. lia. Qed.

Lemma sumOver_nonneg' {A : Type} (f : A -> Z) (xs : list A) :
  (forall x, 0 <= f x) -> 0 <= sumOver f xs.
Proof.
  intros Hf. induction xs as [| x xs IH]; simpl; [lia |].
  specialize (Hf x). lia.
Qed.

Lemma sumOver_filter_le {A : Type} (f : A -> Z) (p : A -> bool) (xs : list A) :
  (forall x, 0 <= f x) -> sumOver f (filter p xs) <= sumOver f xs.
Proof.
  intros Hf. induction xs as [| x xs IH]; simpl; [lia |].
  specialize (Hf x). destruct (p x); simpl; lia.
Qed.

Lemma abs_sumOver {A : Type} (f : A -> Z) (xs : list A) :
  Z.abs (sumOver f xs) <= sumOver (fun x => Z.abs (f x)) xs.
Proof.
  induction xs as [| x xs IH]; simpl; lia.
Qed.

Lemma weightAt_nonneg (k : string) (ls : list JournalEntryLine) : 0 <= weightAt k ls.
Proof. apply sumOver_nonneg', lineWeight_nonneg. Qed.

Lemma weightAt_app (k : string) (xs ys : list JournalEntryLine) :
  weightAt k (xs ++ ys) = weightAt k xs + weightAt k ys.
Proof. unfold weightAt. now rewrite filter_app, sumOver_app. Qed.

Lemma weightAt_le_total (k : string) (ls : list JournalEntryLine) :
  weightAt k ls <= sumOver lineWeight ls.
Proof. apply sumOver_filter_le, lineWeight_nonneg. Qed.

Lemma weightAt_one (l : JournalEntryLine) : weightAt (accountId l) [l] = lineWeight l.
Proof.
  unfold weightAt. cbn [filter]. rewrite String.eqb_refl. cbn [sumOver]. lia.
Qed.

Section EmbedObject.

Context {V W : Type}.

Lemma set_map (f : V -> W) (o : JsObject.t V) (k : string) (v : V) :
  JsObject.set (map (fun kv => (fst kv, f (snd kv))) o) k (f v)
  = map (fun kv => (fst kv, f (snd kv))) (JsObject.set o k v).
Proof.
  induction o as [| [k' v'] o IH]; cbn [map JsObject.set fst snd]; [reflexivity |].
  destruct (String.eqb k' k); cbn [map fst snd]; [reflexivity | now rewrite IH].
Qed.

Lemma Forall_set (P : string * V -> Prop) (o : JsObject.t V) (k : string) (v : V) :
  Forall P o -> P (k, v) -> Forall P (JsObject.set o k v).
Proof.
  intros Ho Hv. induction Ho as [| [k' v'] o Hkv Ho IH]; cbn [JsObject.set].
  - constructor; [exact Hv | constructor].
  - destruct (String.eqb_spec k' k) as [-> | Hne]; constructor; assumption.
Qed.

End EmbedObject.

Lemma get_embedLedger (l : Ledger) (k : string) :
  JsObject.get (embedLedger l) k
  = match JsObject.get l k with
    | JsObject.Own a => JsObject.Own (embedAccount a)
    | JsObject.Inherited => JsObject.Inherited
    | JsObject.Undefined => JsObject.Undefined
    end.
Proof.
  unfold JsObject.get, embedLedger. rewrite (getOwn_map embedAccount).
  destruct (JsObject.getOwn l k); cbn [option_map]; [reflexivity |].
  destruct (JsObject.inherited k); reflexivity.
Qed.

(** One posting: the invariant is kept. *)
Lemma postLine_within (e : JournalEntry) (l l' : Ledger) (line : JournalEntryLine)
  (done : list JournalEntryLine) :
  balancesWithin done l ->
  postLine e l line = Ok l' ->
  balancesWithin (done ++ [line]) l'.
Proof.
  intros Hin Hpost.
  assert (Hmono : balancesWithin (done ++ [line]) l).
  { eapply Forall_impl; [| exact Hin]. intros kv Hkv. cbv beta in *.
    rewrite weightAt_app. pose proof (weightAt_nonneg (fst kv) [line]). lia. }
  unfold postLine, JsObject.get in Hpost.
  destruct (JsObject.getOwn l (accountId line)) as [account |] eqn:Hget.
  - destruct (normalBalanceIsDebit (la_code account)) as [isDebit | err];
      cbn [bind] in Hpost; [| discriminate].
    injection Hpost as <-.
    apply Forall_set; [exact Hmono |].
    apply getOwn_In in Hget.
    unfold balancesWithin in Hin. rewrite Forall_forall in Hin.
    specialize (Hin _ Hget). cbn [fst snd la_balance] in *.
    rewrite weightAt_app, weightAt_one. unfold lineWeight.
    destruct isDebit; lia.
  - destruct (JsObject.inherited (accountId line)); [discriminate |].
    now injection Hpost as <-.
Qed.

(** One posting: the two programs do the same. *)
Lemma postLine_embed (e : JournalEntry) (l : Ledger) (line : JournalEntryLine)
  (done : list JournalEntryLine) :
  balancesWithin done l ->
  weightAt (accountId line) (done ++ [line]) < 2 ^ 53 ->
  Binary64.postLine (embedEntry e) (embedLedger l) (embedLine line)
  = mapCompletion embedLedger (postLine e l line).
Proof.
  intros Hin Hbound.
  unfold Binary64.postLine, postLine.
  cbn [embedLine Binary64.accountId Binary64.debit Binary64.credit].
  rewrite get_embedLedger. unfold JsObject.get.
  destruct (JsObject.getOwn l (accountId line)) as [account |] eqn:Hget.
  - cbn [embedAccount Binary64.la_code Binary64.la_name Binary64.la_type
         Binary64.la_balance Binary64.la_entries].
    destruct (normalBalanceIsDebit (la_code account)) as [isDebit | err];
      cbn [bind mapCompletion]; [| reflexivity].
    f_equal. unfold embedLedger. rewrite <- (set_map embedAccount). f_equal.
    apply getOwn_In in Hget.
    unfold balancesWithin in Hin. rewrite Forall_forall in Hin.
    specialize (Hin _ Hget). cbn [fst snd] in Hin.
    rewrite weightAt_app, weightAt_one in Hbound. unfold lineWeight in Hbound.
    pose proof (weightAt_nonneg (accountId line) done) as Hnn.
    unfold embedAccount.
    cbn [la_code la_name la_type la_balance la_entries embedEntry
         Binary64.je_date Binary64.je_description].
    unfold push. rewrite map_app. cbn [map embedLedgerEntry le_date le_description
                                        le_debit le_credit].
    destruct isDebit.
    + rewrite sub_exact, add_exact by (unfold safeInteger; lia). reflexivity.
    + rewrite sub_exact, add_exact by (unfold safeInteger; lia). reflexivity.
  - destruct (JsObject.inherited (accountId line)); reflexivity.
Qed.

Lemma forEach_postLine_embed (e : JournalEntry) (ls done : list JournalEntryLine)
  (l : Ledger) :
  balancesWithin done l ->
  (forall k, weightAt k (done ++ ls) < 2 ^ 53) ->
  forEach (Binary64.postLine (embedEntry e)) (map embedLine ls) (embedLedger l)
  = mapCompletion embedLedger (forEach (postLine e) ls l)
  /\ forall l', forEach (postLine e) ls l = Ok l' -> balancesWithin (done ++ ls) l'.
Proof.
  revert done l. induction ls as [| line ls IH]; intros done l Hin Hbound.
  - cbn [map forEach mapCompletion]. split; [reflexivity |].
    intros l' [= <-]. now rewrite app_nil_r.
  - cbn [map forEach].
    rewrite (postLine_embed e l line done Hin).
    2:{ specialize (Hbound (accountId line)).
        change (line :: ls) with ([line] ++ ls) in Hbound.
        rewrite app_assoc, weightAt_app in Hbound.
        pose proof (weightAt_nonneg (accountId line) ls). lia. }
    destruct (postLine e l line) as [l1 | err] eqn:Hpost;
      cbn [bind mapCompletion].
    + pose proof (postLine_within e l l1 line done Hin Hpost) as Hin1.
      change (line :: ls) with ([line] ++ ls) in Hbound |- *.
      rewrite app_assoc in Hbound |- *.
      apply (IH (done ++ [line]) l1 Hin1 Hbound).
    + split; [reflexivity | discriminate].
Qed.

Lemma forEach_postEntry_embed (journal : list JournalEntry)
  (done : list JournalEntryLine) (l : Ledger) :
  balancesWithin done l ->
  (forall k, weightAt k (done ++ linesOf journal) < 2 ^ 53) ->
  forEach Binary64.postEntry (map embedEntry journal) (embedLedger l)
  = mapCompletion embedLedger (forEach postEntry journal l).
Proof.
  revert done l. induction journal as [| e journal IH]; intros done l Hin Hbound.
  - reflexivity.
  - cbn [map forEach]. unfold Binary64.postEntry at 1, postEntry at 1.
    cbn [embedEntry Binary64.je_lines].
    change (Binary64.postLine
              {| Binary64.je_id := je_id e; Binary64.je_date := je_date e;
                 Binary64.je_description := je_description e;
                 Binary64.je_lines := map embedLine (je_lines e) |})
      with (Binary64.postLine (embedEntry e)).
    unfold linesOf in Hbound. cbn [flat_map] in Hbound.
    fold (linesOf journal) in Hbound. rewrite app_assoc in Hbound.
    destruct (forEach_postLine_embed e (je_lines e) done l Hin) as [-> Hin1].
    { intros k. specialize (Hbound k). rewrite weightAt_app in Hbound.
      pose proof (weightAt_nonneg k (linesOf journal)). lia. }
    destruct (forEach (postLine e) (je_lines e) l) as [l1 | err];
      cbn [bind mapCompletion]; [| reflexivity].
    apply (IH (done ++ je_lines e) l1 (Hin1 l1 eq_refl) Hbound).
Qed.

Lemma initLedger_embed : Binary64.initLedger = embedLedger initLedger.
Proof. reflexivity. Qed.

Lemma initLedger_within : balancesWithin [] initLedger.
Proof.
  unfold balancesWithin.
  repeat (apply Forall_cons || apply Forall_nil); cbn; lia.
Qed.

Lemma values_embedLedger (l : Ledger) :
  JsObject.values (embedLedger l) = map embedAccount (JsObject.values l).
Proof.
  unfold JsObject.values, embedLedger. rewrite !map_map. reflexivity.
Qed.

(** On whole amounts within the safeInteger range the aggregator on binary64
    numbers does what the aggregator on integers does. *)
Theorem generateLedger_embed (journal : list JournalEntry) :
  (forall k, weightAt k (linesOf journal) < 2 ^ 53) ->
  Binary64.generateLedger (map embedEntry journal)
  = mapCompletion (map embedAccount) (generateLedger journal).
Proof.
  intros Hbound. unfold Binary64.generateLedger, generateLedger.
  rewrite initLedger_embed.
  rewrite (forEach_postEntry_embed journal [] initLedger initLedger_within Hbound).
  destruct (forEach postEntry journal initLedger) as [l | err];
    cbn [bind mapCompletion]; [| reflexivity].
  now rewrite values_embedLedger.
Qed.

(** ** The journal generator on whole amounts *)

Lemma journalEntryOf_embed (o : TransactionObject) :
  Binary64.journalEntryOf (embedObject o) = embedEntry (journalEntryOf o).
Proof.
  unfold Binary64.journalEntryOf, journalEntryOf, embedEntry.
  cbn [embedObject Binary64.o_type Binary64.o_payment_status Binary64.o_amount
       Binary64.o_id Binary64.o_date Binary64.o_description je_id je_date
       je_description je_lines].
  destruct (String.eqb (o_type o) "income"), (String.eqb (o_type o) "expense"),
    (String.eqb (o_payment_status o) "paid"); reflexivity.
Qed.

Lemma generateJournalJs_embed (os : list TransactionObject) :
  Binary64.generateJournalJs (map embedObject os)
  = map embedEntry (generateJournalJs os).
Proof.
  unfold Binary64.generateJournalJs, generateJournalJs. rewrite !map_map.
  apply map_ext, journalEntryOf_embed.
Qed.

Lemma toObject_embed (ts : list Transaction) :
  map Binary64.toObject (map embedTransaction ts)
  = map embedObject (map toObject ts).
Proof. rewrite !map_map. reflexivity. Qed.

Lemma generateJournal_embed (ts : list Transaction) :
  Binary64.generateJournal (map embedTransaction ts)
  = map embedEntry (generateJournal ts).
Proof.
  unfold Binary64.generateJournal, generateJournal.
  rewrite toObject_embed. apply generateJournalJs_embed.
Qed.

Lemma validTransaction_embed (t : Transaction) :
  safeInteger (tx_amount t) ->
  Binary64.validTransaction (embedTransaction t) = validTransaction t.
Proof.
  intros Hs. unfold Binary64.validTransaction, validTransaction.
  cbn [embedTransaction Binary64.tx_amount]. now apply leb_zero_ofZ.
Qed.

(** A transaction posts at most one line to any one account. *)
Lemma weightAt_ruleEntry (k : string) (t : Transaction) :
  weightAt k (je_lines (ruleEntry t)) <= Z.abs (tx_amount t).
Proof.
  unfold weightAt, ruleEntry. cbn [je_lines].
  destruct (tx_type t), (tx_payment_status t);
    cbn [ruleTable];
    unfold creditLine, debitLine, REVENUE, CASH, ACCOUNTS_RECEIVABLE,
      ACCOUNTS_PAYABLE, EXPENSE;
    cbn [filter accountId];
    repeat match goal with
           | |- context [String.eqb ?a k] =>
               destruct (String.eqb_spec a k); try congruence
           end;
    cbn [sumOver]; unfold lineWeight; cbn [debit credit]; lia.
Qed.

Lemma linesOf_cons (e : JournalEntry) (journal : list JournalEntry) :
  linesOf (e :: journal) = je_lines e ++ linesOf journal.
Proof. reflexivity. Qed.

Lemma weightAt_generateJournal (k : string) (ts : list Transaction) :
  weightAt k (linesOf (generateJournal ts)) <= totalAmount ts.
Proof.
  rewrite generateJournal_ruleEntry.
  induction ts as [| t ts IH]; [cbn; lia |].
  cbn [map]. rewrite linesOf_cons, weightAt_app.
  pose proof (weightAt_ruleEntry k t). unfold totalAmount in *. cbn [sumOver]. lia.
Qed.

(** Journal generator and ledger aggregator on whole amounts. *)
Theorem deriveLedger_embed (ts : list Transaction) :
  totalAmount ts < 2 ^ 53 ->
  Binary64.generateLedger (Binary64.generateJournal (map embedTransaction ts))
  = Ok (map embedAccount (ledgerViews (generateJournal ts))).
Proof.
  intros Hbound. rewrite generateJournal_embed, generateLedger_embed.
  - now rewrite generateLedger_generateJournal.
  - intros k. pose proof (weightAt_generateJournal k ts). lia.
Qed.

(** ** Sums *)

Lemma fold_left_embed {A B : Type} (emb : A -> B) (g : B -> float) (f : A -> Z)
  (xs : list A) (acc : Z) :
  (forall x s, In x xs -> safeInteger s -> safeInteger (f x) -> safeInteger (s + f x) ->
               PrimFloat.add (ofZ s) (g (emb x)) = ofZ (s + f x)) ->
  Z.abs acc + sumOver (fun x => Z.abs (f x)) xs < 2 ^ 53 ->
  fold_left (fun sum x => PrimFloat.add sum (g x)) (map emb xs) (ofZ acc)
  = ofZ (fold_left (fun sum x => sum + f x) xs acc).
Proof.
  revert acc. induction xs as [| x xs IH]; intros acc Hg Hbound; [reflexivity |].
  cbn [map fold_left sumOver] in *.
  pose proof (sumOver_nonneg' (fun x => Z.abs (f x)) xs (fun x => Z.abs_nonneg _)).
  rewrite Hg; [| now left | unfold safeInteger; lia ..].
  apply IH; [| lia].
  intros y s Hy. apply Hg. now right.
Qed.

Lemma reduce_sum_embed_gen {A B : Type} (emb : A -> B) (g : B -> float)
  (f : A -> Z) (xs : list A) :
  (forall x s, In x xs -> safeInteger s -> safeInteger (f x) -> safeInteger (s + f x) ->
               PrimFloat.add (ofZ s) (g (emb x)) = ofZ (s + f x)) ->
  sumOver (fun x => Z.abs (f x)) xs < 2 ^ 53 ->
  Binary64.reduce_sum g (map emb xs) = ofZ (reduce_sum f xs).
Proof.
  intros Hg Hbound. unfold Binary64.reduce_sum, reduce_sum.
  change 0%float with (ofZ 0). apply fold_left_embed; [exact Hg |].
  cbn [Z.abs]. lia.
Qed.

Lemma reduce_sum_embed {A B : Type} (emb : A -> B) (g : B -> float)
  (f : A -> Z) (xs : list A) :
  (forall x, In x xs -> g (emb x) = ofZ (f x)) ->
  sumOver (fun x => Z.abs (f x)) xs < 2 ^ 53 ->
  Binary64.reduce_sum g (map emb xs) = ofZ (reduce_sum f xs).
Proof.
  intros Hg. apply reduce_sum_embed_gen.
  intros x s Hx Hs Hf Hsf. rewrite (Hg x Hx). now apply add_exact.
Qed.

Lemma filter_map_embed {A B : Type} (emb : A -> B) (p : B -> bool) (xs : list A) :
  filter p (map emb xs) = map emb (filter (fun x => p (emb x)) xs).
Proof.
  induction xs as [| x xs IH]; [reflexivity |].
  cbn [map filter]. destruct (p (emb x)); cbn [map]; now rewrite IH.
Qed.

(** ** Reports on whole amounts *)

Lemma sumOver_le {A : Type} (f g : A -> Z) (xs : list A) :
  (forall x, f x <= g x) -> sumOver f xs <= sumOver g xs.
Proof.
  intros H. induction xs as [| x xs IH]; simpl; [lia |].
  specialize (H x). lia.
Qed.

(** A filtered [reduce] over typed transactions, on whole amounts. *)
Lemma typed_sum_embed (g : Binary64.TransactionObject -> float)
  (p : Binary64.TransactionObject -> bool) (f h : Transaction -> Z)
  (ts : list Transaction) :
  (forall t s, safeInteger s -> safeInteger (f t) -> safeInteger (s + f t) ->
     PrimFloat.add (ofZ s) (g (embedObject (toObject t))) = ofZ (s + f t)) ->
  (forall t, Z.abs (f t) <= Z.abs (tx_amount t)) ->
  (forall t, (if p (embedObject (toObject t)) then f t else 0) = h t) ->
  totalAmount ts < 2 ^ 53 ->
  Binary64.reduce_sum g (filter p (map embedObject (map toObject ts)))
  = ofZ (sumOver h ts).
Proof.
  intros Hg Hf Hh Hbound.
  rewrite map_map.
  rewrite (filter_map_embed (fun t => embedObject (toObject t))).
  rewrite (reduce_sum_embed_gen (fun t => embedObject (toObject t)) g f).
  - f_equal. rewrite reduce_sum_sumOver, sumOver_filter.
    apply sumOver_ext. intros t _. apply Hh.
  - intros t s _. apply Hg.
  - eapply Z.le_lt_trans; [| exact Hbound].
    etransitivity; [apply sumOver_filter_le; intros; apply Z.abs_nonneg |].
    apply sumOver_le, Hf.
Qed.

Lemma amount_add (t : Transaction) (s : Z) :
  safeInteger s -> safeInteger (tx_amount t) -> safeInteger (s + tx_amount t) ->
  PrimFloat.add (ofZ s) (Binary64.amountOf (embedObject (toObject t)))
  = ofZ (s + tx_amount t).
Proof. intros. now apply add_exact. Qed.

Ltac kind_cases t := destruct t as [? ? ? ? [] [] ?]; reflexivity.

Lemma sum_paid_income_embed (ts : list Transaction) :
  totalAmount ts < 2 ^ 53 ->
  Binary64.reduce_sum Binary64.amountOf
    (filter (fun t => Binary64.isType "income" t && Binary64.isStatus "paid" t)
       (map embedObject (map toObject ts)))
  = ofZ (sumOver paidIncome ts).
Proof.
  apply (typed_sum_embed _ _ tx_amount); [exact amount_add | intros; lia |].
  intros t. kind_cases t.
Qed.

Lemma sum_paid_expense_embed (ts : list Transaction) :
  totalAmount ts < 2 ^ 53 ->
  Binary64.reduce_sum Binary64.amountOf
    (filter (fun t => Binary64.isType "expense" t && Binary64.isStatus "paid" t)
       (map embedObject (map toObject ts)))
  = ofZ (sumOver paidExpense ts).
Proof.
  apply (typed_sum_embed _ _ tx_amount); [exact amount_add | intros; lia |].
  intros t. kind_cases t.
Qed.

Lemma sum_unpaid_income_embed (ts : list Transaction) :
  totalAmount ts < 2 ^ 53 ->
  Binary64.reduce_sum Binary64.amountOf
    (filter (fun t => Binary64.isType "income" t && Binary64.isStatus "unpaid" t)
       (map embedObject (map toObject ts)))
  = ofZ (sumOver unpaidIncome ts).
Proof.
  apply (typed_sum_embed _ _ tx_amount); [exact amount_add | intros; lia |].
  intros t. kind_cases t.
Qed.

Lemma sum_unpaid_expense_embed (ts : list Transaction) :
  totalAmount ts < 2 ^ 53 ->
  Binary64.reduce_sum Binary64.amountOf
    (filter (fun t => Binary64.isType "expense" t && Binary64.isStatus "unpaid" t)
       (map embedObject (map toObject ts)))
  = ofZ (sumOver unpaidExpense ts).
Proof.
  apply (typed_sum_embed _ _ tx_amount); [exact amount_add | intros; lia |].
  intros t. kind_cases t.
Qed.

Lemma sum_paid_signed_embed (ts : list Transaction) :
  totalAmount ts < 2 ^ 53 ->
  Binary64.reduce_sum
    (fun t => if Binary64.isType "income" t then Binary64.Number (Binary64.o_amount t)
              else PrimFloat.opp (Binary64.Number (Binary64.o_amount t)))
    (filter (fun t => Binary64.isStatus "paid" t)
       (map embedObject (map toObject ts)))
  = ofZ (sumOver paidIncome ts - sumOver paidExpense ts).
Proof.
  intros Hbound. rewrite <- sumOver_minus.
  apply (typed_sum_embed _ _
           (fun t => match tx_type t with
                     | income => tx_amount t
                     | expense => - tx_amount t
                     end)); [| | | exact Hbound].
  - intros t s Hs Hf Hsf. destruct t as [i d ds a [] st c];
      cbn [tx_type tx_amount] in *;
      cbn [toObject embedObject Binary64.isType Binary64.o_type typeLiteral
           Binary64.o_amount Binary64.Number tx_type tx_amount o_type o_amount].
    + change (String.eqb "income" "income") with true. cbv iota.
      now apply add_exact.
    + change (String.eqb "expense" "income") with false. cbv iota.
      change (s + - a) with (s - a).
      apply add_opp_exact; try assumption. unfold safeInteger in *. lia.
  - intros t. destruct (tx_type t); lia.
  - intros t. destruct t as [? ? ? ? [] [] ?]; cbn; lia.
Qed.

(** The four sums the reports are made of stay within the total. *)
Lemma four_sums_bound (ts : list Transaction) :
  Z.abs (sumOver paidIncome ts) + Z.abs (sumOver paidExpense ts)
  + Z.abs (sumOver unpaidIncome ts) + Z.abs (sumOver unpaidExpense ts)
  <= totalAmount ts.
Proof.
  unfold totalAmount. induction ts as [| t ts IH]; [cbn; lia |].
  cbn [sumOver].
  assert (Z.abs (paidIncome t) + Z.abs (paidExpense t)
          + Z.abs (unpaidIncome t) + Z.abs (unpaidExpense t)
          = Z.abs (tx_amount t)) as Ht.
  { unfold paidIncome, paidExpense, unpaidIncome, unpaidExpense.
    destruct (tx_type t), (tx_payment_status t); lia. }
  lia.
Qed.

Lemma or_zero_embed (z : Z) : safeInteger z -> Binary64.or_zero (ofZ z) = ofZ (or_zero z).
Proof.
  intros Hz. unfold Binary64.or_zero, or_zero.
  rewrite eqb_ofZ_zero, is_nan_ofZ by exact Hz.
  destruct (z =? 0); reflexivity.
Qed.

Lemma balanceOr0_embed (l : Ledger) (k : string) :
  safeInteger (LedgerReports.balanceOr0 l k) ->
  Binary64.balanceOr0 (embedLedger l) k = ofZ (LedgerReports.balanceOr0 l k).
Proof.
  unfold Binary64.balanceOr0, LedgerReports.balanceOr0.
  rewrite get_embedLedger.
  destruct (JsObject.get l k) as [acc | |]; [| reflexivity | reflexivity].
  rewrite or_zero_id. intros Hs.
  cbn [embedAccount Binary64.la_balance].
  rewrite or_zero_embed by exact Hs. now rewrite or_zero_id.
Qed.

Lemma ledgerMapOf_embed (ledgerList : list LedgerAccount) :
  Binary64.ledgerMapOf (map embedAccount ledgerList)
  = embedLedger (LedgerReports.ledgerMapOf ledgerList).
Proof.
  unfold Binary64.ledgerMapOf, LedgerReports.ledgerMapOf.
  change (@JsObject.empty Binary64.LedgerAccount)
    with (embedLedger (@JsObject.empty LedgerAccount)).
  generalize (@JsObject.empty LedgerAccount) as acc.
  induction ledgerList as [| a ledgerList IH]; intros acc; [reflexivity |].
  cbn [map fold_left]. rewrite <- IH. f_equal.
  unfold embedLedger. rewrite <- (set_map embedAccount). reflexivity.
Qed.

(** Balances the ledger-based report reads, on typed transactions. *)
Lemma report_reads (ts : list Transaction) :
  let m := ledgerAfter (postings (generateJournal ts)) in
  LedgerReports.balanceOr0 m "101" = sumOver paidIncome ts - sumOver paidExpense ts
  /\ LedgerReports.balanceOr0 m "102" = sumOver unpaidIncome ts
  /\ LedgerReports.balanceOr0 m "201" = sumOver unpaidExpense ts
  /\ LedgerReports.balanceOr0 m "301" = 0
  /\ LedgerReports.balanceOr0 m "401" = sumOver paidIncome ts + sumOver unpaidIncome ts
  /\ LedgerReports.balanceOr0 m "501" = sumOver paidExpense ts + sumOver unpaidExpense ts.
Proof.
  cbv zeta.
  destruct (ledger_balances ts) as (H1 & H2 & H3 & H4 & H5 & H6).
  unfold CASH, ACCOUNTS_RECEIVABLE, ACCOUNTS_PAYABLE, REVENUE, EXPENSE in *.
  rewrite (balanceOr0_balanceIn ts _ _ H1), (balanceOr0_balanceIn ts _ _ H2),
    (balanceOr0_balanceIn ts _ _ H3), (balanceOr0_balanceIn ts _ _ H4),
    (balanceOr0_balanceIn ts _ _ H5), (balanceOr0_balanceIn ts _ _ H6).
  repeat split.
Qed.

Lemma ledgerTotals_embed (ts : list Transaction) :
  totalAmount ts < 2 ^ 53 ->
  Binary64.ledgerTotals (map embedObject (map toObject ts))
  = Ok {| Binary64.totalAssets :=
            ofZ ((sumOver paidIncome ts - sumOver paidExpense ts)
                 + sumOver unpaidIncome ts);
          Binary64.totalLiabilities := ofZ (sumOver unpaidExpense ts);
          Binary64.totalEquity :=
            ofZ (0 + ((sumOver paidIncome ts + sumOver unpaidIncome ts)
                      - (sumOver paidExpense ts + sumOver unpaidExpense ts))) |}.
Proof.
  intros Hbound. pose proof (four_sums_bound ts) as Hfour.
  unfold Binary64.ledgerTotals.
  rewrite <- toObject_embed.
  change (Binary64.generateJournalJs (map Binary64.toObject (map embedTransaction ts)))
    with (Binary64.generateJournal (map embedTransaction ts)).
  rewrite (deriveLedger_embed ts Hbound). cbn [bind].
  rewrite ledgerMapOf_embed, ledgerMapOf_ledgerViews.
  destruct (report_reads ts) as (H1 & H2 & H3 & H4 & H5 & H6).
  rewrite !balanceOr0_embed
    by (rewrite ?H1, ?H2, ?H3, ?H4, ?H5, ?H6; unfold safeInteger; lia).
  rewrite H1, H2, H3, H4, H5, H6.
  rewrite sub_exact, !add_exact by (unfold safeInteger; lia).
  reflexivity.
Qed.

Lemma transactionTotals_embed (ts : list Transaction) :
  totalAmount ts < 2 ^ 53 ->
  Binary64.transactionTotals (map embedObject (map toObject ts))
  = {| Binary64.totalAssets :=
         ofZ ((sumOver paidIncome ts - sumOver paidExpense ts)
              + sumOver unpaidIncome ts);
       Binary64.totalLiabilities := ofZ (sumOver unpaidExpense ts);
       Binary64.totalEquity :=
         ofZ ((sumOver paidIncome ts - sumOver paidExpense ts)
              + sumOver unpaidIncome ts - sumOver unpaidExpense ts) |}.
Proof.
  intros Hbound. pose proof (four_sums_bound ts) as Hfour.
  unfold Binary64.transactionTotals.
  rewrite (sum_paid_signed_embed ts Hbound), (sum_unpaid_income_embed ts Hbound),
    (sum_unpaid_expense_embed ts Hbound).
  rewrite add_exact, sub_exact by (unfold safeInteger; lia).
  reflexivity.
Qed.

(** ** The aggregator on binary64 numbers, in closed form *)

Lemma forEach_postEntry_b64 (journal : list Binary64.JournalEntry)
  (l : Binary64.Ledger) :
  forEach Binary64.postEntry journal l
  = forEach Binary64.postStep (Binary64.postings journal) l.
Proof.
  revert l. induction journal as [| e journal IH]; intros l; [reflexivity |].
  unfold Binary64.postings in *. cbn [flat_map forEach]. rewrite forEach_app.
  assert (Hlines : forall ls l0,
    forEach (Binary64.postLine e) ls l0
    = forEach Binary64.postStep (map (pair e) ls) l0).
  { induction ls as [| x ls IHl]; intros l0; [reflexivity |].
    cbn [map forEach]. unfold Binary64.postStep at 1. cbn [fst snd].
    destruct (Binary64.postLine e l0 x); cbn [bind]; [apply IHl | reflexivity]. }
  unfold Binary64.postEntry at 1. rewrite Hlines.
  destruct (forEach _ (map (pair e) (Binary64.je_lines e)) l); cbn [bind];
    [apply IH | reflexivity].
Qed.

Lemma runningBalance_snoc (nb : NormalBalance)
  (ps : list (Binary64.JournalEntry * Binary64.JournalEntryLine))
  (p : Binary64.JournalEntry * Binary64.JournalEntryLine) :
  Binary64.runningBalance nb (ps ++ [p])
  = PrimFloat.add (Binary64.runningBalance nb ps) (Binary64.signedAmount nb p).
Proof.
  unfold Binary64.runningBalance. now rewrite fold_left_app.
Qed.

Lemma accountView_snoc_hit_b64 (acc : Account)
  (ps : list (Binary64.JournalEntry * Binary64.JournalEntryLine))
  (p : Binary64.JournalEntry * Binary64.JournalEntryLine) :
  Binary64.postsTo (code acc) p = true ->
  Binary64.accountView acc (ps ++ [p])
  = {| Binary64.la_code := code acc;
       Binary64.la_name := name acc;
       Binary64.la_type := type acc;
       Binary64.la_balance :=
         PrimFloat.add (Binary64.la_balance (Binary64.accountView acc ps))
           (Binary64.signedAmount (normalBalance acc) p);
       Binary64.la_entries :=
         push (Binary64.la_entries (Binary64.accountView acc ps))
           (Binary64.ledgerEntryOf p) |}.
Proof.
  intros Hp. unfold Binary64.accountView, push.
  cbn [Binary64.la_balance Binary64.la_entries].
  rewrite filter_app. cbn [filter]. rewrite Hp.
  now rewrite runningBalance_snoc, map_app.
Qed.

Lemma accountView_snoc_miss_b64 (acc : Account)
  (ps : list (Binary64.JournalEntry * Binary64.JournalEntryLine))
  (p : Binary64.JournalEntry * Binary64.JournalEntryLine) :
  Binary64.postsTo (code acc) p = false ->
  Binary64.accountView acc (ps ++ [p]) = Binary64.accountView acc ps.
Proof.
  intros Hp. unfold Binary64.accountView.
  rewrite filter_app. cbn [filter]. rewrite Hp, app_nil_r. reflexivity.
Qed.

Lemma getOwn_ledgerAfter_b64
  (ps : list (Binary64.JournalEntry * Binary64.JournalEntryLine)) (k : string) :
  JsObject.getOwn (Binary64.ledgerAfter ps) k
  = option_map (fun a => Binary64.accountView a ps)
      (JsObject.getOwn CHART_OF_ACCOUNTS k).
Proof.
  unfold Binary64.ledgerAfter.
  apply (getOwn_map (fun a => Binary64.accountView a ps)).
Qed.

Lemma postStep_b64
  (ps : list (Binary64.JournalEntry * Binary64.JournalEntryLine))
  (p : Binary64.JournalEntry * Binary64.JournalEntryLine) :
  Binary64.postStep (Binary64.ledgerAfter ps) p
  = if JsObject.inherited (Binary64.accountId (snd p))
    then Throw TypeError
    else Ok (Binary64.ledgerAfter (ps ++ [p])).
Proof.
  unfold Binary64.postStep, Binary64.postLine, JsObject.get.
  rewrite getOwn_ledgerAfter_b64.
  destruct (JsObject.getOwn CHART_OF_ACCOUNTS (Binary64.accountId (snd p)))
    as [acc |] eqn:Hget; cbn [option_map].
  - pose proof (chart_getOwn_code _ _ Hget) as Hcode.
    pose proof (getOwn_In _ _ _ Hget) as Hin.
    pose proof (chart_keys_not_inherited _ Hin) as Hno. cbn [fst] in Hno.
    rewrite Hno.
    unfold normalBalanceIsDebit, JsObject.get.
    change (Binary64.la_code (Binary64.accountView acc ps)) with (code acc).
    rewrite Hcode, Hget. cbn [bind]. f_equal.
    unfold Binary64.ledgerAfter at 1.
    rewrite (set_map_present (fun a => Binary64.accountView a ps))
      by (apply chart_keys_NoDup || congruence).
    unfold Binary64.ledgerAfter. apply map_ext_in. intros [k' acc'] Hin'.
    cbn [fst snd]. f_equal.
    pose proof (chart_key_is_code _ Hin') as Hk'. cbn [fst snd] in Hk'.
    destruct (String.eqb_spec k' (Binary64.accountId (snd p))) as [-> | Hne].
    + assert (acc' = acc) as ->
        by (eapply getOwn_unique; eauto using chart_keys_NoDup).
      rewrite accountView_snoc_hit_b64
        by (unfold Binary64.postsTo; rewrite Hcode; apply String.eqb_refl).
      unfold Binary64.ledgerEntryOf, Binary64.signedAmount.
      change (Binary64.la_code (Binary64.accountView acc ps)) with (code acc).
      change (Binary64.la_name (Binary64.accountView acc ps)) with (name acc).
      change (Binary64.la_type (Binary64.accountView acc ps)) with (type acc).
      destruct (normalBalance acc); rewrite ?Hcode; reflexivity.
    + rewrite accountView_snoc_miss_b64; [reflexivity |].
      unfold Binary64.postsTo. rewrite Hk'. now apply String.eqb_neq.
  - destruct (JsObject.inherited (Binary64.accountId (snd p))); [reflexivity |].
    f_equal. unfold Binary64.ledgerAfter. apply map_ext_in. intros [k' acc'] Hin'.
    cbn [fst snd]. f_equal. symmetry.
    apply accountView_snoc_miss_b64. unfold Binary64.postsTo.
    pose proof (chart_key_is_code _ Hin') as Hk'. cbn [fst snd] in Hk'. rewrite Hk'.
    apply String.eqb_neq. exact (getOwn_None _ _ Hget _ Hin').
Qed.

Lemma forEach_postStep_b64
  (qs ps : list (Binary64.JournalEntry * Binary64.JournalEntryLine)) :
  forEach Binary64.postStep qs (Binary64.ledgerAfter ps)
  = if forallb Binary64.notInherited qs
    then Ok (Binary64.ledgerAfter (ps ++ qs))
    else Throw TypeError.
Proof.
  revert ps. induction qs as [| q qs IH]; intros ps.
  - cbn [forEach forallb]. now rewrite app_nil_r.
  - cbn [forEach forallb]. rewrite postStep_b64. unfold Binary64.notInherited at 1.
    destruct (JsObject.inherited (Binary64.accountId (snd q))); cbn [negb andb bind].
    + reflexivity.
    + rewrite IH, <- app_assoc. reflexivity.
Qed.

(** [generateLedger] on binary64 numbers: when it returns, each chart account
    carries the running sum, in posting order, of the lines posted to it. *)
Lemma generateLedger_b64 (journal : list Binary64.JournalEntry) :
  Binary64.generateLedger journal
  = if Binary64.plainAccountIds journal
    then Ok (Binary64.ledgerViews journal)
    else Throw TypeError.
Proof.
  unfold Binary64.generateLedger. rewrite forEach_postEntry_b64.
  change Binary64.initLedger with (Binary64.ledgerAfter []).
  rewrite forEach_postStep_b64. unfold Binary64.plainAccountIds.
  destruct (forallb Binary64.notInherited (Binary64.postings journal));
    cbn [bind app]; [| reflexivity].
  unfold JsObject.values, Binary64.ledgerAfter, Binary64.ledgerViews.
  now rewrite map_map.
Qed.

Lemma journalEntryOf_plain_b64 (t : Binary64.TransactionObject) :
  forallb Binary64.notInherited
    (map (pair (Binary64.journalEntryOf t))
       (Binary64.je_lines (Binary64.journalEntryOf t)))
  = true.
Proof.
  unfold Binary64.journalEntryOf.
  destruct (String.eqb (Binary64.o_type t) "income"),
    (String.eqb (Binary64.o_type t) "expense"),
    (String.eqb (Binary64.o_payment_status t) "paid"); reflexivity.
Qed.

Lemma generateJournalJs_plain_b64 (os : list Binary64.TransactionObject) :
  Binary64.plainAccountIds (Binary64.generateJournalJs os) = true.
Proof.
  unfold Binary64.plainAccountIds, Binary64.generateJournalJs.
  induction os as [| t os IH]; [reflexivity |].
  cbn [map]. unfold Binary64.postings in *. cbn [flat_map].
  rewrite forallb_app. apply andb_true_iff. split.
  - apply journalEntryOf_plain_b64.
  - exact IH.
Qed.

Lemma postings_generateJournal_b64 (ts : list Binary64.Transaction) :
  Binary64.postings (Binary64.generateJournal ts)
  = flat_map (fun t => Binary64.postings (Binary64.generateJournal [t])) ts.
Proof.
  induction ts as [| t ts IH]; [reflexivity |].
  change (Binary64.generateJournal (t :: ts))
    with (Binary64.journalEntryOf (Binary64.toObject t) :: Binary64.generateJournal ts).
  unfold Binary64.postings at 1. cbn [flat_map].
  fold (Binary64.postings (Binary64.generateJournal ts)). rewrite IH.
  change (Binary64.postings (Binary64.generateJournal [t]))
    with (map (pair (Binary64.journalEntryOf (Binary64.toObject t)))
            (Binary64.je_lines (Binary64.journalEntryOf (Binary64.toObject t))) ++ []).
  now rewrite app_nil_r.
Qed.

(** The pipeline on binary64 numbers never throws, and lists each account's
    history in input order. *)
Lemma deriveLedger_b64 (ts : list Binary64.Transaction) :
  Binary64.deriveLedger ts
  = Ok (map (fun kv =>
               {| Binary64.la_code := code (snd kv);
                  Binary64.la_name := name (snd kv);
                  Binary64.la_type := type (snd kv);
                  Binary64.la_balance :=
                    Binary64.runningBalance (normalBalance (snd kv))
                      (filter (Binary64.postsTo (code (snd kv)))
                         (Binary64.postings (Binary64.generateJournal ts)));
                  Binary64.la_entries :=
                    flat_map (Binary64.historyOf (code (snd kv))) ts |})
          CHART_OF_ACCOUNTS).
Proof.
  unfold Binary64.deriveLedger. rewrite generateLedger_b64.
  unfold Binary64.generateJournal at 1. rewrite generateJournalJs_plain_b64.
  f_equal. unfold Binary64.ledgerViews. apply map_ext. intros kv.
  unfold Binary64.accountView. f_equal.
  rewrite postings_generateJournal_b64, filter_flat_map, map_flat_map.
  reflexivity.
Qed.

(* ================================================================== *)
(** * The accounting identity on binary64 numbers *)


(** The same happens on whole amounts once they leave the safe range: 2^53
    paid out and 1 owed. *)
Example accounting_identity_fails_beyond_safe_integers :
  let ts := [Binary64.mkTx "a" "2025-01-01" (ofZ (2 ^ 53)) expense paid;
             Binary64.mkTx "b" "2025-01-02" (ofZ 1) expense unpaid] in
  forallb Binary64.validTransaction ts = true
  /\ exists T,
       Binary64.ledgerTotals (map Binary64.toObject ts) = Ok T
       /\ PrimFloat.eqb (Binary64.totalAssets T)
            (PrimFloat.add (Binary64.totalLiabilities T) (Binary64.totalEquity T))
          = false.
Proof.
  cbv zeta. split; [reflexivity |].
  eexists. split; [vm_compute; reflexivity |]. vm_compute; reflexivity.
Qed.



(* ================================================================== *)
(** * The two balance sheets on binary64 numbers *)

(** C9.  The two balance-sheet derivations can disagree: on the valid list
    0.1 income paid, 0.1 expense paid, 0.2 income unpaid, which contains an
    unpaid transaction, the ledger-based report is produced and its total
    equity differs from the total equity read off the transactions.  The
    ledger computes revenue minus expense, the other sheet assets minus
    liabilities, and the two round differently. *)
Theorem balance_sheets_disagree_by_rounding :
  exists (ts : list Binary64.Transaction) (T : Binary64.Totals),
    forallb Binary64.validTransaction ts = true
    /\ existsb Binary64.isUnpaid ts = true
    /\ Binary64.ledgerTotals (map Binary64.toObject ts) = Ok T
    /\ PrimFloat.eqb (Binary64.totalEquity T)
         (Binary64.totalEquity
            (Binary64.transactionTotals (map Binary64.toObject ts)))
       = false.
Proof.
  exists [Binary64.mkTx "a" "2025-01-01" Binary64.d01 income paid;
          Binary64.mkTx "b" "2025-01-02" Binary64.d01 expense paid;
          Binary64.mkTx "c" "2025-01-03" Binary64.d02 income unpaid].
  eexists. split; [reflexivity |]. split; [reflexivity |].
  split; [vm_compute; reflexivity |]. vm_compute; reflexivity.
Qed.

(** X22.  On whole amounts whose absolute values sum to less than 2^53 the
    two balance-sheet derivations do not disagree: the ledger-based report is
    produced and its three totals are those read off the transactions. *)
Theorem balance_sheets_agree_on_whole_amounts (ts : list Transaction) :
  totalAmount ts < 2 ^ 53 ->
  Binary64.ledgerTotals (map embedObject (map toObject ts))
  = Ok (Binary64.transactionTotals (map embedObject (map toObject ts))).
Proof.
  intros Hbound.
  rewrite (ledgerTotals_embed ts Hbound), (transactionTotals_embed ts Hbound).
  do 3 f_equal. lia.
Qed.

Lemma balance_sheets_agree_on_whole_amounts_witness :
  totalAmount [cashSale; creditPurchase; creditSale] < 2 ^ 53
  /\ Binary64.ledgerTotals
       (map embedObject (map toObject [cashSale; creditPurchase; creditSale]))
     = Ok (Binary64.transactionTotals
             (map embedObject (map toObject [cashSale; creditPurchase; creditSale]))).
Proof.
  split; [reflexivity |].
  exact (balance_sheets_agree_on_whole_amounts
           [cashSale; creditPurchase; creditSale] eq_refl).
Defined.

(* ================================================================== *)
(** * Determinism and order on binary64 numbers *)

Lemma abs_signedAmount (nb : NormalBalance) (e : JournalEntry) (l : JournalEntryLine) :
  Z.abs (signedAmount nb (e, l)) <= lineWeight l.
Proof.
  unfold signedAmount, lineWeight. cbn [snd]. destruct nb; lia.
Qed.

Lemma abs_lines_balance (nb : NormalBalance) (c : string) (e : JournalEntry)
  (ls : list JournalEntryLine) :
  Z.abs (sumOver (signedAmount nb) (filter (postsTo c) (map (pair e) ls)))
  <= weightAt c ls.
Proof.
  unfold weightAt. induction ls as [| l ls IH]; [cbn; lia |].
  cbn [map filter]. unfold postsTo at 1. cbn [snd].
  rewrite (String.eqb_sym c (accountId l)).
  destruct (String.eqb (accountId l) c); [| exact IH].
  cbn [sumOver]. pose proof (abs_signedAmount nb e l). lia.
Qed.

(** No balance exceeds what was posted to its account. *)
Lemma abs_view_balance (nb : NormalBalance) (c : string) (journal : list JournalEntry) :
  Z.abs (sumOver (signedAmount nb) (filter (postsTo c) (postings journal)))
  <= weightAt c (linesOf journal).
Proof.
  induction journal as [| e journal IH]; [cbn; lia |].
  rewrite postings_cons, filter_app, sumOver_app, linesOf_cons, weightAt_app.
  pose proof (abs_lines_balance nb c e (je_lines e)). lia.
Qed.

Lemma accountView_safe (acc : Account) (ts : list Transaction) :
  totalAmount ts < 2 ^ 53 ->
  safeInteger (la_balance (accountView acc (postings (generateJournal ts)))).
Proof.
  intros Hbound. unfold accountView. cbn [la_balance]. unfold safeInteger.
  pose proof (abs_view_balance (normalBalance acc) (code acc) (generateJournal ts)).
  pose proof (weightAt_generateJournal (code acc) ts). lia.
Qed.

Lemma totalAmount_perm (ts ts' : list Transaction) :
  Permutation ts ts' -> totalAmount ts' = totalAmount ts.
Proof. intros H. unfold totalAmount. symmetry. now apply sumOver_perm. Qed.

Lemma deriveLedger_b64_embed (ts : list Transaction) :
  totalAmount ts < 2 ^ 53 ->
  Binary64.deriveLedger (map embedTransaction ts)
  = Ok (map (fun kv => embedAccount (accountView (snd kv) (postings (generateJournal ts))))
          CHART_OF_ACCOUNTS).
Proof.
  intros Hbound. unfold Binary64.deriveLedger.
  rewrite (deriveLedger_embed ts Hbound). unfold ledgerViews.
  now rewrite map_map.
Qed.

(** C6, refuted as stated.  The three paid sales 0.1, 0.2 and 0.3 carry
    distinct dates; posted in this order they leave 0.1 + 0.2 + 0.3 in Cash,
    posted in reverse order 0.3 + 0.2 + 0.1, and the two sums differ in the
    last binary digit. *)
Lemma ledger_balance_depends_on_order_of_fractions :
  let ts := [Binary64.mkTx "a" "2025-01-01" Binary64.d01 income paid;
             Binary64.mkTx "b" "2025-01-02" Binary64.d02 income paid;
             Binary64.mkTx "c" "2025-01-03" Binary64.d03 income paid] in
  Permutation ts (rev ts)
  /\ NoDup (map Binary64.tx_date ts)
  /\ forallb Binary64.validTransaction ts = true
  /\ exists b b',
       Binary64.balanceIn "101" ts = Some b
       /\ Binary64.balanceIn "101" (rev ts) = Some b'
       /\ PrimFloat.eqb b b' = false
       /\ PrimFloat.ltb b' b = true.
Proof.
  cbv zeta. split; [apply Permutation_rev |]. split.
  - cbn. repeat constructor; cbn; intuition discriminate.
  - split; [reflexivity |].
    eexists _, _. split; [vm_compute; reflexivity |].
    split; [vm_compute; reflexivity |].
    split; vm_compute; reflexivity.
Qed.

(** On whole amounts beyond the safe range: 2^53 + 1 + 1 is 2^53, while
    1 + 1 + 2^53 is 2^53 + 2. *)
Example ledger_balance_depends_on_order_beyond_safe_integers :
  let ts := [Binary64.mkTx "a" "2025-01-01" (ofZ (2 ^ 53)) income paid;
             Binary64.mkTx "b" "2025-01-02" (ofZ 1) income paid;
             Binary64.mkTx "c" "2025-01-03" (ofZ 1) income paid] in
  exists b b',
    Binary64.balanceIn "101" ts = Some b
    /\ Binary64.balanceIn "101" (rev ts) = Some b'
    /\ b = ofZ (2 ^ 53)
    /\ b' = ofZ (2 ^ 53 + 2).
Proof.
  cbv zeta. eexists _, _. split; [vm_compute; reflexivity |].
  split; [vm_compute; reflexivity |]. split; vm_compute; reflexivity.
Qed.

(** C6, amended.  For any amounts, two runs of the journal generator and
    the ledger aggregator on the same transactions return the same ledger,
    and for a permutation of the input the ledger has the same accounts, each
    history being the concatenation, in input order, of what the transactions
    post to the account, so that the two histories are permutations of one
    another.  When the amounts are whole numbers whose absolute values sum to
    less than 2^53, every account has the same balance before and after the
    permutation.  Distinct dates are not needed. *)
Theorem ledger_deterministic_and_order_b64
  (fts fts' : list Binary64.Transaction) (ts ts' : list Transaction) :
  Permutation fts fts' ->
  Permutation ts ts' ->
  totalAmount ts < 2 ^ 53 ->
  (exists l l',
     Binary64.deriveLedgerTwice fts = Ok (l, l)
     /\ Binary64.deriveLedger fts' = Ok l'
     /\ Forall2 (fun a a' =>
                   Binary64.la_code a' = Binary64.la_code a
                   /\ Binary64.la_name a' = Binary64.la_name a
                   /\ Binary64.la_type a' = Binary64.la_type a
                   /\ Binary64.la_entries a
                      = flat_map (Binary64.historyOf (Binary64.la_code a)) fts
                   /\ Binary64.la_entries a'
                      = flat_map (Binary64.historyOf (Binary64.la_code a)) fts'
                   /\ Permutation (Binary64.la_entries a) (Binary64.la_entries a'))
          l l')
  /\ (exists l l',
        Binary64.deriveLedger (map embedTransaction ts) = Ok l
        /\ Binary64.deriveLedger (map embedTransaction ts') = Ok l'
        /\ Forall2 (fun a a' =>
                      Binary64.la_code a' = Binary64.la_code a
                      /\ Binary64.la_balance a' = Binary64.la_balance a
                      /\ PrimFloat.eqb (Binary64.la_balance a') (Binary64.la_balance a)
                         = true)
             l l').
Proof.
  intros Hfperm Hperm Hbound. split.
  - unfold Binary64.deriveLedgerTwice.
    rewrite (deriveLedger_b64 fts), (deriveLedger_b64 fts'). cbn [bind].
    eexists _, _. split; [reflexivity |]. split; [reflexivity |].
    apply Forall2_map_map. intros kv _.
    cbn [Binary64.la_code Binary64.la_name Binary64.la_type Binary64.la_entries].
    repeat split. now apply Permutation_flat_map.
  - assert (Hbound' : totalAmount ts' < 2 ^ 53)
      by now rewrite (totalAmount_perm ts ts' Hperm).
    rewrite (deriveLedger_b64_embed ts Hbound), (deriveLedger_b64_embed ts' Hbound').
    eexists _, _. split; [reflexivity |]. split; [reflexivity |].
    apply Forall2_map_map. intros kv _.
    cbn [embedAccount Binary64.la_code Binary64.la_balance].
    assert (Heq : la_balance (accountView (snd kv) (postings (generateJournal ts')))
                  = la_balance (accountView (snd kv) (postings (generateJournal ts)))).
    { rewrite !accountView_generateJournal. cbn [la_balance].
      symmetry. now apply sumOver_perm. }
    rewrite Heq. repeat split.
    apply eqb_ofZ_refl, accountView_safe, Hbound.
Qed.

Lemma ledger_deterministic_and_order_b64_witness :
  let a := Binary64.mkTx "a" "2025-01-01" Binary64.d01 income paid in
  let b := Binary64.mkTx "b" "2025-01-02" Binary64.d02 income paid in
  let c := Binary64.mkTx "c" "2025-01-03" Binary64.d03 income unpaid in
  Permutation [a; b; c] [b; a; c]
  /\ Permutation [cashSale; creditPurchase] [creditPurchase; cashSale]
  /\ totalAmount [cashSale; creditPurchase] < 2 ^ 53
  /\ (exists l l',
        Binary64.deriveLedgerTwice [a; b; c] = Ok (l, l)
        /\ Binary64.deriveLedger [b; a; c] = Ok l'
        /\ Forall2 (fun x x' =>
                      Binary64.la_code x' = Binary64.la_code x
                      /\ Binary64.la_name x' = Binary64.la_name x
                      /\ Binary64.la_type x' = Binary64.la_type x
                      /\ Binary64.la_entries x
                         = flat_map (Binary64.historyOf (Binary64.la_code x)) [a; b; c]
                      /\ Binary64.la_entries x'
                         = flat_map (Binary64.historyOf (Binary64.la_code x)) [b; a; c]
                      /\ Permutation (Binary64.la_entries x) (Binary64.la_entries x'))
             l l')
  /\ (exists l l',
        Binary64.deriveLedger (map embedTransaction [cashSale; creditPurchase]) = Ok l
        /\ Binary64.deriveLedger (map embedTransaction [creditPurchase; cashSale])
           = Ok l'
        /\ Forall2 (fun x x' =>
                      Binary64.la_code x' = Binary64.la_code x
                      /\ Binary64.la_balance x' = Binary64.la_balance x
                      /\ PrimFloat.eqb (Binary64.la_balance x') (Binary64.la_balance x)
                         = true)
             l l').
Proof.
  cbv zeta.
  pose (a := Binary64.mkTx "a" "2025-01-01" Binary64.d01 income paid).
  pose (b := Binary64.mkTx "b" "2025-01-02" Binary64.d02 income paid).
  pose (c := Binary64.mkTx "c" "2025-01-03" Binary64.d03 income unpaid).
  split; [exact (perm_swap b a [c]) |].
  split; [exact (perm_swap creditPurchase cashSale []) |].
  split; [reflexivity |].
  exact (ledger_deterministic_and_order_b64 [a; b; c] [b; a; c]
           [cashSale; creditPurchase] [creditPurchase; cashSale]
           (perm_swap b a [c]) (perm_swap creditPurchase cashSale []) eq_refl).
Defined.

(* ================================================================== *)
(** * Journals of whole amounts: trial balance and concatenation *)

Lemma journalWeight_app (j1 j2 : list JournalEntry) :
  journalWeight (j1 ++ j2) = journalWeight j1 + journalWeight j2.
Proof.
  unfold journalWeight, linesOf. now rewrite flat_map_app, sumOver_app.
Qed.

Lemma journalWeight_nonneg (journal : list JournalEntry) : 0 <= journalWeight journal.
Proof. apply sumOver_nonneg', lineWeight_nonneg. Qed.

Lemma generateLedger_embed_weight (journal : list JournalEntry) :
  journalWeight journal < 2 ^ 53 ->
  Binary64.generateLedger (map embedEntry journal)
  = mapCompletion (map embedAccount) (generateLedger journal).
Proof.
  intros Hbound. apply generateLedger_embed. intros k.
  pose proof (weightAt_le_total k (linesOf journal)). unfold journalWeight in Hbound.
  lia.
Qed.

Lemma generateLedger_embed_inv (journal : list JournalEntry)
  (fl : list Binary64.LedgerAccount) :
  journalWeight journal < 2 ^ 53 ->
  Binary64.generateLedger (map embedEntry journal) = Ok fl ->
  exists l, generateLedger journal = Ok l /\ fl = map embedAccount l.
Proof.
  intros Hbound. rewrite (generateLedger_embed_weight journal Hbound).
  destruct (generateLedger journal) as [l | err]; cbn [mapCompletion];
    [| discriminate].
  intros [= <-]. now exists l.
Qed.

Lemma activeAccount_embed (l : list LedgerAccount) (c : string) :
  Binary64.activeAccount (map embedAccount l) c
  = option_map embedAccount (activeAccount l c).
Proof.
  unfold Binary64.activeAccount, activeAccount.
  induction l as [| a l IH]; [reflexivity |].
  cbn [map find embedAccount Binary64.la_code].
  destruct (String.eqb (la_code a) c); [reflexivity | exact IH].
Qed.

Lemma balanceOfCode_embed (l : list LedgerAccount) (c : string) :
  Binary64.balanceOfCode (map embedAccount l) c = ofZ (balanceOfCode l c).
Proof.
  unfold Binary64.balanceOfCode, balanceOfCode. rewrite activeAccount_embed.
  destruct (activeAccount l c); reflexivity.
Qed.

Lemma historyOfCode_embed (l : list LedgerAccount) (c : string) :
  Binary64.historyOfCode (map embedAccount l) c
  = map embedLedgerEntry (historyOfCode l c).
Proof.
  unfold Binary64.historyOfCode, historyOfCode. rewrite activeAccount_embed.
  destruct (activeAccount l c); reflexivity.
Qed.

(** The balance of any one account stays within what was posted to it. *)
Lemma balanceOfCode_bound (journal : list JournalEntry) (l : list LedgerAccount)
  (c : string) :
  generateLedger journal = Ok l ->
  Z.abs (balanceOfCode l c) <= weightAt c (linesOf journal).
Proof.
  rewrite generateLedger_cases.
  destruct (plainAccountIds journal); [| discriminate]. intros [= <-].
  destruct (JsObject.getOwn CHART_OF_ACCOUNTS c) as [acc |] eqn:Hget.
  - rewrite (balanceOfCode_ledgerViews _ _ _ Hget). apply abs_view_balance.
  - destruct (noAccount_ledgerViews journal c Hget) as [-> _].
    pose proof (weightAt_nonneg c (linesOf journal)). cbn [Z.abs]. lia.
Qed.

(** Lines naming different accounts weigh on different accounts. *)
Lemma chart_weights (ls : list JournalEntryLine) :
  weightAt "101" ls + weightAt "102" ls + weightAt "303" ls + weightAt "501" ls
  + weightAt "201" ls + weightAt "301" ls + weightAt "302" ls + weightAt "401" ls
  <= sumOver lineWeight ls.
Proof.
  unfold weightAt. induction ls as [| l ls IH]; [cbn; lia |].
  cbn [filter sumOver]. pose proof (lineWeight_nonneg l) as Hl.
  repeat match goal with
         | |- context [String.eqb (accountId l) ?c] =>
             destruct (String.eqb_spec (accountId l) c) as [Heq | _];
             [try rewrite Heq;
              repeat match goal with
                     | |- context [String.eqb ?a ?b] =>
                         let v := eval vm_compute in (String.eqb a b) in
                         change (String.eqb a b) with v
                     end;
              cbv iota; cbn [sumOver]; lia |]
         end.
  cbv iota. lia.
Qed.

(** X3.  Trial balance.  For a journal of whole amounts whose absolute
    debits and credits sum to less than 2^53, every line naming a chart
    account and every entry having equal debit and credit totals, the ledger
    [generateLedger] returns has its debit-normal balances (101, 102, 303,
    501) adding up, left to right in binary64, to the same number as its
    credit-normal balances (201, 301, 302, 401). *)
Theorem ledger_trial_balance_b64 (journal : list JournalEntry)
  (fl : list Binary64.LedgerAccount) :
  journalWeight journal < 2 ^ 53 ->
  Binary64.generateLedger (map embedEntry journal) = Ok fl ->
  postsToChartOnly journal = true ->
  forallb balancedEntry journal = true ->
  PrimFloat.add
    (PrimFloat.add
       (PrimFloat.add (Binary64.balanceOfCode fl "101") (Binary64.balanceOfCode fl "102"))
       (Binary64.balanceOfCode fl "303"))
    (Binary64.balanceOfCode fl "501")
  = PrimFloat.add
      (PrimFloat.add
         (PrimFloat.add (Binary64.balanceOfCode fl "201") (Binary64.balanceOfCode fl "301"))
         (Binary64.balanceOfCode fl "302"))
      (Binary64.balanceOfCode fl "401").
Proof.
  intros Hbound Hfl Hchart Hbal.
  destruct (generateLedger_embed_inv journal fl Hbound Hfl) as (l & Hl & ->).
  pose proof (trial_balance_exact journal l Hl Hchart Hbal) as Htb.
  pose proof (chart_weights (linesOf journal)) as Hw.
  pose proof (fun c => balanceOfCode_bound journal l c Hl) as Hb.
  pose proof (Hb "101"). pose proof (Hb "102"). pose proof (Hb "303").
  pose proof (Hb "501"). pose proof (Hb "201"). pose proof (Hb "301").
  pose proof (Hb "302"). pose proof (Hb "401").
  pose proof (weightAt_nonneg "101" (linesOf journal)).
  pose proof (weightAt_nonneg "102" (linesOf journal)).
  pose proof (weightAt_nonneg "303" (linesOf journal)).
  pose proof (weightAt_nonneg "501" (linesOf journal)).
  pose proof (weightAt_nonneg "201" (linesOf journal)).
  pose proof (weightAt_nonneg "301" (linesOf journal)).
  pose proof (weightAt_nonneg "302" (linesOf journal)).
  pose proof (weightAt_nonneg "401" (linesOf journal)).
  unfold journalWeight in Hbound.
  rewrite !balanceOfCode_embed.
  rewrite !add_exact by (unfold safeInteger; lia).
  f_equal. exact Htb.
Qed.

Lemma ledger_trial_balance_b64_witness :
  let journal :=
    [mkEntry "e1" [mkLine "303" 40 0; mkLine "101" 0 40];
     mkEntry "e2" [mkLine "101" 100 0; mkLine "301" 0 60; mkLine "401" 0 40]] in
  exists fl,
    Binary64.generateLedger (map embedEntry journal) = Ok fl
    /\ Binary64.balanceOfCode fl "101" = ofZ 60
    /\ Binary64.balanceOfCode fl "303" = ofZ 40
    /\ PrimFloat.add
         (PrimFloat.add
            (PrimFloat.add (Binary64.balanceOfCode fl "101")
               (Binary64.balanceOfCode fl "102"))
            (Binary64.balanceOfCode fl "303"))
         (Binary64.balanceOfCode fl "501")
       = PrimFloat.add
           (PrimFloat.add
              (PrimFloat.add (Binary64.balanceOfCode fl "201")
                 (Binary64.balanceOfCode fl "301"))
              (Binary64.balanceOfCode fl "302"))
           (Binary64.balanceOfCode fl "401").
Proof.
  cbv zeta. eexists. split; [vm_compute; reflexivity |].
  split; [vm_compute; reflexivity |]. split; [vm_compute; reflexivity |].
  apply (ledger_trial_balance_b64
           [mkEntry "e1" [mkLine "303" 40 0; mkLine "101" 0 40];
            mkEntry "e2" [mkLine "101" 100 0; mkLine "301" 0 60; mkLine "401" 0 40]]);
    [reflexivity | vm_compute; reflexivity | reflexivity | reflexivity].
Defined.

(** X4.  For journals of whole amounts whose absolute debits and credits
    sum to less than 2^53: when [generateLedger] returns on [j1 ++ j2] it
    returns on [j1] and on [j2], and for every account code the balance is the
    binary64 sum of the two balances and the history is the history of [j1]
    followed by that of [j2]. *)
Theorem ledger_of_concatenated_journals_b64 (j1 j2 : list JournalEntry)
  (fl : list Binary64.LedgerAccount) :
  journalWeight (j1 ++ j2) < 2 ^ 53 ->
  Binary64.generateLedger (map embedEntry (j1 ++ j2)) = Ok fl ->
  exists fl1 fl2,
    Binary64.generateLedger (map embedEntry j1) = Ok fl1
    /\ Binary64.generateLedger (map embedEntry j2) = Ok fl2
    /\ forall c,
         Binary64.balanceOfCode fl c
         = PrimFloat.add (Binary64.balanceOfCode fl1 c) (Binary64.balanceOfCode fl2 c)
         /\ Binary64.historyOfCode fl c
            = Binary64.historyOfCode fl1 c ++ Binary64.historyOfCode fl2 c.
Proof.
  intros Hbound Hfl.
  destruct (generateLedger_embed_inv _ fl Hbound Hfl) as (l & Hl & ->).
  destruct (concatenated_journals_exact j1 j2 l Hl) as (l1 & l2 & H1 & H2 & Hc).
  rewrite journalWeight_app in Hbound.
  pose proof (journalWeight_nonneg j1). pose proof (journalWeight_nonneg j2).
  exists (map embedAccount l1), (map embedAccount l2).
  rewrite !generateLedger_embed_weight by lia. rewrite H1, H2.
  split; [reflexivity |]. split; [reflexivity |]. intros c.
  destruct (Hc c) as [Hbalance Hhistory].
  rewrite !balanceOfCode_embed, !historyOfCode_embed, Hhistory, map_app.
  split; [| reflexivity].
  pose proof (balanceOfCode_bound j1 l1 c H1).
  pose proof (balanceOfCode_bound j2 l2 c H2).
  pose proof (weightAt_le_total c (linesOf j1)).
  pose proof (weightAt_le_total c (linesOf j2)).
  unfold journalWeight in *.
  rewrite add_exact by (unfold safeInteger; lia). now rewrite Hbalance.
Qed.

Lemma ledger_of_concatenated_journals_b64_witness :
  let j1 := [mkEntry "e1" [mkLine "101" 5 0; mkLine "401" 0 5]] in
  let j2 := [mkEntry "e2" [mkLine "501" 2 0; mkLine "101" 0 2]] in
  exists fl fl1 fl2,
    Binary64.generateLedger (map embedEntry (j1 ++ j2)) = Ok fl
    /\ Binary64.generateLedger (map embedEntry j1) = Ok fl1
    /\ Binary64.generateLedger (map embedEntry j2) = Ok fl2
    /\ Binary64.balanceOfCode fl "101" = ofZ 3
    /\ forall c,
         Binary64.balanceOfCode fl c
         = PrimFloat.add (Binary64.balanceOfCode fl1 c) (Binary64.balanceOfCode fl2 c)
         /\ Binary64.historyOfCode fl c
            = Binary64.historyOfCode fl1 c ++ Binary64.historyOfCode fl2 c.
Proof.
  cbv zeta.
  destruct (ledger_of_concatenated_journals_b64
              [mkEntry "e1" [mkLine "101" 5 0; mkLine "401" 0 5]]
              [mkEntry "e2" [mkLine "501" 2 0; mkLine "101" 0 2]]
              _ eq_refl eq_refl) as (fl1 & fl2 & H1 & H2 & H).
  eexists _, fl1, fl2. split; [reflexivity |].
  split; [exact H1 |]. split; [exact H2 |]. split; [vm_compute; reflexivity |].
  exact H.
Defined.

(* ================================================================== *)
(** * Optimistic updates on binary64 numbers *)

Lemma markAsPaidUpdate_embed (id : string) (os : list TransactionObject) :
  Binary64.markAsPaidUpdate id (map embedObject os)
  = map embedObject (markAsPaidUpdate id os).
Proof.
  unfold Binary64.markAsPaidUpdate, markAsPaidUpdate. rewrite !map_map.
  apply map_ext. intros o. cbn [embedObject Binary64.o_id].
  destruct (String.eqb (o_id o) id); reflexivity.
Qed.

Lemma deleteUpdate_embed (id : string) (os : list TransactionObject) :
  Binary64.deleteUpdate id (map embedObject os)
  = map embedObject (deleteUpdate id os).
Proof.
  unfold Binary64.deleteUpdate, deleteUpdate.
  now rewrite (filter_map_embed embedObject).
Qed.

Lemma totalAmount_markPaid (id : string) (ts : list Transaction) :
  totalAmount (markPaid id ts) = totalAmount ts.
Proof.
  unfold totalAmount, markPaid. rewrite sumOver_map.
  apply sumOver_ext. intros t _. destruct (String.eqb (tx_id t) id); reflexivity.
Qed.

Lemma totalAmount_filter (p : Transaction -> bool) (ts : list Transaction) :
  totalAmount (filter p ts) <= totalAmount ts.
Proof.
  unfold totalAmount. apply sumOver_filter_le. intros t. apply Z.abs_nonneg.
Qed.

Lemma balanceOfObjects_embed (c : string) (ts : list Transaction) :
  totalAmount ts < 2 ^ 53 ->
  Binary64.balanceOfObjects c (map embedObject (map toObject ts))
  = option_map ofZ (balanceIn c ts).
Proof.
  intros Hbound. unfold Binary64.balanceOfObjects, balanceIn.
  rewrite <- toObject_embed.
  change (Binary64.generateJournalJs (map Binary64.toObject (map embedTransaction ts)))
    with (Binary64.generateJournal (map embedTransaction ts)).
  rewrite (deriveLedger_embed ts Hbound), generateLedger_generateJournal.
  rewrite activeAccount_embed. unfold activeAccount.
  destruct (find _ (ledgerViews (generateJournal ts))); reflexivity.
Qed.

(** The four kinds of amount, taken in absolute value, make up the total. *)
Lemma four_abs_sums (ts : list Transaction) :
  sumOver (fun t => Z.abs (paidIncome t)) ts
  + sumOver (fun t => Z.abs (paidExpense t)) ts
  + sumOver (fun t => Z.abs (unpaidIncome t)) ts
  + sumOver (fun t => Z.abs (unpaidExpense t)) ts
  = totalAmount ts.
Proof.
  unfold totalAmount. rewrite <- !sumOver_plus. apply sumOver_ext. intros t _.
  unfold paidIncome, paidExpense, unpaidIncome, unpaidExpense.
  destruct (tx_type t), (tx_payment_status t); lia.
Qed.

Lemma abs_whenId (id : string) (f : Transaction -> Z) (ts : list Transaction) :
  Z.abs (sumOver (whenId id f) ts) <= sumOver (fun t => Z.abs (f t)) ts.
Proof.
  etransitivity; [apply abs_sumOver |]. apply sumOver_le. intros t.
  unfold whenId. destruct (String.eqb (tx_id t) id); lia.
Qed.

(** The unpaid income, and the unpaid expense, carrying a given id. *)
Lemma sum_unpaid_income_of_id (id : string) (ts : list Transaction) :
  totalAmount ts < 2 ^ 53 ->
  Binary64.reduce_sum Binary64.amountOf
    (filter (fun t => String.eqb (Binary64.o_id t) id
                      && (Binary64.isType "income" t && Binary64.isStatus "unpaid" t))
       (map embedObject (map toObject ts)))
  = ofZ (sumOver (whenId id unpaidIncome) ts).
Proof.
  apply (typed_sum_embed _ _ tx_amount); [exact amount_add | intros; lia |].
  intros t. unfold whenId.
  destruct t as [i ? ? ? [] [] ?]; cbn; destruct (String.eqb i id); reflexivity.
Qed.

Lemma sum_unpaid_expense_of_id (id : string) (ts : list Transaction) :
  totalAmount ts < 2 ^ 53 ->
  Binary64.reduce_sum Binary64.amountOf
    (filter (fun t => String.eqb (Binary64.o_id t) id
                      && (Binary64.isType "expense" t && Binary64.isStatus "unpaid" t))
       (map embedObject (map toObject ts)))
  = ofZ (sumOver (whenId id unpaidExpense) ts).
Proof.
  apply (typed_sum_embed _ _ tx_amount); [exact amount_add | intros; lia |].
  intros t. unfold whenId.
  destruct t as [i ? ? ? [] [] ?]; cbn; destruct (String.eqb i id); reflexivity.
Qed.

Ltac size_facts id ts :=
  pose proof (four_abs_sums ts);
  pose proof (abs_sumOver paidIncome ts);
  pose proof (abs_sumOver paidExpense ts);
  pose proof (abs_sumOver unpaidIncome ts);
  pose proof (abs_sumOver unpaidExpense ts);
  pose proof (abs_whenId id unpaidIncome ts);
  pose proof (abs_whenId id unpaidExpense ts);
  pose proof (four_sums_bound (markPaid id ts));
  pose proof (totalAmount_markPaid id ts).

(** X10.  On whole amounts whose absolute values sum to less than 2^53,
    marking the transactions with a given id as paid moves their amounts
    between accounts without changing income or expense: in the ledger derived
    after the update Revenue and Expense keep their balances, Accounts
    Receivable is the old balance minus the unpaid income carrying the id,
    Accounts Payable the old balance minus the unpaid expense carrying it, and
    Cash the old balance plus the former minus the latter, all in binary64
    arithmetic. *)
Theorem markAsPaid_ledger_effect_b64 (id : string) (ts : list Transaction) :
  totalAmount ts < 2 ^ 53 ->
  let before := map embedObject (map toObject ts) in
  let after := Binary64.markAsPaidUpdate id before in
  let income :=
    Binary64.reduce_sum Binary64.amountOf
      (filter (fun t => String.eqb (Binary64.o_id t) id
                        && (Binary64.isType "income" t
                            && Binary64.isStatus "unpaid" t)) before) in
  let expense :=
    Binary64.reduce_sum Binary64.amountOf
      (filter (fun t => String.eqb (Binary64.o_id t) id
                        && (Binary64.isType "expense" t
                            && Binary64.isStatus "unpaid" t)) before) in
  exists cashBal ar ap rev exp,
    Binary64.balanceOfObjects CASH before = Some cashBal
    /\ Binary64.balanceOfObjects ACCOUNTS_RECEIVABLE before = Some ar
    /\ Binary64.balanceOfObjects ACCOUNTS_PAYABLE before = Some ap
    /\ Binary64.balanceOfObjects REVENUE before = Some rev
    /\ Binary64.balanceOfObjects EXPENSE before = Some exp
    /\ Binary64.balanceOfObjects REVENUE after = Some rev
    /\ Binary64.balanceOfObjects EXPENSE after = Some exp
    /\ Binary64.balanceOfObjects ACCOUNTS_RECEIVABLE after
       = Some (PrimFloat.sub ar income)
    /\ Binary64.balanceOfObjects ACCOUNTS_PAYABLE after
       = Some (PrimFloat.sub ap expense)
    /\ Binary64.balanceOfObjects CASH after
       = Some (PrimFloat.sub (PrimFloat.add cashBal income) expense).
Proof.
  intros Hbound. cbv zeta.
  rewrite (sum_unpaid_income_of_id id ts Hbound),
    (sum_unpaid_expense_of_id id ts Hbound).
  rewrite markAsPaidUpdate_embed, markAsPaidUpdate_toObject.
  assert (Hbound' : totalAmount (markPaid id ts) < 2 ^ 53)
    by now rewrite totalAmount_markPaid.
  rewrite !(balanceOfObjects_embed _ ts Hbound),
    !(balanceOfObjects_embed _ (markPaid id ts) Hbound').
  destruct (ledger_balances ts) as (H1 & H2 & H3 & _ & H5 & H6).
  destruct (ledger_balances (markPaid id ts)) as (K1 & K2 & K3 & _ & K5 & K6).
  destruct (sums_after_markPaid id ts) as (S1 & S2 & S3 & S4).
  size_facts id ts.
  rewrite S1, S2, S3, S4 in *.
  rewrite H1, H2, H3, H5, H6, K1, K2, K3, K5, K6. cbn [option_map].
  eexists _, _, _, _, _.
  do 5 (split; [reflexivity |]).
  rewrite !sub_exact, !add_exact, ?sub_exact by (unfold safeInteger; lia).
  repeat split; do 2 f_equal; lia.
Qed.

Lemma markAsPaid_ledger_effect_b64_witness :
  let ts := [cashSale; creditPurchase; creditSale] in
  let before := map embedObject (map toObject ts) in
  let after := Binary64.markAsPaidUpdate "t3" before in
  totalAmount ts < 2 ^ 53
  /\ Binary64.balanceOfObjects ACCOUNTS_RECEIVABLE before = Some (ofZ 70000)
  /\ Binary64.balanceOfObjects ACCOUNTS_RECEIVABLE after = Some (ofZ 0)
  /\ Binary64.balanceOfObjects CASH before = Some (ofZ 100000)
  /\ Binary64.balanceOfObjects CASH after = Some (ofZ 170000)
  /\ exists cashBal ar ap rev exp,
       Binary64.balanceOfObjects CASH before = Some cashBal
       /\ Binary64.balanceOfObjects ACCOUNTS_RECEIVABLE before = Some ar
       /\ Binary64.balanceOfObjects ACCOUNTS_PAYABLE before = Some ap
       /\ Binary64.balanceOfObjects REVENUE before = Some rev
       /\ Binary64.balanceOfObjects EXPENSE before = Some exp
       /\ Binary64.balanceOfObjects REVENUE after = Some rev
       /\ Binary64.balanceOfObjects EXPENSE after = Some exp
       /\ Binary64.balanceOfObjects ACCOUNTS_RECEIVABLE after
          = Some (PrimFloat.sub ar (ofZ 70000))
       /\ Binary64.balanceOfObjects ACCOUNTS_PAYABLE after
          = Some (PrimFloat.sub ap (ofZ 0))
       /\ Binary64.balanceOfObjects CASH after
          = Some (PrimFloat.sub (PrimFloat.add cashBal (ofZ 70000)) (ofZ 0)).
Proof.
  cbv zeta. split; [reflexivity |].
  do 4 (split; [vm_compute; reflexivity |]).
  exact (markAsPaid_ledger_effect_b64 "t3" [cashSale; creditPurchase; creditSale]
           eq_refl).
Defined.

(** X11.  On whole amounts whose absolute values sum to less than 2^53,
    after the update of [handleMarkAsPaid] cash-in is the old cash-in plus the
    unpaid income carrying the id, cash-out the old cash-out plus the unpaid
    expense carrying it, and the dashboard's unpaid figure the old one minus
    that unpaid income. *)
Theorem markAsPaid_cash_flow_effect_b64 (id : string) (ts : list Transaction) :
  totalAmount ts < 2 ^ 53 ->
  let before := map embedObject (map toObject ts) in
  let after := Binary64.markAsPaidUpdate id before in
  let income :=
    Binary64.reduce_sum Binary64.amountOf
      (filter (fun t => String.eqb (Binary64.o_id t) id
                        && (Binary64.isType "income" t
                            && Binary64.isStatus "unpaid" t)) before) in
  let expense :=
    Binary64.reduce_sum Binary64.amountOf
      (filter (fun t => String.eqb (Binary64.o_id t) id
                        && (Binary64.isType "expense" t
                            && Binary64.isStatus "unpaid" t)) before) in
  Binary64.cashIn (Binary64.cashFlowOf after)
  = PrimFloat.add (Binary64.cashIn (Binary64.cashFlowOf before)) income
  /\ Binary64.cashOut (Binary64.cashFlowOf after)
     = PrimFloat.add (Binary64.cashOut (Binary64.cashFlowOf before)) expense
  /\ Binary64.unpaidOf after = PrimFloat.sub (Binary64.unpaidOf before) income.
Proof.
  intros Hbound. cbv zeta.
  rewrite (sum_unpaid_income_of_id id ts Hbound),
    (sum_unpaid_expense_of_id id ts Hbound).
  rewrite markAsPaidUpdate_embed, markAsPaidUpdate_toObject.
  assert (Hbound' : totalAmount (markPaid id ts) < 2 ^ 53)
    by now rewrite totalAmount_markPaid.
  unfold Binary64.cashFlowOf, Binary64.unpaidOf.
  cbn [Binary64.cashIn Binary64.cashOut].
  rewrite !(sum_paid_income_embed _ Hbound), !(sum_paid_income_embed _ Hbound'),
    !(sum_paid_expense_embed _ Hbound), !(sum_paid_expense_embed _ Hbound'),
    !(sum_unpaid_income_embed _ Hbound), !(sum_unpaid_income_embed _ Hbound').
  destruct (sums_after_markPaid id ts) as (S1 & S2 & S3 & S4).
  size_facts id ts.
  rewrite S1, S2, S3, S4 in *.
  rewrite !add_exact, sub_exact by (unfold safeInteger; lia).
  repeat split.
Qed.

Lemma markAsPaid_cash_flow_effect_b64_witness :
  let ts := [cashSale; creditPurchase; creditSale] in
  let before := map embedObject (map toObject ts) in
  let after := Binary64.markAsPaidUpdate "t3" before in
  totalAmount ts < 2 ^ 53
  /\ Binary64.cashIn (Binary64.cashFlowOf before) = ofZ 100000
  /\ Binary64.cashIn (Binary64.cashFlowOf after)
     = PrimFloat.add (Binary64.cashIn (Binary64.cashFlowOf before)) (ofZ 70000)
  /\ Binary64.cashOut (Binary64.cashFlowOf after)
     = PrimFloat.add (Binary64.cashOut (Binary64.cashFlowOf before)) (ofZ 0)
  /\ Binary64.unpaidOf after
     = PrimFloat.sub (Binary64.unpaidOf before) (ofZ 70000).
Proof.
  cbv zeta. split; [reflexivity |]. split; [vm_compute; reflexivity |].
  exact (markAsPaid_cash_flow_effect_b64 "t3" [cashSale; creditPurchase; creditSale]
           eq_refl).
Defined.

(** ** Deleting *)

Lemma contribution_bound (nb : NormalBalance) (c : string) (ts : list Transaction) :
  Z.abs (sumOver (contribution nb c) ts) <= totalAmount ts.
Proof.
  rewrite <- view_balance.
  pose proof (abs_view_balance nb c (generateJournal ts)).
  pose proof (weightAt_generateJournal c ts). lia.
Qed.

Lemma filter_toObject (p : TransactionObject -> bool) (ts : list Transaction) :
  filter p (map toObject ts) = map toObject (filter (fun t => p (toObject t)) ts).
Proof. apply filter_map_embed. Qed.

(** X13.  On whole amounts whose absolute values sum to less than 2^53,
    deleting by id lowers each chart account's ledger balance by what the
    deleted transactions alone would have put on it; an account code outside
    the chart has no balance before or after. *)
Theorem deleteUpdate_ledger_effect_b64 (id : string) (ts : list Transaction)
  (c : string) :
  totalAmount ts < 2 ^ 53 ->
  let before := map embedObject (map toObject ts) in
  let after := Binary64.deleteUpdate id before in
  let removed := filter (fun t => String.eqb (Binary64.o_id t) id) before in
  match JsObject.getOwn CHART_OF_ACCOUNTS c with
  | Some _ =>
      exists balance gone,
        Binary64.balanceOfObjects c before = Some balance
        /\ Binary64.balanceOfObjects c removed = Some gone
        /\ Binary64.balanceOfObjects c after = Some (PrimFloat.sub balance gone)
  | None =>
      Binary64.balanceOfObjects c before = None
      /\ Binary64.balanceOfObjects c after = None
  end.
Proof.
  intros Hbound. cbv zeta.
  rewrite deleteUpdate_embed, deleteUpdate_toObject.
  rewrite (filter_map_embed embedObject), filter_toObject.
  cbn [embedObject Binary64.o_id toObject o_id].
  pose proof (totalAmount_filter (fun t => negb (String.eqb (tx_id t) id)) ts) as Hd.
  pose proof (totalAmount_filter (fun t => String.eqb (tx_id t) id) ts) as Hr.
  fold (deleteTransaction id ts) in Hd.
  rewrite !balanceOfObjects_embed by lia.
  rewrite !balanceIn_closed.
  destruct (JsObject.getOwn CHART_OF_ACCOUNTS c) as [acc |]; cbn [option_map];
    [| split; reflexivity].
  eexists _, _. split; [reflexivity |]. split; [reflexivity |].
  pose proof (contribution_bound (normalBalance acc) c ts).
  pose proof (contribution_bound (normalBalance acc) c (deleteTransaction id ts)).
  pose proof (contribution_bound (normalBalance acc) c
                (filter (fun t => String.eqb (tx_id t) id) ts)).
  assert (Hsplit : sumOver (contribution (normalBalance acc) c) (deleteTransaction id ts)
                   = sumOver (contribution (normalBalance acc) c) ts
                     - sumOver (contribution (normalBalance acc) c)
                         (filter (fun t => String.eqb (tx_id t) id) ts)).
  { rewrite sumOver_deleteTransaction, sumOver_filter. reflexivity. }
  rewrite sub_exact by (unfold safeInteger; lia).
  now rewrite Hsplit.
Qed.

Lemma deleteUpdate_ledger_effect_b64_witness :
  let ts := [cashSale; creditPurchase; creditSale] in
  let before := map embedObject (map toObject ts) in
  let after := Binary64.deleteUpdate "t1" before in
  let removed := filter (fun t => String.eqb (Binary64.o_id t) "t1") before in
  totalAmount ts < 2 ^ 53
  /\ Binary64.balanceOfObjects "401" before = Some (ofZ 170000)
  /\ Binary64.balanceOfObjects "401" removed = Some (ofZ 100000)
  /\ Binary64.balanceOfObjects "401" after = Some (ofZ 70000)
  /\ exists balance gone,
       Binary64.balanceOfObjects "401" before = Some balance
       /\ Binary64.balanceOfObjects "401" removed = Some gone
       /\ Binary64.balanceOfObjects "401" after = Some (PrimFloat.sub balance gone).
Proof.
  cbv zeta. split; [reflexivity |].
  do 3 (split; [vm_compute; reflexivity |]).
  exact (deleteUpdate_ledger_effect_b64 "t1" [cashSale; creditPurchase; creditSale]
           "401" eq_refl).
Defined.

(** ** Sales *)

(** X15.  On whole amounts whose absolute values sum to less than 2^53 the
    sales report is produced; total sales is the sum of the amounts of all
    income transactions, paid or not, and equals the cash-in of the cash-flow
    report plus the dashboard's unpaid figure. *)
Theorem total_sales_b64 (ts : list Transaction) :
  totalAmount ts < 2 ^ 53 ->
  let input := map embedObject (map toObject ts) in
  exists s,
    Binary64.totalSalesOf input = Ok s
    /\ s = Binary64.reduce_sum Binary64.amountOf
             (filter (Binary64.isType "income") input)
    /\ s = PrimFloat.add (Binary64.cashIn (Binary64.cashFlowOf input))
             (Binary64.unpaidOf input).
Proof.
  intros Hbound. cbv zeta. unfold Binary64.totalSalesOf.
  rewrite <- toObject_embed.
  change (Binary64.generateJournalJs (map Binary64.toObject (map embedTransaction ts)))
    with (Binary64.generateJournal (map embedTransaction ts)).
  rewrite (deriveLedger_embed ts Hbound). cbn [bind].
  rewrite ledgerMapOf_embed, ledgerMapOf_ledgerViews, toObject_embed.
  destruct (report_reads ts) as (_ & _ & _ & _ & H5 & _).
  pose proof (four_sums_bound ts) as Hfour.
  rewrite balanceOr0_embed by (rewrite H5; unfold safeInteger; lia).
  rewrite H5. eexists. split; [reflexivity |].
  unfold Binary64.cashFlowOf, Binary64.unpaidOf. cbn [Binary64.cashIn].
  rewrite (sum_paid_income_embed ts Hbound), (sum_unpaid_income_embed ts Hbound).
  rewrite add_exact by (unfold safeInteger; lia).
  split; [| reflexivity].
  rewrite (typed_sum_embed Binary64.amountOf (Binary64.isType "income") tx_amount
             (fun t => paidIncome t + unpaidIncome t) ts amount_add);
    [| intros; lia | | exact Hbound].
  - now rewrite sumOver_plus.
  - intros t. destruct t as [? ? ? ? [] [] ?]; cbn; lia.
Qed.

Lemma total_sales_b64_witness :
  let ts := [cashSale; creditPurchase; creditSale] in
  let input := map embedObject (map toObject ts) in
  totalAmount ts < 2 ^ 53
  /\ Binary64.totalSalesOf input = Ok (ofZ 170000)
  /\ exists s,
       Binary64.totalSalesOf input = Ok s
       /\ s = Binary64.reduce_sum Binary64.amountOf
                (filter (Binary64.isType "income") input)
       /\ s = PrimFloat.add (Binary64.cashIn (Binary64.cashFlowOf input))
                (Binary64.unpaidOf input).
Proof.
  cbv zeta. split; [reflexivity |]. split; [vm_compute; reflexivity |].
  exact (total_sales_b64 [cashSale; creditPurchase; creditSale] eq_refl).
Defined.

(* ================================================================== *)
(** * The monthly profit-and-loss table on binary64 numbers *)

Lemma sumOver_le_in {A : Type} (f g : A -> Z) (xs : list A) :
  (forall x, In x xs -> f x <= g x) -> sumOver f xs <= sumOver g xs.
Proof.
  induction xs as [| x xs IH]; intros H; simpl; [lia |].
  pose proof (H x (or_introl eq_refl)).
  assert (sumOver f xs <= sumOver g xs) by (apply IH; intros y Hy; apply H; now right).
  lia.
Qed.

(** Spread over the twelve months, no weight is counted twice. *)
Lemma month_weights (env : DateEnv) (os : list TransactionObject)
  (w : TransactionObject -> Z) :
  (forall t, 0 <= w t) ->
  datesInRange env os = true ->
  sumOver (fun k => sumOver (fun t => if inMonth env k t then w t else 0) os)
    monthIndices
  <= sumOver w os.
Proof.
  intros Hw Hdates.
  rewrite (sumOver_swap (fun k t => if inMonth env k t then w t else 0)).
  apply sumOver_le_in. intros t Ht.
  rewrite inMonth_partition.
  - specialize (Hw t). destruct (inCurrentYear env t); lia.
  - unfold datesInRange in Hdates.
    exact (proj1 (forallb_forall _ _) Hdates t Ht).
Qed.

Lemma kinds_exclusive (t : TransactionObject) :
  0 <= incomeWeight t /\ 0 <= expenseWeight t
  /\ incomeWeight t + expenseWeight t <= Z.abs (o_amount t).
Proof.
  unfold incomeWeight, expenseWeight, isType.
  destruct (String.eqb_spec (o_type t) "income") as [Hi | _];
    destruct (String.eqb_spec (o_type t) "expense") as [He | _];
    try (rewrite Hi in He; discriminate); lia.
Qed.

Lemma abs_monthly (env : DateEnv) (ty : string) (os : list TransactionObject) (k : Z) :
  Z.abs (reduce_sum amountOf (filter (isType ty) (filter (inMonth env k) os)))
  <= sumOver (fun t => if inMonth env k t
                       then (if isType ty t then Z.abs (o_amount t) else 0) else 0) os.
Proof.
  rewrite monthly_sum. etransitivity; [apply abs_sumOver |].
  apply sumOver_le. intros t. unfold amountOf, Number.
  destruct (inMonth env k t), (isType ty t); lia.
Qed.

Lemma monthly_within (env : DateEnv) (os : list TransactionObject) (k : Z) :
  sumOver (fun t => if inMonth env k t then incomeWeight t + expenseWeight t else 0) os
  <= totalOfObjects os.
Proof.
  unfold totalOfObjects. apply sumOver_le. intros t.
  pose proof (kinds_exclusive t). destruct (inMonth env k t); lia.
Qed.

Lemma monthly_income_expense (env : DateEnv) (os : list TransactionObject) (k : Z) :
  Z.abs (reduce_sum amountOf (filter (isType "income") (filter (inMonth env k) os)))
  + Z.abs (reduce_sum amountOf (filter (isType "expense") (filter (inMonth env k) os)))
  <= sumOver (fun t => if inMonth env k t
                       then incomeWeight t + expenseWeight t else 0) os.
Proof.
  pose proof (abs_monthly env "income" os k) as Hi.
  pose proof (abs_monthly env "expense" os k) as He.
  etransitivity; [apply Z.add_le_mono; eassumption |].
  rewrite <- sumOver_plus. apply Z.eq_le_incl, sumOver_ext. intros t _.
  unfold incomeWeight, expenseWeight. destruct (inMonth env k t); lia.
Qed.

Lemma filter_objects_embed (p : TransactionObject -> bool)
  (q : Binary64.TransactionObject -> bool) (os : list TransactionObject) :
  (forall o, q (embedObject o) = p o) ->
  filter q (map embedObject os) = map embedObject (filter p os).
Proof.
  intros Hpq. rewrite (filter_map_embed embedObject). f_equal.
  apply filter_ext. exact Hpq.
Qed.

Lemma object_sum_embed (os : list TransactionObject) :
  totalOfObjects os < 2 ^ 53 ->
  Binary64.reduce_sum Binary64.amountOf (map embedObject os)
  = ofZ (reduce_sum amountOf os).
Proof.
  intros Hbound. apply reduce_sum_embed; [reflexivity | exact Hbound].
Qed.

Lemma totalOfObjects_filter (p : TransactionObject -> bool) (os : list TransactionObject) :
  totalOfObjects (filter p os) <= totalOfObjects os.
Proof.
  unfold totalOfObjects. apply sumOver_filter_le. intros o. apply Z.abs_nonneg.
Qed.

Lemma monthReport_embed (env : DateEnv) (os : list TransactionObject) (i : Z) :
  totalOfObjects os < 2 ^ 53 ->
  Binary64.monthReport env (map embedObject os) i
  = embedMonthReport (ProfitLoss.monthReport env os i).
Proof.
  intros Hbound. unfold Binary64.monthReport, ProfitLoss.monthReport, embedMonthReport.
  cbn [ProfitLoss.month ProfitLoss.r_income ProfitLoss.r_expense ProfitLoss.r_profit].
  set (k := Z.rem (nowMonth env - i + 12) 12).
  rewrite (filter_objects_embed (inMonth env k) (Binary64.inMonth env k))
    by reflexivity.
  rewrite !(filter_objects_embed (isType "income") (Binary64.isType "income")),
    !(filter_objects_embed (isType "expense") (Binary64.isType "expense"))
    by reflexivity.
  pose proof (totalOfObjects_filter (inMonth env k) os).
  pose proof (totalOfObjects_filter (isType "income") (filter (inMonth env k) os)).
  pose proof (totalOfObjects_filter (isType "expense") (filter (inMonth env k) os)).
  rewrite !object_sum_embed by lia.
  pose proof (monthly_income_expense env os k).
  pose proof (monthly_within env os k).
  rewrite sub_exact by (unfold safeInteger; lia).
  reflexivity.
Qed.

Lemma profitLossData_embed (env : DateEnv) (os : list TransactionObject) :
  totalOfObjects os < 2 ^ 53 ->
  Binary64.profitLossData env (map embedObject os)
  = map embedMonthReport (ProfitLoss.profitLossData env os).
Proof.
  intros Hbound. unfold Binary64.profitLossData, ProfitLoss.profitLossData.
  rewrite map_rev, map_map. f_equal. apply map_ext. intros i.
  now apply monthReport_embed.
Qed.

Lemma income_column_within (env : DateEnv) (os : list TransactionObject) :
  monthInRange (nowMonth env) = true ->
  datesInRange env os = true ->
  sumOver (fun r => Z.abs (ProfitLoss.r_income r)) (ProfitLoss.profitLossData env os)
  <= totalOfObjects os.
Proof.
  intros Hnow Hdates. unfold ProfitLoss.profitLossData.
  rewrite sumOver_rev, sumOver_map.
  cbn [ProfitLoss.monthReport ProfitLoss.r_income].
  rewrite (rotate_sum
             (fun k => Z.abs (reduce_sum amountOf
                                (filter (isType "income") (filter (inMonth env k) os))))
             _ Hnow).
  etransitivity; [apply sumOver_le; intros k; apply abs_monthly |].
  etransitivity; [apply (month_weights env os incomeWeight);
                  [intros t; apply kinds_exclusive | exact Hdates] |].
  unfold totalOfObjects. apply sumOver_le. intros t.
  pose proof (kinds_exclusive t). lia.
Qed.

Lemma expense_column_within (env : DateEnv) (os : list TransactionObject) :
  monthInRange (nowMonth env) = true ->
  datesInRange env os = true ->
  sumOver (fun r => Z.abs (ProfitLoss.r_expense r)) (ProfitLoss.profitLossData env os)
  <= totalOfObjects os.
Proof.
  intros Hnow Hdates. unfold ProfitLoss.profitLossData.
  rewrite sumOver_rev, sumOver_map.
  cbn [ProfitLoss.monthReport ProfitLoss.r_expense].
  rewrite (rotate_sum
             (fun k => Z.abs (reduce_sum amountOf
                                (filter (isType "expense") (filter (inMonth env k) os))))
             _ Hnow).
  etransitivity; [apply sumOver_le; intros k; apply abs_monthly |].
  etransitivity; [apply (month_weights env os expenseWeight);
                  [intros t; apply kinds_exclusive | exact Hdates] |].
  unfold totalOfObjects. apply sumOver_le. intros t.
  pose proof (kinds_exclusive t). lia.
Qed.

Lemma profit_column_within (env : DateEnv) (os : list TransactionObject) :
  monthInRange (nowMonth env) = true ->
  datesInRange env os = true ->
  sumOver (fun r => Z.abs (ProfitLoss.r_profit r)) (ProfitLoss.profitLossData env os)
  <= totalOfObjects os.
Proof.
  intros Hnow Hdates. unfold ProfitLoss.profitLossData.
  rewrite sumOver_rev, sumOver_map.
  cbn [ProfitLoss.monthReport ProfitLoss.r_profit].
  rewrite (rotate_sum
             (fun k => Z.abs (reduce_sum amountOf
                                (filter (isType "income") (filter (inMonth env k) os))
                              - reduce_sum amountOf
                                  (filter (isType "expense") (filter (inMonth env k) os))))
             _ Hnow).
  etransitivity.
  { apply sumOver_le. intros k.
    pose proof (monthly_income_expense env os k) as Hk.
    instantiate (1 := fun k => sumOver (fun t => if inMonth env k t
                                                 then incomeWeight t + expenseWeight t
                                                 else 0) os).
    cbv beta. lia. }
  etransitivity; [apply (month_weights env os
                           (fun t => incomeWeight t + expenseWeight t));
                  [intros t; pose proof (kinds_exclusive t); lia | exact Hdates] |].
  unfold totalOfObjects. apply sumOver_le. intros t.
  pose proof (kinds_exclusive t). lia.
Qed.

(** X19.  The monthly profit-and-loss table has twelve rows, the first for
    the current month and each next one for the month before, wrapping around
    within the current year.  When every date's month index is in 0 .. 11 and
    the amounts are whole numbers whose absolute values sum to less than 2^53,
    the footer's income total is the amount of all income transactions dated
    in the current year, its expense total that of all such expense
    transactions, paid or not, and its profit total is the income total minus
    the expense total. *)
Theorem profit_loss_totals_b64 (env : DateEnv) (os : list TransactionObject) :
  monthInRange (nowMonth env) = true ->
  datesInRange env os = true ->
  totalOfObjects os < 2 ^ 53 ->
  let rows := Binary64.profitLossData env (map embedObject os) in
  map Binary64.month rows
  = map (fun k => nth_error months (Z.to_nat ((nowMonth env - k) mod 12)))
      monthIndices
  /\ Binary64.totalIncome rows
     = ofZ (sumOver (amountWhen (fun t => isType "income" t && inCurrentYear env t)) os)
  /\ Binary64.totalExpense rows
     = ofZ (sumOver (amountWhen (fun t => isType "expense" t && inCurrentYear env t)) os)
  /\ Binary64.totalProfit rows
     = PrimFloat.sub (Binary64.totalIncome rows) (Binary64.totalExpense rows).
Proof.
  intros Hnow Hdates Hbound. cbv zeta.
  rewrite (profitLossData_embed env os Hbound).
  destruct (profit_loss_totals_exact env os Hnow Hdates) as (Hm & Hi & He & Hp).
  pose proof (income_column_within env os Hnow Hdates) as Bi.
  pose proof (expense_column_within env os Hnow Hdates) as Be.
  pose proof (profit_column_within env os Hnow Hdates) as Bp.
  unfold Binary64.totalIncome, Binary64.totalExpense, Binary64.totalProfit.
  rewrite (reduce_sum_embed embedMonthReport Binary64.r_income ProfitLoss.r_income)
    by (reflexivity || lia).
  rewrite (reduce_sum_embed embedMonthReport Binary64.r_expense ProfitLoss.r_expense)
    by (reflexivity || lia).
  rewrite (reduce_sum_embed embedMonthReport Binary64.r_profit ProfitLoss.r_profit)
    by (reflexivity || lia).
  fold (ProfitLoss.totalIncome (ProfitLoss.profitLossData env os)).
  fold (ProfitLoss.totalExpense (ProfitLoss.profitLossData env os)).
  fold (ProfitLoss.totalProfit (ProfitLoss.profitLossData env os)).
  assert (Ai : Z.abs (ProfitLoss.totalIncome (ProfitLoss.profitLossData env os))
               <= totalOfObjects os).
  { unfold ProfitLoss.totalIncome. rewrite reduce_sum_sumOver.
    etransitivity; [apply abs_sumOver | exact Bi]. }
  assert (Ae : Z.abs (ProfitLoss.totalExpense (ProfitLoss.profitLossData env os))
               <= totalOfObjects os).
  { unfold ProfitLoss.totalExpense. rewrite reduce_sum_sumOver.
    etransitivity; [apply abs_sumOver | exact Be]. }
  assert (Ap : Z.abs (ProfitLoss.totalProfit (ProfitLoss.profitLossData env os))
               <= totalOfObjects os).
  { unfold ProfitLoss.totalProfit. rewrite reduce_sum_sumOver.
    etransitivity; [apply abs_sumOver | exact Bp]. }
  split; [| split; [now rewrite Hi | split; [now rewrite He |]]].
  - rewrite map_map. exact Hm.
  - rewrite sub_exact by (unfold safeInteger; lia). now rewrite Hp.
Qed.

Lemma profit_loss_totals_b64_witness :
  let os := map toObject [cashSale; creditPurchase; creditSale] in
  let rows := Binary64.profitLossData januaryEnv (map embedObject os) in
  totalOfObjects os < 2 ^ 53
  /\ Binary64.totalIncome rows = ofZ 170000
  /\ Binary64.totalExpense rows = ofZ 30000
  /\ Binary64.totalProfit rows = ofZ 140000
  /\ map Binary64.month rows
     = map (fun k => nth_error months (Z.to_nat ((nowMonth januaryEnv - k) mod 12)))
         monthIndices
  /\ Binary64.totalIncome rows
     = ofZ (sumOver (amountWhen
                       (fun t => isType "income" t && inCurrentYear januaryEnv t)) os)
  /\ Binary64.totalExpense rows
     = ofZ (sumOver (amountWhen
                       (fun t => isType "expense" t && inCurrentYear januaryEnv t)) os)
  /\ Binary64.totalProfit rows
     = PrimFloat.sub (Binary64.totalIncome rows) (Binary64.totalExpense rows).
Proof.
  cbv zeta. split; [reflexivity |].
  do 3 (split; [vm_compute; reflexivity |]).
  exact (profit_loss_totals_b64 januaryEnv
           (map toObject [cashSale; creditPurchase; creditSale])
           eq_refl eq_refl eq_refl).
Defined.

(* ================================================================== *)
(** * The aggregator on binary64 numbers and on integers *)

(** X23.  For a journal of whole amounts whose absolute debits and credits
    sum to less than 2^53, [generateLedger] on binary64 numbers does what it
    does on integers: it throws on the same journals, and otherwise returns
    the same accounts with the same histories, every balance being the exact
    integer balance. *)
Theorem generateLedger_on_whole_amounts (journal : list JournalEntry) :
  journalWeight journal < 2 ^ 53 ->
  Binary64.generateLedger (map embedEntry journal)
  = match generateLedger journal with
    | Ok l => Ok (map embedAccount l)
    | Throw e => Throw e
    end.
Proof.
  intros Hbound. rewrite (generateLedger_embed_weight journal Hbound).
  reflexivity.
Qed.

Lemma generateLedger_on_whole_amounts_witness :
  let journal :=
    [mkEntry "e1" [mkLine "303" 40 0; mkLine "101" 0 40];
     mkEntry "e2" [mkLine "101" 100 0; mkLine "nowhere" 0 60; mkLine "401" 0 40]] in
  journalWeight journal < 2 ^ 53
  /\ option_map (map (fun a => (Binary64.la_code a, Binary64.la_balance a)))
       (match Binary64.generateLedger (map embedEntry journal) with
        | Ok l => Some l
        | Throw _ => None
        end)
     = Some [("101", ofZ 60); ("102", ofZ 0); ("201", ofZ 0); ("301", ofZ 0);
             ("302", ofZ 0); ("303", ofZ 40); ("401", ofZ 40); ("501", ofZ 0)]
  /\ Binary64.generateLedger (map embedEntry journal)
     = match generateLedger journal with
       | Ok l => Ok (map embedAccount l)
       | Throw e => Throw e
       end.
Proof.
  cbv zeta. split; [reflexivity |]. split; [vm_compute; reflexivity |].
  exact (generateLedger_on_whole_amounts
           [mkEntry "e1" [mkLine "303" 40 0; mkLine "101" 0 40];
            mkEntry "e2" [mkLine "101" 100 0; mkLine "nowhere" 0 60;
                          mkLine "401" 0 40]]
           eq_refl).
Defined.

(** X24.  [generateLedger] on binary64 numbers, for any amounts: it returns
    exactly when no line names a property inherited from [Object.prototype],
    and then lists the chart accounts in chart order, the balance of each
    being the signed amounts of the lines posted to it added one after the
    other from 0, in posting order, and its history those lines in that
    order; otherwise it throws a [TypeError]. *)
Theorem generateLedger_binary64_closed_form (journal : list Binary64.JournalEntry) :
  Binary64.generateLedger journal
  = if Binary64.plainAccountIds journal
    then Ok (map (fun kv =>
                    {| Binary64.la_code := code (snd kv);
                       Binary64.la_name := name (snd kv);
                       Binary64.la_type := type (snd kv);
                       Binary64.la_balance :=
                         fold_left
                           (fun balance p =>
                              PrimFloat.add balance
                                (Binary64.signedAmount (normalBalance (snd kv)) p))
                           (filter (Binary64.postsTo (code (snd kv)))
                              (Binary64.postings journal))
                           0%float;
                       Binary64.la_entries :=
                         map Binary64.ledgerEntryOf
                           (filter (Binary64.postsTo (code (snd kv)))
                              (Binary64.postings journal)) |})
               CHART_OF_ACCOUNTS)
    else Throw TypeError.
Proof.
  rewrite generateLedger_b64. reflexivity.
Qed.
